(** * playwright-api-automation: container lifecycle and API-call logging

    A shallow embedding of the TypeScript sources

      - src/config/database.config.ts          DatabaseConfigManager
      - src/services/testcontainer.manager.ts  TestContainerManager, followed
                                               in the same file by
                                               DatabaseManager (imported by
                                               its users as
                                               services/database.manager)
      - src/helpers/user.client.ts             UserClient, followed in the
                                               same file by ApiClientBase
                                               (imported as
                                               helpers/api-client.base) and
                                               by globalSetup
                                               (config/global-setup)
      - src/helpers/auth.client.ts             AuthClient
      - src/config/global-teardown.ts          globalTeardown

    Every [async] method becomes a computation in the monad [M]: a function
    from the process state ([World]) to a completion (a returned value or a
    thrown one) and the next state.  What lies outside the process (the
    docker CLI, testcontainers, the pg driver and its server, the HTTP
    context, the JSON and URL built-ins) is a record of answer functions,
    [Outside]; each answer may depend on everything the process has asked
    that collaborator before, which the world keeps as a trace.

    Conventions.  [process.env] is a [gmap string string].  A JavaScript
    number is a [Z]: the model is exact for the integers a double holds
    exactly (below 2^53) and has no fractions.  A JavaScript string is a
    [string] of bytes.  Console lines are kept with their level and their
    text, without the leading pictograph and without the line feeds that
    only space the output.  SQL statements are kept as a
    small syntax tree ([Sql]) instead of their text. *)

From Stdlib Require Import ZArith String Ascii List Lia Bool.
From stdpp Require Import base strings gmap list pretty.
From Equations Require Import Equations.

Open Scope string_scope.
Open Scope Z_scope.

(** ** JavaScript values and completions *)

(** A thrown value: an [Error] instance with its message, or anything else
    (kept by its printed form). *)
Inductive JsThrown : Type :=
| JsError (message : string)
| JsOther (printed : string).

Inductive Completion (A : Type) : Type :=
| Return (a : A)
| Throw (e : JsThrown).
Arguments Return {A} a.
Arguments Throw {A} e.

(** Values of type [any] that travel as headers and bodies. *)
#[local] Unset Elimination Schemes.
Inductive JsValue : Type :=
| JsUndefined
| JsNull
| JsBool (b : bool)
| JsNumber (n : Z)
| JsString (s : string)
| JsArray (items : list JsValue)
| JsObject (props : list (string * JsValue)).
#[local] Set Elimination Schemes.

(** [!!v] *)
Definition truthy (v : JsValue) : bool :=
  match v with
  | JsUndefined | JsNull => false
  | JsBool b => b
  | JsNumber n => negb (n =? 0)
  | JsString s => negb (String.eqb s "")
  | JsArray _ | JsObject _ => true
  end.

(** [v === null || v === undefined] *)
Definition nullish (v : JsValue) : bool :=
  match v with
  | JsUndefined | JsNull => true
  | _ => false
  end.

(** [e instanceof Error ? e.message : e] *)
Definition message_of (e : JsThrown) : string :=
  match e with
  | JsError m => m
  | JsOther p => p
  end.

(** A value together with the equation that names it, for definitions by
    cases that must remember which case they are in. *)
Definition inspect {A} (a : A) : {b : A | a = b} := exist _ a eq_refl.

(** ** String built-ins *)

Definition dquote : string := String (ascii_of_nat 34) EmptyString.
Definition newline : ascii := ascii_of_nat 10.

(** [s.trim()], for the ASCII white space. *)
Fixpoint trimStart (s : string) : string :=
  match s with
  | String c s' => if Ascii.is_space c then trimStart s' else s
  | EmptyString => EmptyString
  end.

Fixpoint trimEnd (s : string) : string :=
  match s with
  | String c s' =>
      match trimEnd s' with
      | EmptyString => if Ascii.is_space c then EmptyString else String c EmptyString
      | t => String c t
      end
  | EmptyString => EmptyString
  end.

Definition trim (s : string) : string := trimEnd (trimStart s).

(** [s.split(sep)] for a one-character separator: never empty. *)
Fixpoint split (sep : ascii) (s : string) : list string :=
  match s with
  | EmptyString => [EmptyString]
  | String c s' =>
      if Ascii.eqb c sep then EmptyString :: split sep s'
      else match split sep s' with
           | piece :: rest => String c piece :: rest
           | [] => [String c EmptyString]
           end
  end.

(** [s.substring(0, n)] *)
Fixpoint substring0 (n : nat) (s : string) : string :=
  match n, s with
  | S n', String c s' => String c (substring0 n' s')
  | _, _ => EmptyString
  end.

(** [hay.includes(needle)] *)
Fixpoint includes (needle hay : string) : bool :=
  String.prefix needle hay ||
  match hay with
  | String _ hay' => includes needle hay'
  | EmptyString => false
  end.

Definition is_digit (c : ascii) : bool :=
  let n := nat_of_ascii c in (48 <=? n)%nat && (n <=? 57)%nat.

Definition digit_value (c : ascii) : Z := Z.of_nat (nat_of_ascii c) - 48.

(** The longest prefix of decimal digits, and what follows it. *)
Fixpoint span_digits (s : string) : string * string :=
  match s with
  | String c s' =>
      if is_digit c then let '(ds, rest) := span_digits s' in (String c ds, rest)
      else (EmptyString, s)
  | EmptyString => (EmptyString, EmptyString)
  end.

Fixpoint digits_value (acc : Z) (ds : string) : Z :=
  match ds with
  | String c ds' => digits_value (10 * acc + digit_value c) ds'
  | EmptyString => acc
  end.

(** [parseInt(s, 10)], and [parseInt(s)] on a string that does not start a
    hexadecimal literal: white space, an optional sign, then the longest run
    of digits; [None] is NaN. *)
Definition parseInt (s : string) : option Z :=
  let t := trimStart s in
  let '(sign, body) :=
    match t with
    | String "-" r => (-1, r)
    | String "+" r => (1, r)
    | _ => (1, t)
    end in
  match span_digits body with
  | (EmptyString, _) => None
  | (ds, _) => Some (sign * digits_value 0 ds)
  end.

(** [n.toString()] of an integer. *)
Definition toString (n : Z) : string := pretty n.

Fixpoint drop_prefix (p s : string) : option string :=
  match p, s with
  | EmptyString, _ => Some s
  | String a p', String b s' => if Ascii.eqb a b then drop_prefix p' s' else None
  | String _ _, EmptyString => None
  end.

(** One attempt of [/0\.0\.0\.0:(\d+)->5432/] at the start of [s].  The
    digits are taken greedily; giving one back never helps, since what must
    follow is [-]. *)
Definition port_regex_here (s : string) : option string :=
  match drop_prefix "0.0.0.0:" s with
  | Some r =>
      let '(ds, rest) := span_digits r in
      match ds with
      | EmptyString => None
      | _ => if String.prefix "->5432" rest then Some ds else None
      end
  | None => None
  end.

(** [s.match(/0\.0\.0\.0:(\d+)->5432/)]: the captured group of the leftmost
    match. *)
Fixpoint port_regex (s : string) : option string :=
  match port_regex_here s with
  | Some ds => Some ds
  | None =>
      match s with
      | String _ s' => port_regex s'
      | EmptyString => None
      end
  end.

(** ** The process state and what lies outside it *)

Inductive Level : Type := LOG | WARN | ERROR.

(** src/config/database.config.ts, [DatabaseConfig]; [port] is [None] when
    [parseInt] gives NaN. *)
Record DatabaseConfig : Type := mkDatabaseConfig {
  host : string;
  port : option Z;
  database : string;
  user : string;
  password : string;
  schema : string;
}.

(** What [new PostgreSqlContainer(image).with...()] has been told. *)
Record ContainerSpec : Type := mkContainerSpec {
  image : string;
  withDatabase : string;
  withUsername : string;
  withPassword : string;
  withExposedPorts : list Z;
  withLabels : list (string * string);
  withReuse : bool;
}.

Record StartedPostgreSqlContainer : Type := mkStarted {
  getId : string;
  getHost : string;
  getPort : Z;
  getDatabase : string;
  getUsername : string;
  getPassword : string;
}.

(** What the process asks of the container runtime, oldest first. *)
Inductive RuntimeCall : Type :=
| Exec (command : string)
| ContainerStart (spec : ContainerSpec)
| ContainerStop (c : StartedPostgreSqlContainer).

(** The argument of [new Pool(...)]. *)
Record Pool : Type := mkPool {
  pool_host : string;
  pool_port : option Z;
  pool_database : string;
  pool_user : string;
  pool_password : string;
  max : Z;
  idleTimeoutMillis : Z;
  connectionTimeoutMillis : Z;
}.

Inductive Sql : Type :=
| SelectOne
| CreateSchema (schema : string)
| CreateTableApiLogs (schema : string)
| CreateIndex (name schema column : string) (descending : bool)
| InsertApiLog (schema : string).

Inductive SqlValue : Type :=
| SqlNull
| SqlText (s : string)
| SqlInteger (n : Z).

Inductive DbCall : Type :=
| PoolQuery (p : Pool) (text : Sql) (params : list SqlValue)
| PoolConnect (p : Pool)
| ClientQuery (p : Pool) (text : Sql)
| ClientRelease (p : Pool)
| PoolEnd (p : Pool).

(** [result.rows], each row by its [id]. *)
Record QueryResult : Type := mkQueryResult { rows : list Z }.

(** The argument of [request.fetch]; [data] is absent unless
    [options.data] was truthy. *)
Record FetchCall : Type := mkFetchCall {
  fetch_url : string;
  fetch_method : string;
  fetch_headers : list (string * string);
  fetch_timeout : Z;
  fetch_data : option JsValue;
}.

(** An [APIResponse], by what its four read methods give. *)
Module APIResponse.
Record t : Type := mk {
  status : Z;
  headers : list (string * string);
  json : Completion JsValue;
  text : Completion string;
}.
End APIResponse.

Record World : Type := mkWorld {
  env : gmap string string;                      (* process.env *)
  console : list (Level * string);               (* oldest first *)
  clock : Z;                                     (* Date.now() *)
  runtime : list RuntimeCall;
  db : list (DbCall * Completion QueryResult);   (* calls and their answers *)
  network : list FetchCall;
  container : option StartedPostgreSqlContainer; (* TestContainerManager.container *)
  pool : option Pool;                            (* DatabaseManager.pool *)
  isInitialized : bool;                          (* DatabaseManager.isInitialized *)
}.

(** The collaborators.  An answer is a function of the calls made so far. *)
Record Outside : Type := mkOutside {
  exec_answer : list RuntimeCall -> string -> Completion string;
  container_start_answer :
    list RuntimeCall -> ContainerSpec -> Completion StartedPostgreSqlContainer;
  container_stop_answer :
    list RuntimeCall -> StartedPostgreSqlContainer -> Completion unit;
  new_Pool_throws : Pool -> option JsThrown;
  pg_answer : list (DbCall * Completion QueryResult) -> DbCall -> Completion QueryResult;
  (* the outcome of a fetch and the milliseconds it took *)
  fetch_answer : list FetchCall -> FetchCall -> Completion APIResponse.t * Z;
  JSON_stringify : JsValue -> Completion string;
  (* application/x-www-form-urlencoded escaping of one name or value *)
  urlencode : string -> string;
}.

(** ** The monad of [async] methods *)

Definition M (A : Type) : Type := World -> Completion A * World.

Definition ret {A} (a : A) : M A := fun w => (Return a, w).

Definition bind {A B} (m : M A) (k : A -> M B) : M B :=
  fun w =>
    match m w with
    | (Return a, w') => k a w'
    | (Throw e, w') => (Throw e, w')
    end.

Definition throw {A} (e : JsThrown) : M A := fun w => (Throw e, w).

(** [try { body } catch (e) { handler }] *)
Definition try_catch {A} (body : M A) (handler : JsThrown -> M A) : M A :=
  fun w =>
    match body w with
    | (Return a, w') => (Return a, w')
    | (Throw e, w') => handler e w'
    end.

(** [try { body } finally { cleanup }], for a cleanup that does not throw. *)
Definition try_finally {A} (body : M A) (cleanup : World -> World) : M A :=
  fun w => let '(r, w') := body w in (r, cleanup w').

#[global] Instance M_ret : MRet M := @ret.
#[global] Instance M_bind : MBind M := fun A B k m => bind m k.

(** A completion that asks nothing of the world. *)
Definition lift {A} (c : Completion A) : M A := fun w => (c, w).

Definition get {A} (f : World -> A) : M A := fun w => (Return (f w), w).
Definition modify (f : World -> World) : M unit := fun w => (Return tt, f w).

Definition with_env (f : gmap string string -> gmap string string) (w : World) : World :=
  mkWorld (f (env w)) (console w) (clock w) (runtime w) (db w) (network w)
          (container w) (pool w) (isInitialized w).
Definition with_console (f : list (Level * string) -> list (Level * string)) (w : World) : World :=
  mkWorld (env w) (f (console w)) (clock w) (runtime w) (db w) (network w)
          (container w) (pool w) (isInitialized w).
Definition with_clock (f : Z -> Z) (w : World) : World :=
  mkWorld (env w) (console w) (f (clock w)) (runtime w) (db w) (network w)
          (container w) (pool w) (isInitialized w).
Definition with_runtime (f : list RuntimeCall -> list RuntimeCall) (w : World) : World :=
  mkWorld (env w) (console w) (clock w) (f (runtime w)) (db w) (network w)
          (container w) (pool w) (isInitialized w).
Definition with_db
  (f : list (DbCall * Completion QueryResult) -> list (DbCall * Completion QueryResult))
  (w : World) : World :=
  mkWorld (env w) (console w) (clock w) (runtime w) (f (db w)) (network w)
          (container w) (pool w) (isInitialized w).
Definition with_network (f : list FetchCall -> list FetchCall) (w : World) : World :=
  mkWorld (env w) (console w) (clock w) (runtime w) (db w) (f (network w))
          (container w) (pool w) (isInitialized w).
Definition set_container (c : option StartedPostgreSqlContainer) (w : World) : World :=
  mkWorld (env w) (console w) (clock w) (runtime w) (db w) (network w)
          c (pool w) (isInitialized w).
Definition set_pool (p : option Pool) (w : World) : World :=
  mkWorld (env w) (console w) (clock w) (runtime w) (db w) (network w)
          (container w) p (isInitialized w).
Definition set_isInitialized (b : bool) (w : World) : World :=
  mkWorld (env w) (console w) (clock w) (runtime w) (db w) (network w)
          (container w) (pool w) b.

(** [process.env.NAME === 'value'] *)
Definition env_is (name value : string) (w : World) : bool :=
  match env w !! name with
  | Some v => String.eqb v value
  | None => false
  end.

(** [process.env.NAME = value] *)
Definition setenv (name value : string) : M unit :=
  modify (with_env (insert name value)).

Definition console_log (msg : string) : M unit :=
  modify (with_console (fun c => (c ++ [(LOG, msg)])%list)).
Definition console_warn (msg : string) : M unit :=
  modify (with_console (fun c => (c ++ [(WARN, msg)])%list)).
Definition console_error (msg : string) : M unit :=
  modify (with_console (fun c => (c ++ [(ERROR, msg)])%list)).

(** [Date.now()] *)
Definition Date_now : M Z := get clock.

(** [await new Promise(resolve => setTimeout(resolve, ms))] *)
Definition sleep (ms : Z) : M unit := modify (with_clock (fun t => t + ms)).

(** [process.env.NAME || fallback] *)
Definition env_or (name fallback : string) (w : World) : string :=
  match env w !! name with
  | Some v => if String.eqb v "" then fallback else v
  | None => fallback
  end.

(** ** src/config/database.config.ts *)

Module DatabaseConfigManager.

(** [loadConfig] *)
Definition loadConfig (w : World) : DatabaseConfig :=
  {| host := env_or "DB_HOST" "localhost" w;
     port := parseInt (env_or "DB_PORT" "5432" w);
     database := env_or "DB_NAME" "api_test_db" w;
     user := env_or "DB_USER" "testuser" w;
     password := env_or "DB_PASSWORD" "testpass" w;
     schema := env_or "DB_SCHEMA" "api_logs" w |}.

(** [getConfig]: always a fresh read; the copy it keeps in [this.config]
    is never read without being overwritten first, and is left out. *)
Definition getConfig : M DatabaseConfig := get loadConfig.

End DatabaseConfigManager.

(** ** src/services/testcontainer.manager.ts, first part: [TestContainerManager] *)

Module TestContainerManager.
Section WithOutside.
Context (out : Outside).

(** [await execPromise(command)]: the command's stdout, or a rejection. *)
Definition execPromise (command : string) : M string :=
  fun w =>
    (exec_answer out (runtime w) command,
     with_runtime (fun r => (r ++ [Exec command])%list) w).

(** The result of [findExistingContainer]. *)
Record ExistingContainer : Type := mkExisting {
  exists_ : bool;
  containerId : option string;
  port_ : option Z;
}.

Definition not_found : ExistingContainer :=
  {| exists_ := false; containerId := None; port_ := None |}.

Definition ps_format : string :=
  " --format " ++ dquote ++ "{{.ID}},{{.Ports}}" ++ dquote.
Definition ps_by_label : string :=
  "docker ps --filter " ++ dquote ++ "label=playwright-test=true" ++ dquote ++ ps_format.
Definition ps_by_ancestor : string :=
  "docker ps --filter " ++ dquote ++ "ancestor=postgres:16-alpine" ++ dquote ++ ps_format.
Definition docker_update (containerId : string) : string :=
  "docker update --label playwright-test=true " ++ containerId.
Definition docker_inspect (containerId : string) : string :=
  "docker inspect " ++ containerId ++ " --format='{{.State.Running}}'".
Definition docker_rm (containerId : string) : string :=
  "docker rm -f " ++ containerId.

(** [findExistingContainer] *)
Definition findExistingContainer : M ExistingContainer :=
  try_catch
    (stdout ← execPromise ps_by_label;
     stdout ←
       (if String.eqb (trim stdout) "" then
          stdout ← execPromise ps_by_ancestor;
          (if negb (String.eqb (trim stdout) "") then
             console_log "Found existing PostgreSQL container without label (old system)";;
             console_log "   Adding label for better management...";;
             let containerId := hd "" (split newline (hd "" (split "," (trim stdout)))) in
             try_catch
               (execPromise (docker_update containerId);;
                console_log "Label added to existing container")
               (fun _ => console_log "Could not add label (container will still be reused)")
           else mret tt);;
          mret stdout
        else mret stdout);
     if negb (String.eqb (trim stdout) "") then
       let lines := split newline (trim stdout) in
       let containerInfo := split "," (hd "" lines) in
       let containerId := hd "" containerInfo in
       match containerInfo !! 1%nat with
       | None =>
           (* portsString is undefined: calling .match on it is a TypeError *)
           throw (JsError "Cannot read properties of undefined (reading 'match')")
       | Some portsString =>
           let port :=
             match port_regex portsString with
             | Some digits => parseInt digits
             | None => None
             end in
           match port with
           | Some p =>
               if negb (p =? 0) then
                 console_log ("Found existing container: " ++ substring0 12 containerId);;
                 console_log ("Container port: " ++ toString p);;
                 mret {| exists_ := true; containerId := Some containerId; port_ := Some p |}
               else mret not_found
           | None => mret not_found
           end
       end
     else mret not_found)
    (fun _ => mret not_found).

(** [getExistingContainerConfig] *)
Definition getExistingContainerConfig (containerId : string) (port : Z) : M unit :=
  try_catch
    (stdout ← execPromise (docker_inspect containerId);
     if String.eqb (trim stdout) "true" then
       config ← DatabaseConfigManager.getConfig;
       setenv "DB_HOST" "localhost";;
       setenv "DB_PORT" (toString port);;
       setenv "DB_NAME" (database config);;
       setenv "DB_USER" (user config);;
       setenv "DB_PASSWORD" (password config);;
       setenv "DB_INITIALIZED" "true";;
       console_log "Reusing existing PostgreSQL container";;
       console_log "  Host: localhost";;
       console_log ("  Port: " ++ toString port);;
       console_log ("  Database: " ++ database config)
     else throw (JsError "Container is not running"))
    (fun error =>
       console_warn "Existing container is not healthy, will create new one";;
       throw error).

(** [new PostgreSqlContainer('postgres:16-alpine').with...().start()] *)
Definition startContainer (spec : ContainerSpec) : M StartedPostgreSqlContainer :=
  fun w =>
    (container_start_answer out (runtime w) spec,
     with_runtime (fun r => (r ++ [ContainerStart spec])%list) w).

(** [await c.stop()] *)
Definition stopContainer (c : StartedPostgreSqlContainer) : M unit :=
  fun w =>
    (container_stop_answer out (runtime w) c,
     with_runtime (fun r => (r ++ [ContainerStop c])%list) w).

(** The part of [start] after the reuse attempt: create a new container. *)
Definition start_new (keepContainerRunning : bool) : M (option StartedPostgreSqlContainer) :=
  console_log "Starting new PostgreSQL container...";;
  config ← DatabaseConfigManager.getConfig;
  c ← startContainer
        {| image := "postgres:16-alpine";
           withDatabase := database config;
           withUsername := user config;
           withPassword := password config;
           withExposedPorts := [5432];
           withLabels := [("playwright-test", "true")];
           withReuse := true |};
  modify (set_container (Some c));;
  setenv "DB_HOST" (getHost c);;
  setenv "DB_PORT" (toString (getPort c));;
  setenv "DB_NAME" (getDatabase c);;
  setenv "DB_USER" (getUsername c);;
  setenv "DB_PASSWORD" (getPassword c);;
  setenv "DB_INITIALIZED" "true";;
  console_log "PostgreSQL container started successfully";;
  console_log ("  Container ID: " ++ substring0 12 (getId c));;
  console_log ("  Host: " ++ getHost c);;
  console_log ("  Port: " ++ toString (getPort c));;
  console_log ("  Database: " ++ getDatabase c);;
  (if keepContainerRunning
   then console_log "  Mode: DEBUG (container will persist after tests)"
   else console_log "  Mode: NORMAL (container will be cleaned up after tests)");;
  console_log "";;
  mret (Some c).

(** [`${id}`] of an optional string. *)
Definition interpolate (s : option string) : string :=
  match s with Some s => s | None => "undefined" end.

Definition port_truthy (p : option Z) : bool :=
  match p with Some p => negb (p =? 0) | None => false end.

(** [start]: [None] is the [null] returned on reuse. *)
Definition start : M (option StartedPostgreSqlContainer) :=
  keepContainerRunning ← get (env_is "KEEP_CONTAINER_RUNNING" "true");
  console_log "Checking for existing PostgreSQL container...";;
  existingContainer ← findExistingContainer;
  if exists_ existingContainer && port_truthy (port_ existingContainer) then
    try_catch
      (getExistingContainerConfig
         (interpolate (containerId existingContainer))
         (default 0 (port_ existingContainer));;
       console_log "Successfully connected to existing container";;
       mret None)
      (fun _ =>
         console_log "Could not reuse existing container, creating new one...";;
         try_catch
           (execPromise (docker_rm (interpolate (containerId existingContainer)));; mret tt)
           (fun _ => mret tt);;
         start_new keepContainerRunning)
  else
    console_log "No existing container found, creating new one...";;
    start_new keepContainerRunning.

(** [stop] *)
Definition stop : M unit :=
  keepContainerRunning ← get (env_is "KEEP_CONTAINER_RUNNING" "true");
  if (keepContainerRunning : bool) then
    console_log "Container kept running for debugging (KEEP_CONTAINER_RUNNING=true)";;
    console_log "   To stop it manually, run: npm run db:stop"
  else
    c ← get container;
    match c with
    | Some c =>
        stopContainer c;;
        modify (set_container None);;
        console_log "PostgreSQL container stopped"
    | None => mret tt
    end.

End WithOutside.
End TestContainerManager.

(** ** src/services/testcontainer.manager.ts, second part: [DatabaseManager] *)

Module DatabaseManager.

(** The argument of [logApiCall]; an absent [any] field is [JsUndefined],
    an absent or [null] number is [None]. *)
Record ApiCallLogEntry : Type := mkEntry {
  testName : option string;
  endpoint : string;
  method : string;
  requestHeaders : JsValue;
  requestBody : JsValue;
  responseStatus : option Z;
  responseHeaders : JsValue;
  responseBody : JsValue;
  executionTimeMs : option Z;
}.

(** [s || null], [n || null], and a JSON text or [null], as query
    parameters. *)
Definition text_or_null (s : option string) : SqlValue :=
  match s with
  | Some s => if String.eqb s "" then SqlNull else SqlText s
  | None => SqlNull
  end.

Definition number_or_null (n : option Z) : SqlValue :=
  match n with
  | Some n => if n =? 0 then SqlNull else SqlInteger n
  | None => SqlNull
  end.

Definition json_param (s : option string) : SqlValue :=
  match s with
  | Some s => SqlText s
  | None => SqlNull
  end.

(** [`${config.port}`] *)
Definition show_port (p : option Z) : string :=
  match p with Some n => toString n | None => "NaN" end.

(** [`${n}`] of an optional number. *)
Definition show_number (n : option Z) : string :=
  match n with Some n => toString n | None => "undefined" end.

Section WithOutside.
Context (out : Outside).

(** One call to the pg driver: its answer, recorded in the trace. *)
Definition pg (call : DbCall) : M QueryResult :=
  fun w =>
    let answer := pg_answer out (db w) call in
    (answer, with_db (fun d => (d ++ [(call, answer)])%list) w).

(** The argument [{ host, port, database, user, password, max: 10, ... }]
    of [new Pool]. *)
Definition pool_options (config : DatabaseConfig) : Pool :=
  {| pool_host := host config;
     pool_port := port config;
     pool_database := database config;
     pool_user := user config;
     pool_password := password config;
     max := 10;
     idleTimeoutMillis := 30000;
     connectionTimeoutMillis := 5000 |}.

(** [new Pool(...)] *)
Definition new_Pool (config : DatabaseConfig) : M Pool :=
  match new_Pool_throws out (pool_options config) with
  | Some e => throw e
  | None => mret (pool_options config)
  end.

Definition not_initialized : JsThrown :=
  JsError "Database pool not initialized. Call initialize() first.".

(** [getClient]: the client, by the pool it was taken from. *)
Definition getClient : M Pool :=
  p ← get pool;
  i ← get isInitialized;
  match p with
  | Some p => if (i : bool) then pg (PoolConnect p);; mret p else throw not_initialized
  | None => throw not_initialized
  end.

(** [query] *)
Definition query (text : Sql) (params : list SqlValue) : M QueryResult :=
  p ← get pool;
  i ← get isInitialized;
  match p with
  | Some p => if (i : bool) then pg (PoolQuery p text params) else throw not_initialized
  | None => throw not_initialized
  end.

(** [createSchemaAndTables] *)
Definition createSchemaAndTables : M unit :=
  config ← DatabaseConfigManager.getConfig;
  client ← getClient;
  try_finally
    (pg (ClientQuery client (CreateSchema (schema config)));;
     pg (ClientQuery client (CreateTableApiLogs (schema config)));;
     pg (ClientQuery client (CreateIndex "idx_api_logs_method" (schema config) "method" false));;
     pg (ClientQuery client (CreateIndex "idx_api_logs_endpoint" (schema config) "endpoint" false));;
     pg (ClientQuery client (CreateIndex "idx_api_logs_created_at" (schema config) "created_at" true));;
     pg (ClientQuery client (CreateIndex "idx_api_logs_test_name" (schema config) "test_name" false));;
     pg (ClientQuery client
           (CreateIndex "idx_api_logs_response_status" (schema config) "response_status" false));;
     console_log "Database schema and tables created/verified";;
     console_log ("Schema: " ++ schema config);;
     console_log "Tables: api_logs";;
     console_log "Indexes: method, endpoint, created_at, test_name, response_status")
    (* client.release() *)
    (with_db (fun d => (d ++ [(ClientRelease client, Return (mkQueryResult []))])%list)).

(** [initialize] *)
Definition initialize : M unit :=
  i ← get isInitialized;
  if (i : bool) then console_log "Database already initialized"
  else
    config ← DatabaseConfigManager.getConfig;
    console_log ("Connecting to PostgreSQL at " ++ host config ++ ":"
                 ++ show_port (port config) ++ "...");;
    p ← new_Pool config;
    modify (set_pool (Some p));;
    try_catch
      (pg (PoolQuery p SelectOne []);;
       console_log "Database connection verified")
      (fun error =>
         console_error ("Database connection failed: " ++ message_of error);;
         console_error ("   Attempted connection: " ++ host config ++ ":"
                        ++ show_port (port config));;
         throw error);;
    modify (set_isInitialized true);;
    createSchemaAndTables;;
    console_log "Database initialized successfully".

(** [reinitializePool] *)
Definition reinitializePool : M unit :=
  i ← get isInitialized;
  if (i : bool) then mret tt
  else
    try_catch
      (config ← DatabaseConfigManager.getConfig;
       p ← new_Pool config;
       modify (set_pool (Some p));;
       modify (set_isInitialized true))
      (fun error =>
         debug ← get (env_is "DEBUG" "true");
         if (debug : bool)
         then console_error ("The pool could not be recreated: " ++ message_of error)
         else mret tt).

(** [isReady] *)
Definition isReady : M bool :=
  i ← get isInitialized;
  flag ← get (env_is "DB_INITIALIZED" "true");
  (if negb i && flag then reinitializePool else mret tt);;
  i ← get isInitialized;
  p ← get pool;
  mret (i && bool_decide (p ≠ None)).

(** [close] *)
Definition close : M unit :=
  p ← get pool;
  match p with
  | Some p =>
      pg (PoolEnd p);;
      modify (set_pool None);;
      modify (set_isInitialized false);;
      console_log "Database connection closed"
  | None => mret tt
  end.

(** The closure [stringifyJson] of [logApiCall]; [None] is [null]. *)
Definition stringifyJson (obj : JsValue) : M (option string) :=
  if nullish obj then mret None
  else
    try_catch
      (s ← lift (JSON_stringify out obj); mret (Some s))
      (fun _ =>
         s ← lift (JSON_stringify out
                     (JsObject [("error", JsString "Failed to stringify object")]));
         mret (Some s)).

(** [logApiCall].  The object printed after "Data attempted to log:" is
    left out of the console line. *)
Definition logApiCall (data : ApiCallLogEntry) : M unit :=
  ready ← isReady;
  if negb ready then
    debug ← get (env_is "DEBUG" "true");
    if (debug : bool) then console_warn "Database not ready, skipping log" else mret tt
  else
    try_catch
      (config ← DatabaseConfigManager.getConfig;
       request_headers ← stringifyJson (requestHeaders data);
       request_body ← stringifyJson (requestBody data);
       response_headers ← stringifyJson (responseHeaders data);
       response_body ← stringifyJson (responseBody data);
       let values :=
         [ text_or_null (testName data);
           SqlText (endpoint data);
           SqlText (method data);
           json_param request_headers;
           json_param request_body;
           number_or_null (responseStatus data);
           json_param response_headers;
           json_param response_body;
           number_or_null (executionTimeMs data) ] in
       result ← query (InsertApiLog (schema config)) values;
       debug ← get (env_is "DEBUG" "true");
       if (debug : bool) then
         match rows result with
         | id :: _ =>
             console_log ("API call logged with ID: " ++ toString id);;
             console_log ("  Method: " ++ method data);;
             console_log ("  Endpoint: " ++ endpoint data);;
             console_log ("  Status: " ++ show_number (responseStatus data));;
             console_log ("  Execution Time: " ++ show_number (executionTimeMs data) ++ "ms")
         | [] =>
             (* result.rows[0] is undefined: reading .id is a TypeError *)
             throw (JsError "Cannot read properties of undefined (reading 'id')")
         end
       else mret tt)
      (fun error =>
         debug ← get (env_is "DEBUG" "true");
         if (debug : bool) then
           console_warn "Failed to log API call to database:";;
           console_error (message_of error);;
           console_error "Data attempted to log:"
         else mret tt).

End WithOutside.
End DatabaseManager.

(** ** src/helpers/user.client.ts, second part: [ApiClientBase] *)

Module ApiClientBase.

Record ApiCallOptions : Type := mkOptions {
  headers : option (list (string * string));
  data : JsValue;
  params : option (list (string * string));
  testName : option string;
}.

(** The fields of a client that the methods read.  [request], the HTTP
    context, is the [fetch_answer] of [Outside]; [dbManager] is the one
    [DatabaseManager] of the world. *)
Record t : Type := mk {
  baseURL : string;
  logApiCalls : bool;
}.

Definition maxRetries : nat := 2.

Definition closed_signature : string := "context or browser has been closed".

(** [error instanceof Error && error.message.includes(...)] *)
Definition retryable (error : JsThrown) : bool :=
  match error with
  | JsError message => includes closed_signature message
  | JsOther _ => false
  end.

(** A string record as a JavaScript object. *)
Definition record_object (r : list (string * string)) : JsValue :=
  JsObject (map (fun kv => (fst kv, JsString (snd kv))) r).

Section WithOutside.
Context (out : Outside).

(** The constructor. *)
Definition new (baseURL : string) : M t :=
  log ← get (env_is "LOG_API_CALLS" "true");
  mret {| baseURL := baseURL; logApiCalls := log |}.

(** [new URLSearchParams(params).toString()] *)
Definition URLSearchParams_toString (params : list (string * string)) : string :=
  String.concat "&"
    (map (fun kv => urlencode out (fst kv) ++ "=" ++ urlencode out (snd kv)) params).

(** [await this.request.fetch(url, { method, ...requestOptions })] *)
Definition fetch (call : FetchCall) : M APIResponse.t :=
  fun w =>
    let '(answer, elapsed) := fetch_answer out (network w) call in
    (answer,
     with_clock (fun now => now + elapsed)
       (with_network (fun n => (n ++ [call])%list) w)).

(** [logToDatabase] *)
Definition logToDatabase (method endpoint : string) (options : ApiCallOptions)
    (response : option APIResponse.t) (executionTime : Z) : M unit :=
  try_catch
    (read ←
       match response with
       | Some r =>
           responseBody ←
             try_catch (lift (APIResponse.json r))
               (fun _ =>
                  try_catch (s ← lift (APIResponse.text r); mret (JsString s))
                    (fun _ => mret (JsString "Unable to parse response")));
           mret (responseBody, record_object (APIResponse.headers r),
                 Some (APIResponse.status r))
       | None => mret (JsNull, JsNull, None)
       end;
     DatabaseManager.logApiCall out
       {| DatabaseManager.testName := testName options;
          DatabaseManager.endpoint := endpoint;
          DatabaseManager.method := method;
          DatabaseManager.requestHeaders :=
            match headers options with
            | Some h => record_object h
            | None => JsUndefined
            end;
          DatabaseManager.requestBody := data options;
          DatabaseManager.responseStatus := snd read;
          DatabaseManager.responseHeaders := snd (fst read);
          DatabaseManager.responseBody := fst (fst read);
          DatabaseManager.executionTimeMs := Some executionTime |})
    (fun error =>
       debug ← get (env_is "DEBUG" "true");
       if (debug : bool)
       then console_warn ("Failed to log API call: " ++ message_of error)
       else mret tt).

(** What [makeRequest] hands to [fetch]. *)
Definition fetch_call (self : t) (method endpoint : string) (options : ApiCallOptions)
  : FetchCall :=
  let url := baseURL self ++ endpoint in
  {| fetch_url :=
       match params options with
       | Some ps => url ++ "?" ++ URLSearchParams_toString ps
       | None => url
       end;
     fetch_method := method;
     fetch_headers := default [] (headers options);
     fetch_timeout := 30000;
     fetch_data := if truthy (data options) then Some (data options) else None |}.

(** [this.logApiCalls && this.dbManager.isReady()] *)
Definition shouldLog (self : t) : M bool :=
  if logApiCalls self then DatabaseManager.isReady out else mret false.

(** The [try] block of [makeRequest]. *)
Definition makeRequest_try (self : t) (method endpoint : string)
    (options : ApiCallOptions) (startTime : Z) : M APIResponse.t :=
  response ← fetch (fetch_call self method endpoint options);
  now ← Date_now;
  let executionTime := now - startTime in
  log ← shouldLog self;
  (if (log : bool) then
     try_catch
       (logToDatabase method endpoint options (Some response) executionTime)
       (fun err => console_error ("Failed to log API call: " ++ message_of err))
   else mret tt);;
  mret response.

(** The [catch] block of [makeRequest], when it does not retry. *)
Definition makeRequest_rethrow (self : t) (method endpoint : string)
    (options : ApiCallOptions) (startTime : Z) (error : JsThrown) : M APIResponse.t :=
  now ← Date_now;
  let executionTime := now - startTime in
  console_error ("API call failed: " ++ method ++ " " ++ endpoint ++ " "
                 ++ message_of error);;
  log ← shouldLog self;
  (if (log : bool) then
     try_catch (logToDatabase method endpoint options None executionTime)
       (fun _ => mret tt)
   else mret tt);;
  throw error.

(** The [catch] block of [makeRequest], before it retries: the warning and
    the one-second wait. *)
Definition makeRequest_pause (retryCount : nat) : M unit :=
  console_warn ("Request failed (attempt " ++ pretty (retryCount + 1)%nat ++ "/"
                ++ pretty (maxRetries + 1)%nat ++ "), retrying...");;
  sleep 1000.

(** [makeRequest] *)
Equations? makeRequest (self : t) (method endpoint : string) (options : ApiCallOptions)
    (retryCount : nat) (w : World) : Completion APIResponse.t * World
    by wf (maxRetries - retryCount)%nat lt :=
makeRequest self method endpoint options retryCount w
    with inspect (makeRequest_try self method endpoint options (clock w) w) := {
  | exist _ (Return response, w1) _ => (Return response, w1)
  | exist _ (Throw error, w1) _
      with inspect (retryable error && (retryCount <? maxRetries)%nat) := {
    | exist _ true _ =>
        makeRequest self method endpoint options (S retryCount)
          (snd (makeRequest_pause retryCount w1))
    | exist _ false _ =>
        makeRequest_rethrow self method endpoint options (clock w) error w1 } }.
Proof.
  match goal with
  | H : _ && _ = true |- _ => apply andb_true_iff in H as [_ Hlt]
  end.
  apply Nat.ltb_lt in Hlt. unfold maxRetries in *. lia.
Defined.

Definition get_ (self : t) (endpoint : string) (options : ApiCallOptions) : M APIResponse.t :=
  makeRequest self "GET" endpoint options 0%nat.
Definition post (self : t) (endpoint : string) (options : ApiCallOptions) : M APIResponse.t :=
  makeRequest self "POST" endpoint options 0%nat.
Definition put (self : t) (endpoint : string) (options : ApiCallOptions) : M APIResponse.t :=
  makeRequest self "PUT" endpoint options 0%nat.
Definition patch (self : t) (endpoint : string) (options : ApiCallOptions) : M APIResponse.t :=
  makeRequest self "PATCH" endpoint options 0%nat.
Definition delete (self : t) (endpoint : string) (options : ApiCallOptions) : M APIResponse.t :=
  makeRequest self "DELETE" endpoint options 0%nat.

End WithOutside.
End ApiClientBase.

(** ** src/helpers/user.client.ts, first part: [UserClient] *)

Module UserClient.
Section WithOutside.
Context (out : Outside).




(** The options of a call that sends only [data] and [testName]. *)
Definition data_options (data : JsValue) (testName : option string)
  : ApiClientBase.ApiCallOptions :=
  {| ApiClientBase.headers := None;
     ApiClientBase.data := data;
     ApiClientBase.params := None;
     ApiClientBase.testName := testName |}.

(** [getUserById] *)
Definition getUserById (self : ApiClientBase.t) (userId : Z) (testName : option string)
  : M APIResponse.t :=
  ApiClientBase.get_ out self ("/users/" ++ toString userId)
    (data_options JsUndefined testName).

(** [searchUsers] *)
Definition searchUsers (self : ApiClientBase.t) (query : string) (testName : option string)
  : M APIResponse.t :=
  ApiClientBase.get_ out self "/users/search"
    {| ApiClientBase.headers := None;
       ApiClientBase.data := JsUndefined;
       ApiClientBase.params := Some [("q", query)];
       ApiClientBase.testName := testName |}.

(** [createUser] *)
Definition createUser (self : ApiClientBase.t) (userData : JsValue)
    (testName : option string) : M APIResponse.t :=
  ApiClientBase.post out self "/users/add" (data_options userData testName).

(** [updateUserPut] *)
Definition updateUserPut (self : ApiClientBase.t) (userId : Z) (userData : JsValue)
    (testName : option string) : M APIResponse.t :=
  ApiClientBase.put out self ("/users/" ++ toString userId) (data_options userData testName).

(** [updateUserPatch] *)
Definition updateUserPatch (self : ApiClientBase.t) (userId : Z) (userData : JsValue)
    (testName : option string) : M APIResponse.t :=
  ApiClientBase.patch out self ("/users/" ++ toString userId)
    (data_options userData testName).

(** [deleteUser] *)
Definition deleteUser (self : ApiClientBase.t) (userId : Z) (testName : option string)
  : M APIResponse.t :=
  ApiClientBase.delete out self ("/users/" ++ toString userId)
    (data_options JsUndefined testName).

End WithOutside.
End UserClient.

(** ** src/helpers/auth.client.ts *)

Module AuthClient.
Section WithOutside.
Context (out : Outside).

(** [login] *)
Definition login (self : ApiClientBase.t) (credentials : JsValue)
    (testName : option string) : M APIResponse.t :=
  ApiClientBase.post out self "/auth/login" (UserClient.data_options credentials testName).

(** [getCurrentUser] *)
Definition getCurrentUser (self : ApiClientBase.t) (token : string)
    (testName : option string) : M APIResponse.t :=
  ApiClientBase.get_ out self "/auth/me"
    {| ApiClientBase.headers := Some [("Authorization", "Bearer " ++ token)];
       ApiClientBase.data := JsUndefined;
       ApiClientBase.params := None;
       ApiClientBase.testName := testName |}.

(** [refreshToken] *)
Definition refreshToken (self : ApiClientBase.t) (refreshToken : string)
    (testName : option string) : M APIResponse.t :=
  ApiClientBase.post out self "/auth/refresh"
    (UserClient.data_options (JsObject [("refreshToken", JsString refreshToken)]) testName).

End WithOutside.
End AuthClient.

(** ** src/helpers/user.client.ts, third part: [globalSetup] *)

Module GlobalSetup.
Section WithOutside.
Context (out : Outside).

Definition rule : string := "========================================".

(** [`${b}`] of a boolean. *)
Definition show_bool (b : bool) : string := if b then "true" else "false".

(** The [catch] block of [globalSetup]; the error is printed by its
    message. *)
Definition report (error : JsThrown) : M unit :=
  console_error rule;;
  console_error "GLOBAL SETUP FAILED";;
  console_error rule;;
  console_error ("Error details: " ++ message_of error);;
  console_error "Troubleshooting:";;
  console_error "  1. Check if Colima is running: colima status";;
  console_error "  2. Check if Docker is accessible: docker ps";;
  console_error "  3. Try restarting Colima: colima restart";;
  console_error "  4. Check for port conflicts: lsof -i :5432";;
  console_error rule;;
  throw error.

(** The [try] block of [globalSetup].  [DatabaseConfigManager.getInstance()]
    in step 1 only reads the environment, and is left out. *)
Definition steps (keepContainerRunning : bool) : M unit :=
  console_log "Step 1: Initializing database configuration...";;
  console_log "Database configuration initialized";;
  console_log "Step 2: Setting up PostgreSQL container...";;
  TestContainerManager.start out;;
  sleep 2000;;
  freshConfig ← DatabaseConfigManager.getConfig;
  console_log "Database configuration refreshed";;
  console_log ("  Connecting to: " ++ host freshConfig ++ ":"
               ++ DatabaseManager.show_port (port freshConfig));;
  console_log "Step 3: Initializing database schema...";;
  DatabaseManager.initialize out;;
  console_log "";;
  console_log "Step 4: Verifying setup...";;
  ready ← DatabaseManager.isReady out;
  (if (ready : bool)
   then console_log "Database is ready for logging"
   else console_warn "Database initialization completed but not ready");;
  console_log rule;;
  console_log "GLOBAL SETUP COMPLETED SUCCESSFULLY";;
  console_log rule;;
  if keepContainerRunning then
    console_log "TIP: Container will stay running after tests";;
    console_log "   View logs: npm run db:logs";;
    console_log "   Access DB: npm run db:shell";;
    console_log "   Stop DB: npm run db:stop"
  else mret tt.

(** [globalSetup] *)
Definition globalSetup : M unit :=
  console_log rule;;
  console_log "GLOBAL SETUP - Starting Test Environment";;
  console_log rule;;
  logApiCalls ← get (env_is "LOG_API_CALLS" "true");
  keepContainerRunning ← get (env_is "KEEP_CONTAINER_RUNNING" "true");
  console_log "Configuration:";;
  console_log ("  LOG_API_CALLS: " ++ show_bool logApiCalls);;
  console_log ("  KEEP_CONTAINER_RUNNING: " ++ show_bool keepContainerRunning);;
  console_log "";;
  if negb logApiCalls then
    console_log "API logging disabled, skipping database setup";;
    console_log "   To enable logging, run: npm run test:debug";;
    console_log rule
  else try_catch (steps keepContainerRunning) report.

End WithOutside.
End GlobalSetup.

(** ** src/config/global-teardown.ts *)

Module GlobalTeardown.
Section WithOutside.
Context (out : Outside).

(** The [catch] block of [globalTeardown]: it reports, the error by its
    message, and does not rethrow. *)
Definition report (error : JsThrown) : M unit :=
  console_error GlobalSetup.rule;;
  console_error "GLOBAL TEARDOWN FAILED";;
  console_error GlobalSetup.rule;;
  console_error ("Error details: " ++ message_of error);;
  console_error "Note: This is usually not critical.";;
  console_error "You can manually clean up with: npm run db:clean";;
  console_error GlobalSetup.rule.

(** The [try] block of [globalTeardown]. *)
Definition steps (keepContainerRunning : bool) : M unit :=
  console_log "Step 1: Closing database connections...";;
  DatabaseManager.close out;;
  console_log "";;
  (if keepContainerRunning then
     console_log "Step 2: Container Management...";;
     console_log "Container kept running for debugging (KEEP_CONTAINER_RUNNING=true)";;
     console_log "";;
     console_log "Container is still running! To access it:";;
     console_log "   View logs: npm run db:logs";;
     console_log "   Access DB: npm run db:shell";;
     console_log "   Stop DB: npm run db:stop";;
     console_log ""
   else
     console_log "Step 2: Stopping container...";;
     TestContainerManager.stop out;;
     console_log "");;
  console_log GlobalSetup.rule;;
  console_log "GLOBAL TEARDOWN COMPLETED";;
  console_log GlobalSetup.rule.

(** [globalTeardown] *)
Definition globalTeardown : M unit :=
  console_log GlobalSetup.rule;;
  console_log "GLOBAL TEARDOWN - Cleaning Up";;
  console_log GlobalSetup.rule;;
  keepContainerRunning ← get (env_is "KEEP_CONTAINER_RUNNING" "true");
  logApiCalls ← get (env_is "LOG_API_CALLS" "true");
  if negb logApiCalls then
    console_log "API logging was disabled, no cleanup needed";;
    console_log GlobalSetup.rule
  else try_catch (steps keepContainerRunning) report.

End WithOutside.
End GlobalTeardown.

(** ** Sample collaborators and worlds *)

(** A process that has just started with environment [e]: both managers
    are freshly constructed and nothing has been asked of anyone. *)
Definition fresh (e : gmap string string) : World :=
  {| env := e; console := []; clock := 0; runtime := []; db := []; network := [];
     container := None; pool := None; isInitialized := false |}.

Module Sample.

Definition a_response : APIResponse.t :=
  {| APIResponse.status := 200;
     APIResponse.headers := [("content-type", "application/json")];
     APIResponse.json := Return (JsObject [("users", JsArray [])]);
     APIResponse.text := Return "{}" |}.

Definition a_container : StartedPostgreSqlContainer :=
  {| getId := "4f1d2c3b4a59"; getHost := "localhost"; getPort := 32768;
     getDatabase := "api_test_db"; getUsername := "testuser"; getPassword := "testpass" |}.

(** Collaborators that always succeed: no container is running, every
    query returns one row, every fetch answers 200 after 12 ms. *)
Definition quiet : Outside :=
  {| exec_answer := fun _ _ => Return "";
     container_start_answer := fun _ _ => Return a_container;
     container_stop_answer := fun _ _ => Return tt;
     new_Pool_throws := fun _ => None;
     pg_answer := fun _ _ => Return (mkQueryResult [1]);
     fetch_answer := fun _ _ => (Return a_response, 12);
     JSON_stringify := fun _ => Return "{}";
     urlencode := fun s => s |}.

(** The same, with a database server that refuses every call. *)
Definition db_down : Outside :=
  {| exec_answer := exec_answer quiet;
     container_start_answer := container_start_answer quiet;
     container_stop_answer := container_stop_answer quiet;
     new_Pool_throws := new_Pool_throws quiet;
     pg_answer := fun _ _ => Throw (JsError "connect ECONNREFUSED");
     fetch_answer := fetch_answer quiet;
     JSON_stringify := JSON_stringify quiet;
     urlencode := urlencode quiet |}.

(** The same as [quiet], with a server that answers the connectivity check
    and refuses everything else. *)
Definition ddl_refused : Outside :=
  {| exec_answer := exec_answer quiet;
     container_start_answer := container_start_answer quiet;
     container_stop_answer := container_stop_answer quiet;
     new_Pool_throws := new_Pool_throws quiet;
     pg_answer := fun _ call =>
       match call with
       | PoolQuery _ SelectOne _ | PoolConnect _ => Return (mkQueryResult [])
       | _ => Throw (JsError "permission denied for database")
       end;
     fetch_answer := fetch_answer quiet;
     JSON_stringify := JSON_stringify quiet;
     urlencode := urlencode quiet |}.

(** Container runtimes.  [labelled]: one labelled container is running.
    [legacy]: one container of the image is running without the label, and
    [docker update] cannot attach it.  [stale]: the labelled container is
    listed, and [docker inspect] says it is not running.  [no_docker]: the
    CLI fails, and so does the creation of a container. *)
Definition docker (answer : string -> Completion string)
    (create : Completion StartedPostgreSqlContainer) : Outside :=
  {| exec_answer := fun _ command => answer command;
     container_start_answer := fun _ _ => create;
     container_stop_answer := container_stop_answer quiet;
     new_Pool_throws := new_Pool_throws quiet;
     pg_answer := pg_answer quiet;
     fetch_answer := fetch_answer quiet;
     JSON_stringify := JSON_stringify quiet;
     urlencode := urlencode quiet |}.

Definition a_listing : string :=
  "4f1d2c3b4a59,0.0.0.0:32768->5432/tcp, :::32768->5432/tcp" ++ String newline "".

Definition labelled : Outside :=
  docker (fun command =>
            if String.eqb command TestContainerManager.ps_by_label then Return a_listing
            else if String.prefix "docker inspect" command
                 then Return ("true" ++ String newline "")
                 else Return "")
         (Return a_container).

Definition legacy : Outside :=
  docker (fun command =>
            if String.eqb command TestContainerManager.ps_by_ancestor then Return a_listing
            else if String.prefix "docker inspect" command
                 then Return ("true" ++ String newline "")
                 else if String.prefix "docker update" command
                      then Throw (JsError "Command failed: docker update: unknown flag: --label")
                      else Return "")
         (Return a_container).

Definition stale : Outside :=
  docker (fun command =>
            if String.eqb command TestContainerManager.ps_by_label then Return a_listing
            else if String.prefix "docker inspect" command
                 then Return ("false" ++ String newline "")
                 else Return "")
         (Return a_container).

(** [legacy_unmapped]: the unlabelled container publishes its port on the
    loopback address only, which the port pattern does not read; [docker
    inspect] would say it is running.  [legacy_stale]: the unlabelled
    container is listed with its mapping, and [docker inspect] says it is
    not running. *)
Definition an_unmapped_listing : string :=
  "4f1d2c3b4a59,127.0.0.1:32768->5432/tcp" ++ String newline "".

Definition legacy_unmapped : Outside :=
  docker (fun command =>
            if String.eqb command TestContainerManager.ps_by_ancestor
            then Return an_unmapped_listing
            else if String.prefix "docker inspect" command
                 then Return ("true" ++ String newline "")
                 else Return "")
         (Return a_container).

Definition legacy_stale : Outside :=
  docker (fun command =>
            if String.eqb command TestContainerManager.ps_by_ancestor then Return a_listing
            else if String.prefix "docker inspect" command
                 then Return ("false" ++ String newline "")
                 else Return "")
         (Return a_container).

Definition no_docker : Outside :=
  docker (fun _ => Throw (JsError "Command failed: docker: command not found"))
         (Throw (JsError "Could not find a working container runtime strategy")).

(** An HTTP context that is found closed on the first two fetches and
    answers the third, and one that refuses every connection. *)
Definition closed_twice : Outside :=
  {| exec_answer := exec_answer quiet;
     container_start_answer := container_start_answer quiet;
     container_stop_answer := container_stop_answer quiet;
     new_Pool_throws := new_Pool_throws quiet;
     pg_answer := pg_answer quiet;
     fetch_answer := fun made _ =>
       if (length made <? 2)%nat
       then (Throw (JsError "apiRequestContext.fetch: Target page, context or browser has been closed"), 3)
       else (Return a_response, 12);
     JSON_stringify := JSON_stringify quiet;
     urlencode := urlencode quiet |}.

Definition refusing : Outside :=
  {| exec_answer := exec_answer quiet;
     container_start_answer := container_start_answer quiet;
     container_stop_answer := container_stop_answer quiet;
     new_Pool_throws := new_Pool_throws quiet;
     pg_answer := pg_answer quiet;
     fetch_answer := fun _ _ => (Throw (JsError "connect ECONNREFUSED 127.0.0.1:443"), 0);
     JSON_stringify := JSON_stringify quiet;
     urlencode := urlencode quiet |}.

Definition a_client : ApiClientBase.t :=
  {| ApiClientBase.baseURL := "https://dummyjson.com"; ApiClientBase.logApiCalls := true |}.

Definition no_options : ApiClientBase.ApiCallOptions :=
  {| ApiClientBase.headers := None; ApiClientBase.data := JsUndefined;
     ApiClientBase.params := None; ApiClientBase.testName := None |}.

(** An object that refers to itself, and a [JSON.stringify] that throws
    on it. *)
Definition circular : JsValue := JsObject [("self", JsString "[Circular *1]")].

Definition strict : Outside :=
  {| exec_answer := exec_answer quiet;
     container_start_answer := container_start_answer quiet;
     container_stop_answer := container_stop_answer quiet;
     new_Pool_throws := new_Pool_throws quiet;
     pg_answer := pg_answer quiet;
     fetch_answer := fetch_answer quiet;
     JSON_stringify := fun v =>
       match v with
       | JsObject [("self", _)] => Throw (JsError "Converting circular structure to JSON")
       | JsObject [("error", JsString m)] =>
           Return ("{" ++ dquote ++ "error" ++ dquote ++ ":" ++ dquote ++ m ++ dquote ++ "}")
       | _ => Return "{}"
       end;
     urlencode := urlencode quiet |}.

(** An entry about a call that failed at once: no response, no time
    spent. *)
Definition zero_entry : DatabaseManager.ApiCallLogEntry :=
  {| DatabaseManager.testName := Some "lists users";
     DatabaseManager.endpoint := "/users";
     DatabaseManager.method := "GET";
     DatabaseManager.requestHeaders := JsUndefined;
     DatabaseManager.requestBody := JsUndefined;
     DatabaseManager.responseStatus := Some 0;
     DatabaseManager.responseHeaders := JsNull;
     DatabaseManager.responseBody := JsNull;
     DatabaseManager.executionTimeMs := Some 0 |}.

Definition circular_entry : DatabaseManager.ApiCallLogEntry :=
  {| DatabaseManager.testName := None;
     DatabaseManager.endpoint := "/users/add";
     DatabaseManager.method := "POST";
     DatabaseManager.requestHeaders := JsUndefined;
     DatabaseManager.requestBody := circular;
     DatabaseManager.responseStatus := Some 201;
     DatabaseManager.responseHeaders := JsNull;
     DatabaseManager.responseBody := circular;
     DatabaseManager.executionTimeMs := Some 40 |}.

(** The environment once [TestContainerManager.start] has run. *)
Definition flagged : gmap string string := {[ "DB_INITIALIZED" := "true" ]}.

End Sample.

(** * Vocabulary of the properties *)

(** A computation keeps a relation between the world it starts in and the
    world it ends in. *)
Definition preserves {A} (R : relation World) (m : M A) : Prop :=
  forall w, R w (m w).2.

(** Two worlds that agree on one component. *)
Definition same {A} (f : World -> A) : relation World := fun w w' => f w' = f w.

(** A relation that console output and calls to the database cannot
    break, and one that changes to the manager's two fields cannot break
    either: no step of the logging path breaks the second kind. *)
Class TraceFrame (R : relation World) : Prop := {
  #[global] trace_preorder :: PreOrder R;
  frame_console : forall g w, R w (with_console g w);
  frame_db : forall g w, R w (with_db g w);
}.

Class LoggingFrame (R : relation World) : Prop := {
  #[global] logging_trace :: TraceFrame R;
  frame_pool : forall p w, R w (set_pool p w);
  frame_isInitialized : forall b w, R w (set_isInitialized b w);
}.

Definition never_throws {A} (m : M A) : Prop :=
  forall w, exists a, (m w).1 = Return a.

(** A computation that returns [a], or throws [e], whatever the world. *)
Definition returns {A} (a : A) (m : M A) : Prop := forall w, (m w).1 = Return a.
Definition throws {A} (e : JsThrown) (m : M A) : Prop := forall w, (m w).1 = Throw e.

(** [hay] has [needle] somewhere inside. *)
Definition contains (needle hay : string) : Prop :=
  exists before after, hay = before ++ needle ++ after.

(** The connection pool manager never claims to be initialized without a
    pool. *)
Definition consistent (w : World) : Prop :=
  isInitialized w = true -> pool w <> None.

(** What a process can do to the connection pool manager, and to the
    environment it reads. *)
Inductive Op : Type :=
| OpInitialize
| OpIsReady
| OpClose
| OpGetClient
| OpQuery (text : Sql) (params : list SqlValue)
| OpLogApiCall (data : DatabaseManager.ApiCallLogEntry)
| OpSetEnv (name value : string).

Definition run_op (out : Outside) (op : Op) (w : World) : World :=
  match op with
  | OpInitialize => (DatabaseManager.initialize out w).2
  | OpIsReady => (DatabaseManager.isReady out w).2
  | OpClose => (DatabaseManager.close out w).2
  | OpGetClient => (DatabaseManager.getClient out w).2
  | OpQuery text params => (DatabaseManager.query out text params w).2
  | OpLogApiCall data => (DatabaseManager.logApiCall out data w).2
  | OpSetEnv name value => (setenv name value w).2
  end.

Definition run_ops (out : Outside) (ops : list Op) (w : World) : World :=
  foldl (fun w op => run_op out op w) w ops.

(** The errors among the answers of a stretch of database calls. *)
Definition refusals (calls : list (DbCall * Completion QueryResult)) : list JsThrown :=
  omap (fun ca => match ca.2 with Throw e => Some e | Return _ => None end) calls.

(** A computation that stops at the first database call that is refused,
    and throws what that call threw. *)
Definition fail_fast {A} (m : M A) : Prop :=
  forall w, exists added,
    db (m w).2 = (db w ++ added)%list /\
    match (m w).1 with
    | Return _ => refusals added = []
    | Throw e => Forall (eq e) (refusals added)
    end.

(** The rows of [api_logs]: the parameters of the inserts that the server
    accepted. *)
Definition stored_rows (calls : list (DbCall * Completion QueryResult))
  : list (list SqlValue) :=
  omap (fun ca =>
          match ca with
          | (PoolQuery _ (InsertApiLog _) params, Return _) => Some params
          | _ => None
          end) calls.

(** The row the round trip of an entry calls for: every field as it is,
    an absent one as NULL, a header or body as its JSON text. *)
Definition claimed_json (out : Outside) (v : JsValue) : SqlValue :=
  if nullish v then SqlNull
  else match JSON_stringify out v with
       | Return s => SqlText s
       | Throw _ => SqlNull
       end.

Definition claimed_row (out : Outside) (data : DatabaseManager.ApiCallLogEntry)
  : list SqlValue :=
  [ from_option SqlText SqlNull (DatabaseManager.testName data);
    SqlText (DatabaseManager.endpoint data);
    SqlText (DatabaseManager.method data);
    claimed_json out (DatabaseManager.requestHeaders data);
    claimed_json out (DatabaseManager.requestBody data);
    from_option SqlInteger SqlNull (DatabaseManager.responseStatus data);
    claimed_json out (DatabaseManager.responseHeaders data);
    claimed_json out (DatabaseManager.responseBody data);
    from_option SqlInteger SqlNull (DatabaseManager.executionTimeMs data) ].

(** [JSON.stringify] does not throw on [v], or is not asked. *)
Definition serializable (out : Outside) (v : JsValue) : Prop :=
  nullish v = true \/ exists s, JSON_stringify out v = Return s.

(** Every character of a string passes a test. *)
Fixpoint all_chars (ok : ascii -> bool) (s : string) : bool :=
  match s with
  | String c s' => ok c && all_chars ok s'
  | EmptyString => true
  end.

(** A character of a container id as [docker ps] prints it: no comma, no
    line break, no white space. *)
Definition id_char (c : ascii) : bool :=
  negb (Ascii.eqb c ",") && negb (Ascii.eqb c newline) && negb (Ascii.is_space c).

(** What lines 64-78 of [findExistingContainer] make of a listing that is
    not blank: the container and host port of its first line, nothing
    when the port does not parse, a [TypeError] when the line has no
    comma. *)
Definition discovered (stdout : string) : Completion (option (string * Z)) :=
  let containerInfo := split "," (hd "" (split newline (trim stdout))) in
  match containerInfo !! 1%nat with
  | None => Throw (JsError "Cannot read properties of undefined (reading 'match')")
  | Some portsString =>
      match port_regex portsString with
      | Some digits =>
          match parseInt digits with
          | Some p => if negb (p =? 0) then Return (Some (hd "" containerInfo, p))
                      else Return None
          | None => Return None
          end
      | None => Return None
      end
  end.

(** The answer of [docker inspect] that lets [start] reuse a container. *)
Definition says_running (answer : Completion string) : bool :=
  match answer with
  | Return stdout => String.eqb (trim stdout) "true"
  | Throw _ => false
  end.

(** What [findExistingContainer] returns for what a listing yields. *)
Definition found_of (d : Completion (option (string * Z)))
  : TestContainerManager.ExistingContainer :=
  match d with
  | Return (Some (cid, p)) =>
      {| TestContainerManager.exists_ := true;
         TestContainerManager.containerId := Some cid;
         TestContainerManager.port_ := Some p |}
  | _ => TestContainerManager.not_found
  end.

(** The container [start] asks testcontainers for. *)
Definition new_container_spec (w : World) : ContainerSpec :=
  let config := DatabaseConfigManager.loadConfig w in
  {| image := "postgres:16-alpine";
     withDatabase := database config;
     withUsername := user config;
     withPassword := password config;
     withExposedPorts := [5432];
     withLabels := [("playwright-test", "true")];
     withReuse := true |}.

(** [start] goes on to ask for a new container, and ends as that request
    ends. *)
Definition creates (out : Outside) (w : World) : Prop :=
  exists hist,
    runtime (TestContainerManager.start out w).2 =
      (hist ++ [ContainerStart (new_container_spec w)])%list /\
    (TestContainerManager.start out w).1 =
      match container_start_answer out hist (new_container_spec w) with
      | Return c => Return (Some c)
      | Throw e => Throw e
      end.

(** The calls that start or stop a container. *)
Definition starts_or_stops (call : RuntimeCall) : bool :=
  match call with
  | Exec _ => false
  | ContainerStart _ | ContainerStop _ => true
  end.

(** ** Vocabulary of the further properties *)

(** The six variables [start] writes, on top of an environment. *)
Definition published (host port database user password : string)
    (e : gmap string string) : gmap string string :=
  <["DB_INITIALIZED" := "true"]>
    (<["DB_PASSWORD" := password]>
       (<["DB_USER" := user]>
          (<["DB_NAME" := database]>
             (<["DB_PORT" := port]> (<["DB_HOST" := host]> e))))).

(** The calls [start] makes between the discovery and the creation: the
    check of a container it found, and its removal. *)
Definition replaces (found : TestContainerManager.ExistingContainer) : list RuntimeCall :=
  if TestContainerManager.exists_ found
     && TestContainerManager.port_truthy (TestContainerManager.port_ found)
  then [Exec (TestContainerManager.docker_inspect
                (TestContainerManager.interpolate (TestContainerManager.containerId found)));
        Exec (TestContainerManager.docker_rm
                (TestContainerManager.interpolate (TestContainerManager.containerId found)))]
  else [].

(** [s || fallback] *)
Definition or_else (s fallback : string) : string :=
  if String.eqb s "" then fallback else s.

(** A component of the world that the container manager does not write:
    anything but the environment, the console, the runtime and the handle
    of the container. *)
Class ContainerFrame {A} (f : World -> A) : Prop := {
  over_runtime : forall g w, f (with_runtime g w) = f w;
  over_env : forall g w, f (with_env g w) = f w;
  over_console : forall g w, f (with_console g w) = f w;
  over_container : forall c w, f (set_container c w) = f w;
}.

(** All four headers and bodies of an entry can be written as JSON. *)
Definition entry_serializable (out : Outside) (data : DatabaseManager.ApiCallLogEntry) : Prop :=
  serializable out (DatabaseManager.requestHeaders data) /\
  serializable out (DatabaseManager.requestBody data) /\
  serializable out (DatabaseManager.responseHeaders data) /\
  serializable out (DatabaseManager.responseBody data).

(** The parameters [logApiCall] hands to the insert, for an entry that can
    be written as JSON. *)
Definition stored_row (out : Outside) (data : DatabaseManager.ApiCallLogEntry)
  : list SqlValue :=
  [ DatabaseManager.text_or_null (DatabaseManager.testName data);
    SqlText (DatabaseManager.endpoint data);
    SqlText (DatabaseManager.method data);
    claimed_json out (DatabaseManager.requestHeaders data);
    claimed_json out (DatabaseManager.requestBody data);
    DatabaseManager.number_or_null (DatabaseManager.responseStatus data);
    claimed_json out (DatabaseManager.responseHeaders data);
    claimed_json out (DatabaseManager.responseBody data);
    DatabaseManager.number_or_null (DatabaseManager.executionTimeMs data) ].

(** One call to the database and its answer, as the trace keeps it. *)
Definition asked (out : Outside) (w : World) (call : DbCall)
  : DbCall * Completion QueryResult :=
  (call, pg_answer out (db w) call).

(** What [logToDatabase] keeps of a response body: the JSON it parses to,
    else its text, else a fixed string. *)
Definition response_body (r : APIResponse.t) : JsValue :=
  match APIResponse.json r with
  | Return v => v
  | Throw _ =>
      match APIResponse.text r with
      | Return s => JsString s
      | Throw _ => JsString "Unable to parse response"
      end
  end.

(** The entry [logToDatabase] hands to [logApiCall]. *)
Definition log_entry (method endpoint : string) (options : ApiClientBase.ApiCallOptions)
    (response : option APIResponse.t) (executionTime : Z)
  : DatabaseManager.ApiCallLogEntry :=
  {| DatabaseManager.testName := ApiClientBase.testName options;
     DatabaseManager.endpoint := endpoint;
     DatabaseManager.method := method;
     DatabaseManager.requestHeaders :=
       match ApiClientBase.headers options with
       | Some h => ApiClientBase.record_object h
       | None => JsUndefined
       end;
     DatabaseManager.requestBody := ApiClientBase.data options;
     DatabaseManager.responseStatus := option_map APIResponse.status response;
     DatabaseManager.responseHeaders :=
       match response with
       | Some r => ApiClientBase.record_object (APIResponse.headers r)
       | None => JsNull
       end;
     DatabaseManager.responseBody :=
       match response with
       | Some r => response_body r
       | None => JsNull
       end;
     DatabaseManager.executionTimeMs := Some executionTime |}.

(** The world once a fetch has been made and has taken its time. *)
Definition fetched (call : FetchCall) (elapsed : Z) (w : World) : World :=
  with_clock (fun now => now + elapsed) (with_network (fun n => (n ++ [call])%list) w).

(** What the client does about logging once the outcome of a call is
    known: nothing when logging is off or the manager is not ready, one
    [logApiCall] otherwise. *)
Definition logged (out : Outside) (self : ApiClientBase.t)
    (entry : DatabaseManager.ApiCallLogEntry) (w : World) : World :=
  if ApiClientBase.logApiCalls self then
    match DatabaseManager.isReady out w with
    | (Return true, w') => (DatabaseManager.logApiCall out entry w').2
    | (_, w') => w'
    end
  else w.

(** From one world to the next the database has been asked at most one
    thing: to insert one row about a call of [method] on [endpoint]. *)
Definition at_most_one_insert (out : Outside) (method endpoint : string) (w w' : World)
  : Prop :=
  db w' = db w \/
  exists p row,
    length row = 9%nat /\
    row !! 1%nat = Some (SqlText endpoint) /\ row !! 2%nat = Some (SqlText method) /\
    db w' =
      (db w ++ [asked out w (PoolQuery p
                               (InsertApiLog (schema (DatabaseConfigManager.loadConfig w)))
                               row)])%list.

(** Two worlds in which the database manager, the trace of the database
    and the environment are the same. *)
Definition same_logging_state (w w' : World) : Prop :=
  db w' = db w /\ env w' = env w /\ pool w' = pool w /\ isInitialized w' = isInitialized w.

(** What a call of the client may have done to the logging state; with
    logging off, nothing. *)
Definition logging_effect (out : Outside) (self : ApiClientBase.t) (method endpoint : string)
    (w w' : World) : Prop :=
  at_most_one_insert out method endpoint w w' /\ env w' = env w /\
  (ApiClientBase.logApiCalls self = false ->
   db w' = db w /\ pool w' = pool w /\ isInitialized w' = isInitialized w).

(** A request without headers of its own. *)
Definition request (url method : string) (data : option JsValue) : FetchCall :=
  {| fetch_url := url; fetch_method := method; fetch_headers := [];
     fetch_timeout := 30000; fetch_data := data |}.

(** A computation sends one request, at least once and at most three
    times, and nothing else. *)
Definition sends {A} (call : FetchCall) (m : M A) : Prop :=
  forall w, exists n,
    (1 <= n <= 3)%nat /\ network (m w).2 = (network w ++ replicate n call)%list.

(** Two worlds that differ at most by what has been printed and by the
    time. *)
Definition apart (w1 w2 : World) : Prop :=
  env w1 = env w2 /\ runtime w1 = runtime w2 /\ db w1 = db w2 /\
  network w1 = network w2 /\ container w1 = container w2 /\
  pool w1 = pool w2 /\ isInitialized w1 = isInitialized w2.

(** A computation that reads neither the console nor the clock: from two
    such worlds it ends the same way, in two such worlds. *)
Definition blind {A} (m : M A) : Prop :=
  forall w1 w2, apart w1 w2 -> (m w1).1 = (m w2).1 /\ apart (m w1).2 (m w2).2.

(** * Properties *)

(** ** Running a computation *)

#[global] Arguments env_is : simpl never.
#[global] Arguments env_or : simpl never.
#[global] Arguments DatabaseConfigManager.loadConfig : simpl never.
#[global] Arguments DatabaseManager.pool_options : simpl never.
#[global] Arguments trim : simpl never.
#[global] Arguments split : simpl never.
#[global] Arguments port_regex : simpl never.
#[global] Arguments parseInt : simpl never.
#[global] Arguments substring0 : simpl never.
#[global] Arguments toString : simpl never.
#[global] Arguments TestContainerManager.ps_by_label : simpl never.
#[global] Arguments TestContainerManager.ps_by_ancestor : simpl never.
#[global] Arguments TestContainerManager.docker_update : simpl never.
#[global] Arguments TestContainerManager.docker_inspect : simpl never.
#[global] Arguments TestContainerManager.docker_rm : simpl never.
#[global] Arguments new_container_spec : simpl never.

Lemma run_bind {A B} (m : M A) (k : A -> M B) (w : World) :
  (m ≫= k) w =
  match m w with
  | (Return a, w') => k a w'
  | (Throw e, w') => (Throw e, w')
  end.
Proof. reflexivity. Qed.

Lemma run_ret {A} (a : A) (w : World) : (mret a : M A) w = (Return a, w).
Proof. reflexivity. Qed.

(** Run a computation as far as its text goes. *)
Ltac run := repeat first [rewrite run_bind | progress simpl].

(** ** Computations that keep a relation between the worlds they start and
    end in, and computations that do not throw *)

Section Preserves.
Context (R : relation World) `{!PreOrder R}.

Lemma preserves_ret {A} (a : A) : preserves R (mret a : M A).
Proof. intros w. reflexivity. Qed.

Lemma preserves_throw {A} (e : JsThrown) : preserves R (throw e : M A).
Proof. intros w. reflexivity. Qed.

Lemma preserves_lift {A} (c : Completion A) : preserves R (lift c).
Proof. intros w. reflexivity. Qed.

Lemma preserves_get {A} (f : World -> A) : preserves R (get f).
Proof. intros w. reflexivity. Qed.

Lemma preserves_modify (f : World -> World) :
  (forall w, R w (f w)) -> preserves R (modify f).
Proof. intros Hf w. apply Hf. Qed.

Lemma preserves_bind {A B} (m : M A) (k : A -> M B) :
  preserves R m -> (forall a, preserves R (k a)) -> preserves R (m ≫= k).
Proof.
  intros Hm Hk w. rewrite run_bind. specialize (Hm w).
  destruct (m w) as [[a|e] w']; simpl in *; [|done].
  etrans; [exact Hm|apply Hk].
Qed.

Lemma preserves_try_catch {A} (body : M A) (handler : JsThrown -> M A) :
  preserves R body -> (forall e, preserves R (handler e)) ->
  preserves R (try_catch body handler).
Proof.
  intros Hb Hh w. unfold try_catch. specialize (Hb w).
  destruct (body w) as [[a|e] w']; simpl in *; [done|].
  etrans; [exact Hb|apply Hh].
Qed.

Lemma preserves_try_finally {A} (body : M A) (cleanup : World -> World) :
  preserves R body -> (forall w, R w (cleanup w)) ->
  preserves R (try_finally body cleanup).
Proof.
  intros Hb Hc w. unfold try_finally. specialize (Hb w).
  destruct (body w) as [r w']; simpl in *.
  etrans; [exact Hb|apply Hc].
Qed.

End Preserves.

#[global] Instance same_preorder {A} (f : World -> A) : PreOrder (same f).
Proof. split; unfold same; [intros w|intros w1 w2 w3 H1 H2]; congruence. Qed.

#[global] Instance same_pool_frame : TraceFrame (same pool).
Proof. split; try apply _; intros; reflexivity. Qed.
#[global] Instance same_isInitialized_frame : TraceFrame (same isInitialized).
Proof. split; try apply _; intros; reflexivity. Qed.
#[global] Instance same_env_trace : TraceFrame (same env).
Proof. split; try apply _; intros; reflexivity. Qed.
#[global] Instance same_clock_trace : TraceFrame (same clock).
Proof. split; try apply _; intros; reflexivity. Qed.
#[global] Instance same_runtime_trace : TraceFrame (same runtime).
Proof. split; try apply _; intros; reflexivity. Qed.
#[global] Instance same_network_trace : TraceFrame (same network).
Proof. split; try apply _; intros; reflexivity. Qed.
#[global] Instance same_container_trace : TraceFrame (same container).
Proof. split; try apply _; intros; reflexivity. Qed.
#[global] Instance same_env_frame : LoggingFrame (same env).
Proof. split; try apply _; intros; reflexivity. Qed.
#[global] Instance same_clock_frame : LoggingFrame (same clock).
Proof. split; try apply _; intros; reflexivity. Qed.
#[global] Instance same_runtime_frame : LoggingFrame (same runtime).
Proof. split; try apply _; intros; reflexivity. Qed.
#[global] Instance same_network_frame : LoggingFrame (same network).
Proof. split; try apply _; intros; reflexivity. Qed.
#[global] Instance same_container_frame : LoggingFrame (same container).
Proof. split; try apply _; intros; reflexivity. Qed.

Lemma never_throws_ret {A} (a : A) : never_throws (mret a : M A).
Proof. intros w. by exists a. Qed.

Lemma never_throws_get {A} (f : World -> A) : never_throws (get f).
Proof. intros w. by eexists. Qed.

Lemma never_throws_modify (f : World -> World) : never_throws (modify f).
Proof. intros w. by eexists. Qed.

Lemma never_throws_bind {A B} (m : M A) (k : A -> M B) :
  never_throws m -> (forall a, never_throws (k a)) -> never_throws (m ≫= k).
Proof.
  intros Hm Hk w. rewrite run_bind. destruct (Hm w) as [a Ha].
  destruct (m w) as [r w']; simpl in Ha; subst r. apply Hk.
Qed.

Lemma never_throws_try_catch {A} (body : M A) (handler : JsThrown -> M A) :
  (forall e, never_throws (handler e)) -> never_throws (try_catch body handler).
Proof.
  intros Hh w. unfold try_catch.
  destruct (body w) as [[a|e] w']; [by exists a|apply Hh].
Qed.

Lemma returns_ret {A} (a : A) : returns a (mret a : M A).
Proof. intros w. reflexivity. Qed.

Lemma returns_bind {A B} (m : M A) (k : A -> M B) (b : B) :
  never_throws m -> (forall a, returns b (k a)) -> returns b (m ≫= k).
Proof.
  intros Hm Hk w. rewrite run_bind. destruct (Hm w) as [a Ha].
  destruct (m w) as [r w']; simpl in Ha; subst r. apply Hk.
Qed.

Lemma throws_throw {A} (e : JsThrown) : throws e (throw e : M A).
Proof. intros w. reflexivity. Qed.

Lemma throws_bind {A B} (m : M A) (k : A -> M B) (e : JsThrown) :
  never_throws m -> (forall a, throws e (k a)) -> throws e (m ≫= k).
Proof.
  intros Hm Hk w. rewrite run_bind. destruct (Hm w) as [a Ha].
  destruct (m w) as [r w']; simpl in Ha; subst r. apply Hk.
Qed.

(** The structural steps of a proof that a computation preserves a
    relation or does not throw: they follow the text of the computation and
    leave the calls it makes. *)
Ltac frame_side :=
  try match goal with
      | |- PreOrder _ => apply _
      | |- TraceFrame _ => apply _
      | |- LoggingFrame _ => apply _
      end.

Ltac structural :=
  repeat first
    [ match goal with
      | |- PreOrder _ => apply _
      | |- TraceFrame _ => apply _
      | |- LoggingFrame _ => apply _
      | |- preserves _ (mret _) => apply preserves_ret
      | |- preserves _ (throw _) => apply preserves_throw
      | |- preserves _ (lift _) => apply preserves_lift
      | |- preserves _ (get _) => apply preserves_get
      | |- preserves _ (modify _) =>
          apply preserves_modify; frame_side; intros ?;
          solve [ reflexivity | unfold same; reflexivity | apply frame_console
                | apply frame_db | apply frame_pool | apply frame_isInitialized ]
      | |- preserves _ (mbind _ _) => apply preserves_bind; frame_side; [|intros ?]
      | |- preserves _ (try_catch _ _) =>
          apply preserves_try_catch; frame_side; [|intros ?]
      | |- preserves _ (try_finally _ _) =>
          apply preserves_try_finally; frame_side;
          [|intros ?; solve [apply frame_db | reflexivity | unfold same; reflexivity]]
      | |- never_throws (mret _) => apply never_throws_ret
      | |- never_throws (get _) => apply never_throws_get
      | |- never_throws (modify _) => apply never_throws_modify
      | |- never_throws (mbind _ _) => apply never_throws_bind; [|intros ?]
      | |- never_throws (try_catch _ _) => apply never_throws_try_catch; intros ?
      | |- returns _ (mret _) => apply returns_ret
      | |- returns _ (mbind _ _) => apply returns_bind; [|intros ?]
      | |- throws _ (throw _) => apply throws_throw
      | |- throws _ (mbind _ _) => apply throws_bind; [|intros ?]
      | |- preserves _ (if ?b then _ else _) => destruct b
      | |- preserves _ (match ?x with _ => _ end) => destruct x
      | |- never_throws (if ?b then _ else _) => destruct b
      | |- never_throws (match ?x with _ => _ end) => destruct x
      end
    | progress unfold console_log, console_warn, console_error, setenv, sleep, Date_now,
        DatabaseConfigManager.getConfig
    | progress cbv beta zeta ].

(** ** The connection pool manager *)

Section DatabaseManagerFacts.
Import DatabaseManager.
Context (out : Outside).

Lemma run_pg (call : DbCall) (w : World) :
  pg out call w =
  (pg_answer out (db w) call,
   with_db (fun d => (d ++ [(call, pg_answer out (db w) call)])%list) w).
Proof. reflexivity. Qed.

Section TraceFrame.
Context (R : relation World) `{!TraceFrame R}.

Lemma pg_preserves (call : DbCall) : preserves R (pg out call).
Proof. intros w. apply frame_db. Qed.

Lemma getClient_preserves : preserves R (getClient out).
Proof. unfold getClient. structural; apply pg_preserves. Qed.

Lemma query_preserves (text : Sql) (params : list SqlValue) :
  preserves R (query out text params).
Proof. unfold query. structural; apply pg_preserves. Qed.

Lemma createSchemaAndTables_preserves : preserves R (createSchemaAndTables out).
Proof.
  unfold createSchemaAndTables.
  structural; first [apply getClient_preserves | apply pg_preserves].
Qed.

Lemma stringifyJson_preserves (obj : JsValue) : preserves R (stringifyJson out obj).
Proof. unfold stringifyJson. structural. Qed.

End TraceFrame.

Section Frame.
Context (R : relation World) `{!LoggingFrame R}.

Lemma new_Pool_preserves (config : DatabaseConfig) : preserves R (new_Pool out config).
Proof. unfold new_Pool. structural. Qed.

Lemma reinitializePool_preserves : preserves R (reinitializePool out).
Proof. unfold reinitializePool. structural. apply new_Pool_preserves. Qed.

Lemma isReady_preserves : preserves R (isReady out).
Proof. unfold isReady. structural. apply reinitializePool_preserves. Qed.

Lemma logApiCall_preserves (data : ApiCallLogEntry) : preserves R (logApiCall out data).
Proof.
  unfold logApiCall.
  structural;
    first [ apply isReady_preserves | apply stringifyJson_preserves; apply _
          | apply query_preserves; apply _ ].
Qed.

End Frame.

Lemma reinitializePool_never_throws : never_throws (reinitializePool out).
Proof. unfold reinitializePool. structural. Qed.

Lemma isReady_never_throws : never_throws (isReady out).
Proof. unfold isReady. structural. apply reinitializePool_never_throws. Qed.

Lemma logApiCall_never_throws (data : ApiCallLogEntry) : never_throws (logApiCall out data).
Proof. unfold logApiCall. structural. apply isReady_never_throws. Qed.

End DatabaseManagerFacts.

(** ** What [isReady], [initialize] and [close] do *)

Section Lifecycle.
Import DatabaseManager.
Context (out : Outside).

Lemma isReady_unflagged (w : World) :
  env_is "DB_INITIALIZED" "true" w = false ->
  isReady out w = (Return (isInitialized w && bool_decide (pool w <> None)), w).
Proof.
  intros Hflag. unfold isReady. run. rewrite Hflag, andb_false_r. reflexivity.
Qed.

Lemma isReady_initialized (w : World) :
  isInitialized w = true ->
  isReady out w = (Return (bool_decide (pool w <> None)), w).
Proof.
  intros Hi. unfold isReady. run. rewrite Hi. run. rewrite Hi. reflexivity.
Qed.

(** With the flag set and no pool yet, [isReady] builds one. *)
Lemma isReady_recreates (w : World) :
  isInitialized w = false ->
  env_is "DB_INITIALIZED" "true" w = true ->
  new_Pool_throws out (pool_options (DatabaseConfigManager.loadConfig w)) = None ->
  isReady out w =
  (Return true,
   set_isInitialized true
     (set_pool (Some (pool_options (DatabaseConfigManager.loadConfig w))) w)).
Proof.
  intros Hi Hflag Hnew. unfold isReady. run.
  rewrite Hi, Hflag. simpl.
  unfold reinitializePool. run. rewrite Hi.
  unfold try_catch, new_Pool, DatabaseConfigManager.getConfig.
  run. rewrite Hnew. reflexivity.
Qed.

Lemma initialize_already (w : World) :
  isInitialized w = true ->
  initialize out w =
  (Return tt, with_console (fun c => (c ++ [(LOG, "Database already initialized")])%list) w).
Proof. intros Hi. unfold initialize. run. rewrite Hi. reflexivity. Qed.


Lemma initialize_new_Pool_throws (w : World) (e : JsThrown) :
  isInitialized w = false ->
  new_Pool_throws out (pool_options (DatabaseConfigManager.loadConfig w)) = Some e ->
  exists w1,
    initialize out w = (Throw e, w1) /\
    isInitialized w1 = false /\ pool w1 = pool w /\ db w1 = db w /\ env w1 = env w.
Proof.
  intros Hi Hnew. eexists. split.
  - unfold initialize. run. rewrite Hi.
    unfold DatabaseConfigManager.getConfig, new_Pool. run.
    rewrite Hnew. reflexivity.
  - simpl. auto.
Qed.

Lemma initialize_connectivity_failure (w : World) (e : JsThrown) :
  let p := pool_options (DatabaseConfigManager.loadConfig w) in
  isInitialized w = false ->
  new_Pool_throws out p = None ->
  pg_answer out (db w) (PoolQuery p SelectOne []) = Throw e ->
  exists w1,
    initialize out w = (Throw e, w1) /\
    isInitialized w1 = false /\ pool w1 = Some p /\ env w1 = env w /\
    db w1 = (db w ++ [(PoolQuery p SelectOne [], Throw e)])%list.
Proof.
  intros p Hi Hnew Hpg. eexists. split.
  - unfold initialize. run. rewrite Hi.
    unfold DatabaseConfigManager.getConfig, new_Pool. run.
    fold p. rewrite Hnew. simpl. unfold try_catch. run.
    rewrite Hpg. reflexivity.
  - simpl. rewrite Hi. auto.
Qed.

Lemma initialize_connected (w : World) (q : QueryResult) :
  let p := pool_options (DatabaseConfigManager.loadConfig w) in
  isInitialized w = false ->
  new_Pool_throws out p = None ->
  pg_answer out (db w) (PoolQuery p SelectOne []) = Return q ->
  exists w2,
    initialize out w =
      (createSchemaAndTables out ≫= fun _ => console_log "Database initialized successfully") w2 /\
    isInitialized w2 = true /\ pool w2 = Some p /\ env w2 = env w /\
    db w2 = (db w ++ [(PoolQuery p SelectOne [], Return q)])%list.
Proof.
  intros p Hi Hnew Hpg. eexists. split.
  - unfold initialize. run. rewrite Hi.
    unfold DatabaseConfigManager.getConfig, new_Pool. run.
    fold p. rewrite Hnew. simpl. unfold try_catch. run.
    rewrite Hpg. simpl. reflexivity.
  - simpl. auto.
Qed.

Lemma after_connected (w2 : World) :
  let w' := ((createSchemaAndTables out ≫=
                fun _ => console_log "Database initialized successfully") w2).2 in
  isInitialized w' = isInitialized w2 /\ pool w' = pool w2 /\ env w' = env w2.
Proof.
  assert (forall R, TraceFrame R ->
            preserves R (createSchemaAndTables out ≫=
                           fun _ => console_log "Database initialized successfully")) as H.
  { intros R HR. structural. apply createSchemaAndTables_preserves, _. }
  split; [|split]; apply (H (same _) _ w2).
Qed.

(** After [initialize] returns, the manager is initialized and has a pool. *)
Lemma initialize_success (w w' : World) :
  consistent w -> initialize out w = (Return tt, w') ->
  isInitialized w' = true /\ pool w' <> None.
Proof.
  intros Hc Hrun. destruct (isInitialized w) eqn:Hi.
  - rewrite initialize_already in Hrun by done. inversion Hrun; subst w'. simpl. auto.
  - destruct (new_Pool_throws out (pool_options (DatabaseConfigManager.loadConfig w)))
      as [e|] eqn:Hnew.
    { destruct (initialize_new_Pool_throws w e Hi Hnew) as (w1 & Hw1 & _). congruence. }
    destruct (pg_answer out (db w)
                (PoolQuery (pool_options (DatabaseConfigManager.loadConfig w)) SelectOne []))
      as [q|e] eqn:Hpg.
    + destruct (initialize_connected w q Hi Hnew Hpg) as (w2 & Hw2 & Hi2 & Hp2 & _).
      destruct (after_connected w2) as (Hi' & Hp' & _).
      rewrite <- Hw2, Hrun in Hi', Hp'. simpl in *. split; congruence.
    + destruct (initialize_connectivity_failure w e Hi Hnew Hpg) as (w1 & Hw1 & _).
      congruence.
Qed.

(** Every operation keeps the manager consistent. *)
Lemma initialize_consistent (w : World) :
  consistent w -> consistent (initialize out w).2.
Proof.
  intros Hc. destruct (isInitialized w) eqn:Hi.
  - rewrite initialize_already by done. exact Hc.
  - destruct (new_Pool_throws out (pool_options (DatabaseConfigManager.loadConfig w)))
      as [e|] eqn:Hnew.
    { destruct (initialize_new_Pool_throws w e Hi Hnew) as (w1 & -> & Hi1 & _).
      intros ?; simpl in *; congruence. }
    destruct (pg_answer out (db w)
                (PoolQuery (pool_options (DatabaseConfigManager.loadConfig w)) SelectOne []))
      as [q|e] eqn:Hpg.
    + destruct (initialize_connected w q Hi Hnew Hpg) as (w2 & -> & Hi2 & Hp2 & _).
      destruct (after_connected w2) as (Hi' & Hp' & _).
      intros _. rewrite Hp', Hp2. done.
    + destruct (initialize_connectivity_failure w e Hi Hnew Hpg) as (w1 & -> & Hi1 & _).
      intros ?; simpl in *; congruence.
Qed.

Lemma isReady_consistent (w : World) : consistent w -> consistent (isReady out w).2.
Proof.
  intros Hc. destruct (isInitialized w) eqn:Hi.
  { rewrite isReady_initialized by done. exact Hc. }
  destruct (env_is "DB_INITIALIZED" "true" w) eqn:Hflag.
  2:{ rewrite isReady_unflagged by done. exact Hc. }
  destruct (new_Pool_throws out (pool_options (DatabaseConfigManager.loadConfig w)))
    as [e|] eqn:Hnew.
  2:{ rewrite isReady_recreates by done. intros _. done. }
  unfold isReady. run. rewrite Hi, Hflag. simpl.
  unfold reinitializePool. run. rewrite Hi.
  unfold try_catch, new_Pool, DatabaseConfigManager.getConfig.
  run. rewrite Hnew. run.
  destruct (env_is "DEBUG" "true" w); run; intros ?; simpl in *; congruence.
Qed.

Lemma close_run (w : World) :
  match pool w with
  | None => close out w = (Return tt, w)
  | Some p =>
      match pg_answer out (db w) (PoolEnd p) with
      | Return _ =>
          exists w', close out w = (Return tt, w') /\
                     pool w' = None /\ isInitialized w' = false /\ env w' = env w
      | Throw e =>
          exists w', close out w = (Throw e, w') /\
                     pool w' = pool w /\ isInitialized w' = isInitialized w /\ env w' = env w
      end
  end.
Proof.
  unfold close. run.
  destruct (pool w) as [p|] eqn:Hp; [|reflexivity].
  run. destruct (pg_answer out (db w) (PoolEnd p)); simpl.
  - eexists. split; [reflexivity|]. simpl. auto.
  - eexists. split; [reflexivity|]. simpl. auto.
Qed.

Lemma close_consistent (w : World) : consistent w -> consistent (close out w).2.
Proof.
  intros Hc. pose proof (close_run w) as H.
  destruct (pool w) as [p|] eqn:Hp.
  - destruct (pg_answer out (db w) (PoolEnd p)).
    + destruct H as (w' & -> & Hp' & Hi' & _). intros ?; simpl in *; congruence.
    + destruct H as (w' & -> & Hp' & Hi' & _). intros ?; simpl in *. congruence.
  - rewrite H. exact Hc.
Qed.

Lemma logApiCall_after_isReady (data : ApiCallLogEntry) (w : World) :
  let w' := (logApiCall out data w).2 in
  pool w' = pool (isReady out w).2 /\ isInitialized w' = isInitialized (isReady out w).2.
Proof.
  unfold logApiCall. run.
  destruct (isReady_never_throws out w) as [ready Hready].
  destruct (isReady out w) as [r w1]. simpl in Hready. subst r. simpl.
  match goal with
  | |- context [?m w1] =>
      assert (forall R, TraceFrame R -> preserves R m) as H
  end.
  { intros R HR.
    structural; first [apply stringifyJson_preserves | apply query_preserves]; apply _. }
  split; apply (H (same _) _ w1).
Qed.

Lemma run_op_consistent (op : Op) (w : World) :
  consistent w -> consistent (run_op out op w).
Proof.
  intros Hc. destruct op; simpl.
  - by apply initialize_consistent.
  - by apply isReady_consistent.
  - by apply close_consistent.
  - unfold consistent.
    rewrite (getClient_preserves out (same pool) w),
            (getClient_preserves out (same isInitialized) w). exact Hc.
  - unfold consistent.
    rewrite (query_preserves out (same pool) text params w),
            (query_preserves out (same isInitialized) text params w). exact Hc.
  - destruct (logApiCall_after_isReady data w) as [Hp Hi].
    unfold consistent. rewrite Hp, Hi. by apply isReady_consistent.
  - exact Hc.
Qed.

(** Whatever is done to a freshly constructed manager, it stays
    consistent. *)
Lemma run_ops_consistent (ops : list Op) (w : World) :
  consistent w -> consistent (run_ops out ops w).
Proof.
  revert w. induction ops as [|op ops IH]; intros w Hc; simpl; [done|].
  apply IH, run_op_consistent, Hc.
Qed.

End Lifecycle.

(** ** Refused database calls *)

Section FailFast.
Import DatabaseManager.
Context (out : Outside).

Lemma refusals_app (xs ys : list (DbCall * Completion QueryResult)) :
  refusals (xs ++ ys) = (refusals xs ++ refusals ys)%list.
Proof. unfold refusals. apply omap_app. Qed.

Lemma refusals_elem (call : DbCall) (e : JsThrown)
    (added : list (DbCall * Completion QueryResult)) :
  (call, Throw e) ∈ added -> e ∈ refusals added.
Proof.
  intros Hin. unfold refusals. apply list_elem_of_omap.
  exists (call, Throw e). split; [exact Hin|reflexivity].
Qed.

Lemma fail_fast_ret {A} (a : A) : fail_fast (mret a : M A).
Proof. intros w. exists []. simpl. by rewrite app_nil_r. Qed.

Lemma fail_fast_throw {A} (e : JsThrown) : fail_fast (throw e : M A).
Proof. intros w. exists []. simpl. by rewrite app_nil_r. Qed.

Lemma fail_fast_get {A} (f : World -> A) : fail_fast (get f).
Proof. intros w. exists []. simpl. by rewrite app_nil_r. Qed.

Lemma fail_fast_modify (f : World -> World) :
  (forall w, db (f w) = db w) -> fail_fast (modify f).
Proof. intros Hf w. exists []. simpl. by rewrite Hf, app_nil_r. Qed.

Lemma fail_fast_pg (call : DbCall) : fail_fast (pg out call).
Proof.
  intros w. exists [(call, pg_answer out (db w) call)]. split; [reflexivity|].
  simpl. destruct (pg_answer out (db w) call); simpl; [done|]. by constructor.
Qed.

Lemma fail_fast_bind {A B} (m : M A) (k : A -> M B) :
  fail_fast m -> (forall a, fail_fast (k a)) -> fail_fast (m ≫= k).
Proof.
  intros Hm Hk w. rewrite run_bind. destruct (Hm w) as (added1 & Hdb1 & Hr1).
  destruct (m w) as [[a|e] w1]; simpl in *.
  - destruct (Hk a w1) as (added2 & Hdb2 & Hr2).
    exists (added1 ++ added2)%list. split.
    + rewrite Hdb2, Hdb1. by rewrite app_assoc.
    + rewrite refusals_app, Hr1. exact Hr2.
  - exists added1. done.
Qed.

Lemma fail_fast_try_finally {A} (body : M A) (cleanup : World -> World) :
  fail_fast body ->
  (forall w, exists extra, db (cleanup w) = (db w ++ extra)%list /\ refusals extra = []) ->
  fail_fast (try_finally body cleanup).
Proof.
  intros Hb Hc w. unfold try_finally. destruct (Hb w) as (added & Hdb & Hr).
  destruct (body w) as [r w1]. destruct (Hc w1) as (extra & Hdb' & Hextra). simpl in *.
  exists (added ++ extra)%list. split.
  - rewrite Hdb', Hdb. by rewrite app_assoc.
  - rewrite refusals_app, Hextra, app_nil_r. exact Hr.
Qed.

(** A handler that only reports and rethrows. *)
Lemma fail_fast_rethrow {A} (body : M A) (handler : JsThrown -> M A) :
  fail_fast body ->
  (forall e w, (handler e w).1 = Throw e /\ db (handler e w).2 = db w) ->
  fail_fast (try_catch body handler).
Proof.
  intros Hb Hh w. unfold try_catch. destruct (Hb w) as (added & Hdb & Hr).
  destruct (body w) as [[a|e] w1]; simpl in *.
  - exists added. done.
  - destruct (Hh e w1) as [Hthrow Hsame]. exists added. rewrite Hthrow, Hsame. done.
Qed.

Ltac fail_fast_steps :=
  repeat first
    [ match goal with
      | |- fail_fast (mret _) => apply fail_fast_ret
      | |- fail_fast (throw _) => apply fail_fast_throw
      | |- fail_fast (get _) => apply fail_fast_get
      | |- fail_fast (modify _) => apply fail_fast_modify; intros ?; reflexivity
      | |- fail_fast (pg _ _) => apply fail_fast_pg
      | |- fail_fast (mbind _ _) => apply fail_fast_bind; [|intros ?]
      | |- fail_fast (if ?b then _ else _) => destruct b
      | |- fail_fast (match ?x with _ => _ end) => destruct x
      end
    | progress unfold console_log, console_warn, console_error,
        DatabaseConfigManager.getConfig ].

Lemma getClient_fail_fast : fail_fast (getClient out).
Proof. unfold getClient. fail_fast_steps. Qed.

Lemma createSchemaAndTables_fail_fast : fail_fast (createSchemaAndTables out).
Proof.
  unfold createSchemaAndTables. fail_fast_steps; [apply getClient_fail_fast|].
  apply fail_fast_try_finally; [fail_fast_steps|].
  intros w. eexists. split; [reflexivity|reflexivity].
Qed.

(** [initialize] stops at the first refused call and throws what it
    threw. *)
Lemma initialize_fail_fast : fail_fast (initialize out).
Proof.
  unfold initialize. fail_fast_steps.
  - unfold new_Pool. fail_fast_steps.
  - apply fail_fast_rethrow; [fail_fast_steps|]. intros e w. split; reflexivity.
  - apply createSchemaAndTables_fail_fast.
Qed.

End FailFast.

(** ** C1 and C2: readiness through the life of the manager *)

Section Readiness.
Import DatabaseManager.




(** C2, as stated, fails twice.  With [DB_INITIALIZED] set, as it is when
    [initialize] runs after [start], [isReady] is true right after a failed
    connectivity check.  And when the schema statements are refused,
    [initialize] throws with [isInitialized] left true: [isReady] is true
    and a second [initialize] asks nothing of the database. *)
Lemma failed_initialize_may_look_ready :
  let unreachable := initialize Sample.db_down (fresh Sample.flagged) in
  let refused := initialize Sample.ddl_refused (fresh ∅) in
  unreachable.1 = Throw (JsError "connect ECONNREFUSED") /\
  (isReady Sample.db_down unreachable.2).1 = Return true /\
  refused.1 = Throw (JsError "permission denied for database") /\
  isInitialized refused.2 = true /\
  (isReady Sample.ddl_refused refused.2).1 = Return true /\
  (initialize Sample.ddl_refused refused.2).1 = Return tt /\
  db (initialize Sample.ddl_refused refused.2).2 = db refused.2.
Proof. vm_compute. repeat split; reflexivity. Qed.

(** C2 (amended).  Whatever call to the database is refused while
    [initialize] runs, [initialize] throws what that call threw.  When the
    refused call is the connectivity check, the manager is left not
    initialized, [isReady] stays false as long as [DB_INITIALIZED] is not
    ['true'], and the next [initialize] starts again from the connectivity
    check. *)
Theorem initialize_failure (out : Outside) (w : World) :
  (exists added,
     db (initialize out w).2 = (db w ++ added)%list /\
     forall call e, (call, Throw e) ∈ added -> (initialize out w).1 = Throw e) /\
  (forall e,
     let p := pool_options (DatabaseConfigManager.loadConfig w) in
     isInitialized w = false ->
     new_Pool_throws out p = None ->
     pg_answer out (db w) (PoolQuery p SelectOne []) = Throw e ->
     let w1 := (initialize out w).2 in
     (initialize out w).1 = Throw e /\
     isInitialized w1 = false /\
     (env_is "DB_INITIALIZED" "true" w = false -> isReady out w1 = (Return false, w1)) /\
     exists answer rest,
       db (initialize out w1).2 = (db w1 ++ (PoolQuery p SelectOne [], answer) :: rest)%list).
Proof.
  split.
  - destruct (initialize_fail_fast out w) as (added & Hdb & Hr).
    exists added. split; [exact Hdb|]. intros call e Hin.
    apply refusals_elem in Hin. destruct (initialize out w).1 as [[]|e0].
    + rewrite Hr in Hin. by apply elem_of_nil in Hin.
    + rewrite Forall_forall in Hr. by rewrite (Hr e Hin).
  - intros e p Hi Hnew Hpg w1.
    destruct (initialize_connectivity_failure out w e Hi Hnew Hpg)
      as (w1' & Hrun & Hi1 & Hp1 & Henv1 & Hdb1).
    subst w1. rewrite Hrun. simpl. repeat split; [exact Hi1| |].
    + intros Hflag. rewrite isReady_unflagged.
      * by rewrite Hi1.
      * unfold env_is in *. by rewrite Henv1.
    + assert (DatabaseConfigManager.loadConfig w1' = DatabaseConfigManager.loadConfig w)
        as Hcfg.
      { unfold DatabaseConfigManager.loadConfig, env_or. by rewrite Henv1. }
      destruct (pg_answer out (db w1') (PoolQuery p SelectOne [])) as [q|e'] eqn:Hpg'.
      * destruct (initialize_connected out w1' q) as (w2 & Hrun2 & _ & _ & _ & Hdb2);
          [exact Hi1|by rewrite Hcfg|by rewrite Hcfg|].
        rewrite Hrun2, Hcfg in *. fold p in Hdb2.
        destruct (fail_fast_bind (createSchemaAndTables out)
                    (fun _ => console_log "Database initialized successfully")
                    (createSchemaAndTables_fail_fast out)
                    (fun _ => fail_fast_modify _ (fun _ => eq_refl)) w2)
          as (added & Hadded & _).
        exists (Return q), added. rewrite Hadded, Hdb2. by rewrite <- app_assoc.
      * destruct (initialize_connectivity_failure out w1' e') as (w2 & Hrun2 & _ & _ & _ & Hdb2);
          [exact Hi1|by rewrite Hcfg|by rewrite Hcfg|].
        rewrite Hrun2, Hcfg in *. exists (Throw e'), []. exact Hdb2.
Qed.

Lemma initialize_failure_witness :
  let w := fresh ∅ in
  let w1 := (initialize Sample.db_down w).2 in
  (initialize Sample.db_down w).1 = Throw (JsError "connect ECONNREFUSED") /\
  isInitialized w1 = false /\
  isReady Sample.db_down w1 = (Return false, w1) /\
  (initialize Sample.ddl_refused w).1 = Throw (JsError "permission denied for database").
Proof.
  destruct (initialize_failure Sample.db_down (fresh ∅)) as [_ Hconn].
  destruct (Hconn (JsError "connect ECONNREFUSED") eq_refl eq_refl eq_refl)
    as (Hthrow & Hi & Hready & _).
  destruct (initialize_failure Sample.ddl_refused (fresh ∅)) as [(added & Hdb & Hprop) _].
  split; [exact Hthrow|split; [exact Hi|split; [exact (Hready eq_refl)|]]].
  apply (Hprop (ClientQuery (pool_options (DatabaseConfigManager.loadConfig (fresh ∅)))
                  (CreateSchema "api_logs"))).
  assert (added = drop 0 (db (initialize Sample.ddl_refused (fresh ∅)).2)) as ->.
  { rewrite Hdb. reflexivity. }
  vm_compute. do 2 apply list_elem_of_further. apply list_elem_of_here.
Defined.

End Readiness.

(** ** C3 and C4: logging one call *)

Section LogApiCall.
Import DatabaseManager.

(** [isReady] asks nothing of the database, and prints only in debug
    mode. *)
Lemma isReady_quiet (out : Outside) (w : World) :
  db (isReady out w).2 = db w /\
  (env_is "DEBUG" "true" w = false -> console (isReady out w).2 = console w).
Proof.
  destruct (isInitialized w) eqn:Hi.
  { rewrite isReady_initialized by done. done. }
  destruct (env_is "DB_INITIALIZED" "true" w) eqn:Hflag.
  2:{ rewrite isReady_unflagged by done. done. }
  destruct (new_Pool_throws out (pool_options (DatabaseConfigManager.loadConfig w)))
    as [e|] eqn:Hnew.
  2:{ rewrite isReady_recreates by done. done. }
  unfold isReady. run. rewrite Hi, Hflag. simpl.
  unfold reinitializePool. run. rewrite Hi.
  unfold try_catch, new_Pool, DatabaseConfigManager.getConfig.
  run. rewrite Hnew. run.
  destruct (env_is "DEBUG" "true" w); run; done.
Qed.

(** C4.  [logApiCall] returns, whatever the entry, the world and the
    collaborators: [JSON.stringify] may throw on any header or body (as it
    does on one with a circular reference) and the database may refuse
    anything.  It changes nothing but the console, the database and the
    manager's own fields.  When [isReady] answers false it asks nothing of
    the database; outside debug mode it then prints nothing. *)
Theorem logApiCall_contained (out : Outside) (data : ApiCallLogEntry) (w : World) :
  let w' := (logApiCall out data w).2 in
  (logApiCall out data w).1 = Return tt /\
  (env w' = env w /\ clock w' = clock w /\ runtime w' = runtime w /\
   network w' = network w /\ container w' = container w) /\
  ((isReady out w).1 = Return false ->
   db w' = db w /\ (env_is "DEBUG" "true" w = false -> console w' = console w)).
Proof.
  intros w'. split; [|split].
  - destruct (logApiCall_never_throws out data w) as [[] H]. exact H.
  - repeat split.
    + apply (logApiCall_preserves out (same env) data w).
    + apply (logApiCall_preserves out (same clock) data w).
    + apply (logApiCall_preserves out (same runtime) data w).
    + apply (logApiCall_preserves out (same network) data w).
    + apply (logApiCall_preserves out (same container) data w).
  - intros Hnot. subst w'. destruct (isReady_quiet out w) as [Hdb Hconsole].
    pose proof (isReady_preserves out (same env) w) as Henv.
    unfold logApiCall. run. destruct (isReady out w) as [r w1]. simpl in *.
    subst r. run. unfold same in Henv.
    assert (env_is "DEBUG" "true" w1 = env_is "DEBUG" "true" w) as Hdebug.
    { unfold env_is. by rewrite Henv. }
    rewrite Hdebug. destruct (env_is "DEBUG" "true" w); run.
    + split; [exact Hdb|]. intros H. discriminate H.
    + split; [exact Hdb|]. exact Hconsole.
Qed.

Lemma logApiCall_contained_witness :
  let w := fresh ∅ in
  let ready := (initialize Sample.strict w).2 in
  (logApiCall Sample.strict Sample.circular_entry ready).1 = Return tt /\
  (logApiCall Sample.db_down Sample.circular_entry w).1 = Return tt /\
  db (logApiCall Sample.db_down Sample.circular_entry w).2 = db w /\
  console (logApiCall Sample.db_down Sample.circular_entry w).2 = console w.
Proof.
  intros w ready.
  destruct (logApiCall_contained Sample.strict Sample.circular_entry ready) as (H1 & _ & _).
  destruct (logApiCall_contained Sample.db_down Sample.circular_entry w) as (H2 & _ & H3).
  destruct (H3 eq_refl) as [Hdb Hconsole].
  split; [exact H1|split; [exact H2|split; [exact Hdb|exact (Hconsole eq_refl)]]].
Defined.

(** What [stringifyJson] returns. *)
Lemma stringifyJson_serializable (out : Outside) (v : JsValue) (w : World) :
  serializable out v ->
  stringifyJson out v w =
  (Return (match claimed_json out v with SqlText s => Some s | _ => None end), w).
Proof.
  unfold serializable, stringifyJson, claimed_json. intros [Hnull|[s Hs]].
  - rewrite Hnull. reflexivity.
  - destruct (nullish v); [reflexivity|].
    unfold try_catch, lift. run. rewrite Hs. reflexivity.
Qed.

Lemma json_param_claimed (out : Outside) (v : JsValue) :
  json_param (match claimed_json out v with SqlText s => Some s | _ => None end)
  = claimed_json out v.
Proof.
  unfold claimed_json. destruct (nullish v); [reflexivity|].
  destruct (JSON_stringify out v); reflexivity.
Qed.

(** The round trip holds away from the falsy values: an entry whose test
    name is not empty and whose status and time are not 0 is handed to the
    database field by field. *)
Lemma logApiCall_round_trip (out : Outside) (data : ApiCallLogEntry) (w : World) (p : Pool) :
  isInitialized w = true -> pool w = Some p ->
  serializable out (requestHeaders data) -> serializable out (requestBody data) ->
  serializable out (responseHeaders data) -> serializable out (responseBody data) ->
  testName data <> Some "" ->
  responseStatus data <> Some 0 -> executionTimeMs data <> Some 0 ->
  exists answer,
    db (logApiCall out data w).2 =
    (db w ++ [(PoolQuery p (InsertApiLog (schema (DatabaseConfigManager.loadConfig w)))
                 (claimed_row out data), answer)])%list.
Proof.
  intros Hi Hp H1 H2 H3 H4 Hname Hstatus Htime.
  unfold logApiCall. run. rewrite isReady_initialized by done.
  rewrite Hp. rewrite bool_decide_eq_true_2 by done. run.
  unfold try_catch, DatabaseConfigManager.getConfig. run.
  repeat (rewrite stringifyJson_serializable by done; run).
  rewrite !json_param_claimed.
  unfold query. run. rewrite Hp, Hi. run.
  assert (text_or_null (testName data) = from_option SqlText SqlNull (testName data)) as ->.
  { destruct (testName data) as [s|]; [|done]. simpl.
    destruct (String.eqb_spec s ""); [congruence|done]. }
  assert (forall n, n <> Some 0 -> number_or_null n = from_option SqlInteger SqlNull n) as Hn.
  { intros [n|] Hne; [|done]. simpl. destruct (Z.eqb_spec n 0); [congruence|done]. }
  rewrite !Hn by done.
  match goal with |- context [pg_answer out (db w) ?c] => set (call := c) end.
  exists (pg_answer out (db w) call).
  destruct (pg_answer out (db w) call) as [q|e]; run;
    repeat (match goal with
            | |- context [if env_is ?a ?b ?x then _ else _] => destruct (env_is a b x)
            | |- context [match rows ?q with _ => _ end] => destruct (rows q)
            end; run);
    reflexivity.
Qed.

(** C3, at the input where the code departs from it.  An entry whose
    status and time are 0 is stored with NULL in both columns: reading the
    row back does not give the 0 the round trip calls for. *)
Theorem logApiCall_zero_stored_as_null :
  let ready := (initialize Sample.quiet (fresh ∅)).2 in
  let w' := (logApiCall Sample.quiet Sample.zero_entry ready).2 in
  stored_rows (db w') =
    [[SqlText "lists users"; SqlText "/users"; SqlText "GET"; SqlNull; SqlNull;
      SqlNull; SqlNull; SqlNull; SqlNull]] /\
  claimed_row Sample.quiet Sample.zero_entry =
    [SqlText "lists users"; SqlText "/users"; SqlText "GET"; SqlNull; SqlNull;
     SqlInteger 0; SqlNull; SqlNull; SqlInteger 0] /\
  stored_rows (db w') <> [claimed_row Sample.quiet Sample.zero_entry].
Proof. vm_compute. split; [reflexivity|split; [reflexivity|discriminate]]. Qed.

End LogApiCall.

(** ** The request client *)

Section ApiClientFacts.
Import ApiClientBase.
Context (out : Outside).

Lemma logToDatabase_never_throws (method endpoint : string) (options : ApiCallOptions)
    (response : option APIResponse.t) (executionTime : Z) :
  never_throws (logToDatabase out method endpoint options response executionTime).
Proof. unfold logToDatabase. structural. Qed.

Lemma shouldLog_never_throws (self : t) : never_throws (shouldLog out self).
Proof. unfold shouldLog. structural. apply isReady_never_throws. Qed.

Section Frame.
Context (R : relation World) `{!LoggingFrame R}.

Lemma logToDatabase_preserves (method endpoint : string) (options : ApiCallOptions)
    (response : option APIResponse.t) (executionTime : Z) :
  preserves R (logToDatabase out method endpoint options response executionTime).
Proof. unfold logToDatabase. structural. apply logApiCall_preserves, _. Qed.

Lemma shouldLog_preserves (self : t) : preserves R (shouldLog out self).
Proof. unfold shouldLog. structural. apply isReady_preserves, _. Qed.

End Frame.

(** The [try] block ends as the fetch ends: logging adds nothing to the
    outcome, to the requests made or to the clock. *)
Lemma makeRequest_try_run (self : t) (method endpoint : string) (options : ApiCallOptions)
    (startTime : Z) (w : World) :
  let call := fetch_call out self method endpoint options in
  let run := makeRequest_try out self method endpoint options startTime w in
  run.1 = (fetch_answer out (network w) call).1 /\
  network run.2 = (network w ++ [call])%list /\
  clock run.2 = clock w + (fetch_answer out (network w) call).2.
Proof.
  intros call run. subst run. unfold makeRequest_try. rewrite run_bind.
  unfold fetch. fold call.
  destruct (fetch_answer out (network w) call) as [[response|error] elapsed]; simpl; [|done].
  match goal with
  | |- context [?m (with_clock ?f ?w1)] =>
      assert (returns response m /\ forall R, LoggingFrame R -> preserves R m)
        as [Hret Hframe]; [|set (w2 := with_clock f w1)]
  end.
  { split.
    - structural; first [apply shouldLog_never_throws | apply logToDatabase_never_throws].
    - intros R HR. structural;
        first [apply shouldLog_preserves, _ | apply logToDatabase_preserves, _]. }
  pose proof (Hframe (same network) _ w2) as Hnet.
  pose proof (Hframe (same clock) _ w2) as Hclock.
  unfold same in Hnet, Hclock. rewrite Hret, Hnet, Hclock. done.
Qed.

(** The [catch] block, when it does not retry, rethrows what it caught. *)
Lemma makeRequest_rethrow_run (self : t) (method endpoint : string)
    (options : ApiCallOptions) (startTime : Z) (error : JsThrown) (w : World) :
  let run := makeRequest_rethrow out self method endpoint options startTime error w in
  run.1 = Throw error /\ network run.2 = network w /\ clock run.2 = clock w.
Proof.
  intros run. subst run.
  assert (throws error (makeRequest_rethrow out self method endpoint options startTime error)
          /\ forall R, LoggingFrame R ->
               preserves R (makeRequest_rethrow out self method endpoint options
                              startTime error)) as [Hthrow Hframe].
  { unfold makeRequest_rethrow. split.
    - structural; first [apply shouldLog_never_throws | apply logToDatabase_never_throws].
    - intros R HR. structural;
        first [apply shouldLog_preserves, _ | apply logToDatabase_preserves, _]. }
  rewrite Hthrow. split; [done|].
  split; [apply (Hframe (same network) _ w)|apply (Hframe (same clock) _ w)].
Qed.

Lemma makeRequest_step (self : t) (method endpoint : string) (options : ApiCallOptions)
    (retryCount : nat) (w : World) :
  makeRequest out self method endpoint options retryCount w =
  match makeRequest_try out self method endpoint options (clock w) w with
  | (Return response, w1) => (Return response, w1)
  | (Throw error, w1) =>
      if retryable error && (retryCount <? maxRetries)%nat
      then makeRequest out self method endpoint options (S retryCount)
             (makeRequest_pause retryCount w1).2
      else makeRequest_rethrow out self method endpoint options (clock w) error w1
  end.
Proof.
  match goal with |- _ = ?r => remember r as rhs eqn:Hrhs end.
  simp makeRequest.
  destruct (inspect (makeRequest_try out self method endpoint options (clock w) w))
    as [[[response|error] w1] Htry]; rewrite Htry in Hrhs; simp makeRequest; [done|].
  destruct (inspect (retryable error && (retryCount <? maxRetries)%nat)) as [[] Hretry];
    rewrite Hretry in Hrhs; subst rhs; reflexivity.
Qed.


Lemma makeRequest_pause_run (retryCount : nat) (w : World) :
  (makeRequest_pause retryCount w).1 = Return tt /\
  network (makeRequest_pause retryCount w).2 = network w /\
  clock (makeRequest_pause retryCount w).2 = clock w + 1000.
Proof. done. Qed.

End ApiClientFacts.

(** ** Strings that contain a string *)

Lemma append_cons (c : ascii) (s t : string) : String c s ++ t = String c (s ++ t).
Proof. reflexivity. Qed.

Lemma prefix_spec (p s : string) :
  String.prefix p s = true <-> exists after, s = p ++ after.
Proof.
  revert p. induction s as [|b s IH]; intros [|a p].
  - split; [by exists ""|done].
  - split; [done|]. intros [after H]. rewrite append_cons in H. discriminate H.
  - split; [by exists (String b s)|done].
  - simpl. destruct (ascii_dec a b) as [->|Hne].
    + rewrite IH. split; intros [after H]; exists after.
      * by rewrite append_cons, H.
      * rewrite append_cons in H. by inversion H.
    + split; [done|]. intros [after H]. rewrite append_cons in H. by inversion H.
Qed.

Lemma includes_contains (needle hay : string) :
  includes needle hay = true <-> contains needle hay.
Proof.
  unfold contains. induction hay as [|c hay IH].
  - cbn [includes]. rewrite orb_false_r, prefix_spec. split.
    + intros [after H]. by exists "", after.
    + intros ([|b before] & after & H); [by exists after|].
      rewrite append_cons in H. discriminate H.
  - cbn [includes]. rewrite orb_true_iff, prefix_spec, IH. split.
    + intros [[after H]|(before & after & H)].
      * by exists "", after.
      * exists (String c before), after. by rewrite append_cons, H.
    + intros ([|b before] & after & H).
      * left. by exists after.
      * right. rewrite append_cons in H. inversion H. by exists before, after.
Qed.

Lemma retryable_spec (error : JsThrown) :
  ApiClientBase.retryable error = true <->
  exists message,
    error = JsError message /\ contains ApiClientBase.closed_signature message.
Proof.
  destruct error as [message|printed]; simpl.
  - rewrite includes_contains. split.
    + intros H. by exists message.
    + intros (m & Hm & H). by inversion Hm.
  - split; [done|]. intros (m & Hm & _). discriminate Hm.
Qed.

(** ** C6, C9 and C10: retries, and logging that does not show *)

Section RequestClient.
Import ApiClientBase.

(** A call makes the same fetch over and over: at least once, at most
    once more than it has retries left. *)
Lemma makeRequest_fetches (out : Outside) (self : t) (method endpoint : string)
    (options : ApiCallOptions) (left : nat) :
  forall retryCount w,
    (maxRetries - retryCount = left)%nat ->
    exists n,
      (1 <= n <= 1 + left)%nat /\
      network (makeRequest out self method endpoint options retryCount w).2 =
      (network w ++ replicate n (fetch_call out self method endpoint options))%list.
Proof.
  induction left as [|left IH]; intros retryCount w Hleft;
    rewrite makeRequest_step;
    destruct (makeRequest_try_run out self method endpoint options (clock w) w)
      as (_ & Hnet & _);
    destruct (makeRequest_try out self method endpoint options (clock w) w)
      as [[response|error] w1]; simpl in Hnet; simpl;
    try (exists 1%nat; split; [lia|exact Hnet]);
    destruct (retryable error && (retryCount <? maxRetries)%nat) eqn:Hretry;
    try (destruct (makeRequest_rethrow_run out self method endpoint options (clock w) error w1)
           as (_ & -> & _); exists 1%nat; split; [lia|exact Hnet]);
    apply andb_true_iff in Hretry as [_ Hlt]; apply Nat.ltb_lt in Hlt; [lia|].
  destruct (IH (S retryCount) (makeRequest_pause retryCount w1).2 ltac:(lia))
    as (n & Hn & Hfetches).
  simpl in Hfetches. exists (S n). split; [lia|].
  rewrite Hfetches, Hnet, <- app_assoc. reflexivity.
Qed.

(** C6.  When the fetch of an attempt throws, [makeRequest] goes on to a
    further attempt, after exactly one second, if and only if the thrown
    value is an [Error] whose message contains the closed-context signature
    and fewer than two retries have been made: the call then ends as the
    next attempt ends, and has fetched at least twice.  Otherwise it
    rethrows that error with no further fetch and no delay.  A call never
    makes more than one fetch plus the retries it has left: three for a
    call that starts at retry count 0. *)
Theorem makeRequest_retry_policy (out : Outside) (self : t) (method endpoint : string)
    (options : ApiCallOptions) (retryCount : nat) (w : World)
    (error : JsThrown) (elapsed : Z) :
  let call := fetch_call out self method endpoint options in
  let signature :=
    exists message, error = JsError message /\ contains closed_signature message in
  let run := makeRequest out self method endpoint options retryCount w in
  fetch_answer out (network w) call = (Throw error, elapsed) ->
  (signature /\ (retryCount < maxRetries)%nat ->
   (exists w2,
      run = makeRequest out self method endpoint options (S retryCount) w2 /\
      network w2 = (network w ++ [call])%list /\
      clock w2 = clock w + elapsed + 1000) /\
   exists n, (2 <= n)%nat /\ network run.2 = (network w ++ replicate n call)%list) /\
  (~ signature \/ (maxRetries <= retryCount)%nat ->
   run.1 = Throw error /\
   network run.2 = (network w ++ [call])%list /\
   clock run.2 = clock w + elapsed) /\
  (exists n,
     (1 <= n <= 1 + (maxRetries - retryCount))%nat /\
     network run.2 = (network w ++ replicate n call)%list).
Proof.
  intros call signature run Hfetch.
  assert (signature <-> retryable error = true) as Hsig.
  { symmetry. apply retryable_spec. }
  destruct (makeRequest_try_run out self method endpoint options (clock w) w)
    as (Hout & Hnet & Hclock).
  fold call in Hout, Hnet, Hclock. rewrite Hfetch in Hout, Hclock. simpl in *.
  subst run. split; [|split].
  - intros [Hs Hlt]. rewrite makeRequest_step.
    destruct (makeRequest_try out self method endpoint options (clock w) w) as [r w1].
    simpl in *. subst r. apply Hsig in Hs. rewrite Hs.
    pose proof Hlt as Hltb. apply Nat.ltb_lt in Hltb. rewrite Hltb. simpl.
    split.
    + eexists. split; [reflexivity|]. simpl. rewrite Hnet, Hclock. done.
    + destruct (makeRequest_fetches out self method endpoint options
                  (maxRetries - S retryCount) (S retryCount)
                  (makeRequest_pause retryCount w1).2 eq_refl) as (n & Hn & Hfetches).
      simpl in Hfetches. exists (S n). split; [lia|].
      fold call in Hfetches. rewrite Hfetches, Hnet, <- app_assoc. reflexivity.
  - intros Hno. rewrite makeRequest_step.
    destruct (makeRequest_try out self method endpoint options (clock w) w) as [r w1].
    simpl in *. subst r.
    assert (retryable error && (retryCount <? maxRetries)%nat = false) as ->.
    { apply andb_false_iff. destruct Hno as [Hno|Hno].
      - left. destruct (retryable error); [|done]. by destruct Hno; apply Hsig.
      - right. by apply Nat.ltb_ge. }
    destruct (makeRequest_rethrow_run out self method endpoint options (clock w) error w1)
      as (-> & -> & ->). done.
  - by apply makeRequest_fetches.
Qed.

Lemma makeRequest_retry_policy_witness :
  (exists w2,
     makeRequest Sample.closed_twice Sample.a_client "GET" "/users" Sample.no_options
       0%nat (fresh ∅) =
     makeRequest Sample.closed_twice Sample.a_client "GET" "/users" Sample.no_options
       1%nat w2 /\
     clock w2 = 1003) /\
  (makeRequest Sample.refusing Sample.a_client "GET" "/users" Sample.no_options
     0%nat (fresh ∅)).1 = Throw (JsError "connect ECONNREFUSED 127.0.0.1:443").
Proof.
  split.
  - destruct (makeRequest_retry_policy Sample.closed_twice Sample.a_client "GET" "/users"
                Sample.no_options 0%nat (fresh ∅) _ _ eq_refl) as (Hretry & _ & _).
    destruct Hretry as ((w2 & Hrun & _ & Hclock) & _).
    + split; [|unfold maxRetries; lia].
      eexists. split; [reflexivity|].
      by exists "apiRequestContext.fetch: Target page, ", "".
    + exists w2. split; [exact Hrun|exact Hclock].
  - destruct (makeRequest_retry_policy Sample.refusing Sample.a_client "GET" "/users"
                Sample.no_options 0%nat (fresh ∅) _ _ eq_refl) as (_ & Hthrow & _).
    apply Hthrow. left. intros (message & Hm & Hc). inversion Hm; subst message.
    apply includes_contains in Hc. discriminate Hc.
Defined.


Lemma fetch_call_agrees (out1 out2 : Outside) (self1 self2 : t) (method endpoint : string)
    (options : ApiCallOptions) :
  (forall s, urlencode out1 s = urlencode out2 s) ->
  baseURL self1 = baseURL self2 ->
  fetch_call out1 self1 method endpoint options = fetch_call out2 self2 method endpoint options.
Proof.
  intros Henc Hbase. unfold fetch_call, URLSearchParams_toString. rewrite Hbase.
  destruct (params options) as [ps|]; [|reflexivity].
  do 4 f_equal. apply map_ext. intros kv. by rewrite !Henc.
Qed.

Lemma makeRequest_agrees (out1 out2 : Outside) (self1 self2 : t) (method endpoint : string)
    (options : ApiCallOptions) (left : nat) :
  (forall made call, fetch_answer out1 made call = fetch_answer out2 made call) ->
  (forall s, urlencode out1 s = urlencode out2 s) ->
  baseURL self1 = baseURL self2 ->
  forall retryCount w1 w2,
    (maxRetries - retryCount = left)%nat ->
    network w1 = network w2 ->
    let run1 := makeRequest out1 self1 method endpoint options retryCount w1 in
    let run2 := makeRequest out2 self2 method endpoint options retryCount w2 in
    run1.1 = run2.1 /\ network run1.2 = network run2.2.
Proof.
  intros Hfetch Henc Hbase.
  induction left as [|left IH]; intros retryCount w1 w2 Hleft Hnet run1 run2;
    subst run1 run2; rewrite !makeRequest_step;
    destruct (makeRequest_try_run out1 self1 method endpoint options (clock w1) w1)
      as (Hout1 & Hnet1 & _);
    destruct (makeRequest_try_run out2 self2 method endpoint options (clock w2) w2)
      as (Hout2 & Hnet2 & _);
    rewrite (fetch_call_agrees out1 out2 self1 self2) in Hout1, Hnet1 by done;
    rewrite Hfetch, Hnet, <- Hout2 in Hout1; rewrite Hnet, <- Hnet2 in Hnet1;
    destruct (makeRequest_try out1 self1 method endpoint options (clock w1) w1) as [r1 v1];
    destruct (makeRequest_try out2 self2 method endpoint options (clock w2) w2) as [r2 v2];
    simpl in Hout1, Hnet1; subst r2; destruct r1 as [response|error]; try done;
    destruct (retryable error && (retryCount <? maxRetries)%nat) eqn:Hretry;
    try (destruct (makeRequest_rethrow_run out1 self1 method endpoint options
                     (clock w1) error v1) as (-> & -> & _);
         destruct (makeRequest_rethrow_run out2 self2 method endpoint options
                     (clock w2) error v2) as (-> & -> & _); done);
    apply andb_true_iff in Hretry as [_ Hlt]; apply Nat.ltb_lt in Hlt; [lia|].
  apply IH; [lia|exact Hnet1].
Qed.

(** C9.  Two calls of [makeRequest] with the same arguments, against the
    same HTTP context and after the same requests, end alike for the caller
    (the same response returned or the same error thrown, after the same
    fetches), whatever else differs between them: the client's logging
    flag, the environment, the state of the connection pool manager, what
    the database answers and what [JSON.stringify] does. *)
Theorem makeRequest_outcome_blind_to_logging (out1 out2 : Outside) (self1 self2 : t)
    (method endpoint : string) (options : ApiCallOptions) (retryCount : nat)
    (w1 w2 : World) :
  (forall made call, fetch_answer out1 made call = fetch_answer out2 made call) ->
  (forall s, urlencode out1 s = urlencode out2 s) ->
  baseURL self1 = baseURL self2 ->
  network w1 = network w2 ->
  (makeRequest out1 self1 method endpoint options retryCount w1).1 =
  (makeRequest out2 self2 method endpoint options retryCount w2).1 /\
  network (makeRequest out1 self1 method endpoint options retryCount w1).2 =
  network (makeRequest out2 self2 method endpoint options retryCount w2).2.
Proof.
  intros Hfetch Henc Hbase Hnet.
  by apply (makeRequest_agrees out1 out2 self1 self2 method endpoint options
              (maxRetries - retryCount)).
Qed.

(** Logging into a strict, initialized database with the flag on, against
    not logging at all with the database down. *)
Lemma makeRequest_outcome_blind_to_logging_witness :
  let logging := (DatabaseManager.initialize Sample.strict (fresh Sample.flagged)).2 in
  let silent := {| baseURL := "https://dummyjson.com"; logApiCalls := false |} in
  (makeRequest Sample.strict Sample.a_client "GET" "/users" Sample.no_options 0%nat logging).1 =
  (makeRequest Sample.db_down silent "GET" "/users" Sample.no_options 0%nat (fresh ∅)).1 /\
  db (makeRequest Sample.strict Sample.a_client "GET" "/users" Sample.no_options
        0%nat logging).2 <> db logging /\
  db (makeRequest Sample.db_down silent "GET" "/users" Sample.no_options 0%nat (fresh ∅)).2 = [].
Proof.
  intros logging silent. split; [|split].
  - apply makeRequest_outcome_blind_to_logging; reflexivity.
  - vm_compute. discriminate.
  - vm_compute. reflexivity.
Defined.


End RequestClient.

(** ** The container lifecycle manager *)

Section ContainerFacts.
Import TestContainerManager.
Context (out : Outside).

(** What [findExistingContainer] makes of a labelled listing that is not
    blank. *)
Lemma findExistingContainer_labelled (w : World) (stdout : string) :
  exec_answer out (runtime w) ps_by_label = Return stdout ->
  trim stdout <> "" ->
  exists w',
    findExistingContainer out w = (Return (found_of (discovered stdout)), w') /\
    runtime w' = (runtime w ++ [Exec ps_by_label])%list /\
    env w' = env w /\ container w' = container w.
Proof.
  intros Hps Hblank. apply String.eqb_neq in Hblank.
  unfold findExistingContainer, try_catch, found_of, discovered. run. rewrite Hps.
  repeat first [rewrite Hblank | progress run].
  destruct (split "," (hd "" (split newline (trim stdout))) !! 1%nat) as [portsString|];
    run; [|by eexists].
  destruct (port_regex portsString) as [digits|]; run; [|by eexists].
  destruct (parseInt digits) as [p|]; run; [|by eexists].
  destruct (negb (p =? 0)); run; by eexists.
Qed.

(** The same for a listing by image, when the labelled listing is blank:
    the label is attached first, and whether that succeeds changes
    nothing. *)
Lemma findExistingContainer_legacy (w : World) (blank stdout : string) :
  exec_answer out (runtime w) ps_by_label = Return blank ->
  trim blank = "" ->
  exec_answer out (runtime w ++ [Exec ps_by_label]) ps_by_ancestor = Return stdout ->
  trim stdout <> "" ->
  exists w',
    findExistingContainer out w = (Return (found_of (discovered stdout)), w') /\
    runtime w' =
      (runtime w ++
       [Exec ps_by_label; Exec ps_by_ancestor;
        Exec (docker_update (hd "" (split newline (hd "" (split "," (trim stdout))))))])%list /\
    env w' = env w /\ container w' = container w.
Proof.
  intros Hps Hblank Hps' Hstdout.
  apply String.eqb_eq in Hblank. apply String.eqb_neq in Hstdout.
  unfold findExistingContainer, try_catch, found_of, discovered. run. rewrite Hps.
  repeat first [rewrite Hblank | progress run]. rewrite Hps'.
  repeat first [rewrite Hstdout | progress run].
  match goal with
  | |- context [exec_answer out ?h (docker_update ?i)] =>
      destruct (exec_answer out h (docker_update i))
  end; repeat first [rewrite Hstdout | progress run];
  (destruct (split "," (hd "" (split newline (trim stdout))) !! 1%nat) as [portsString|];
     run; [|eexists; (split; [reflexivity|]); simpl; rewrite <- !app_assoc; done]);
  (destruct (port_regex portsString) as [digits|];
     run; [|eexists; (split; [reflexivity|]); simpl; rewrite <- !app_assoc; done]);
  (destruct (parseInt digits) as [p|]; run; [|eexists; (split; [reflexivity|]); simpl; rewrite <- !app_assoc; done]);
  destruct (negb (p =? 0)); run; eexists; (split; [reflexivity|]); simpl; rewrite <- !app_assoc; done.
Qed.

(** Every failure of the discovery ends in "not found". *)
Lemma findExistingContainer_listing_fails (w : World) (e : JsThrown) :
  exec_answer out (runtime w) ps_by_label = Throw e ->
  (findExistingContainer out w).1 = Return not_found.
Proof.
  intros Hps. unfold findExistingContainer, try_catch. run. rewrite Hps. reflexivity.
Qed.

Lemma findExistingContainer_legacy_listing_fails (w : World) (blank : string)
    (e : JsThrown) :
  exec_answer out (runtime w) ps_by_label = Return blank ->
  trim blank = "" ->
  exec_answer out (runtime w ++ [Exec ps_by_label]) ps_by_ancestor = Throw e ->
  (findExistingContainer out w).1 = Return not_found.
Proof.
  intros Hps Hblank Hps'. apply String.eqb_eq in Hblank.
  unfold findExistingContainer, try_catch. run. rewrite Hps.
  repeat first [rewrite Hblank | progress run]. rewrite Hps'. reflexivity.
Qed.

Lemma findExistingContainer_nothing_listed (w : World) (blank blank' : string) :
  exec_answer out (runtime w) ps_by_label = Return blank ->
  trim blank = "" ->
  exec_answer out (runtime w ++ [Exec ps_by_label]) ps_by_ancestor = Return blank' ->
  trim blank' = "" ->
  (findExistingContainer out w).1 = Return not_found.
Proof.
  intros Hps Hblank Hps' Hblank'.
  apply String.eqb_eq in Hblank. apply String.eqb_eq in Hblank'.
  unfold findExistingContainer, try_catch. run. rewrite Hps.
  repeat first [rewrite Hblank | progress run]. rewrite Hps'.
  repeat first [rewrite Hblank' | progress run]. reflexivity.
Qed.

Lemma execPromise_preserves {A} (f : World -> A) (command : string) :
  (forall g w, f (with_runtime g w) = f w) ->
  preserves (same f) (execPromise out command).
Proof. intros Hf w. apply Hf. Qed.

Lemma findExistingContainer_never_throws : never_throws (findExistingContainer out).
Proof. unfold findExistingContainer. structural. Qed.

Lemma findExistingContainer_container :
  preserves (same container) (findExistingContainer out).
Proof.
  unfold findExistingContainer. structural; by apply execPromise_preserves.
Qed.

Lemma findExistingContainer_env : preserves (same env) (findExistingContainer out).
Proof.
  unfold findExistingContainer. structural; by apply execPromise_preserves.
Qed.

(** [getExistingContainerConfig]: one [docker inspect]; either it says the
    container is running and the coordinates are published, or the call
    throws. *)
Lemma getExistingContainerConfig_run (cid : string) (p : Z) (w : World) :
  let answer := exec_answer out (runtime w) (docker_inspect cid) in
  let run := getExistingContainerConfig out cid p w in
  runtime run.2 = (runtime w ++ [Exec (docker_inspect cid)])%list /\
  container run.2 = container w /\
  if says_running answer
  then run.1 = Return tt /\
       env run.2 =
         <["DB_INITIALIZED" := "true"]>
           (<["DB_PASSWORD" := password (DatabaseConfigManager.loadConfig w)]>
              (<["DB_USER" := user (DatabaseConfigManager.loadConfig w)]>
                 (<["DB_NAME" := database (DatabaseConfigManager.loadConfig w)]>
                    (<["DB_PORT" := toString p]> (<["DB_HOST" := "localhost"]> (env w))))))
  else (exists e, run.1 = Throw e) /\ env run.2 = env w.
Proof.
  intros answer run. subst answer run.
  unfold getExistingContainerConfig, try_catch, says_running. run.
  destruct (exec_answer out (runtime w) (docker_inspect cid)) as [stdout|e]; run.
  - destruct (String.eqb (trim stdout) "true"); run; repeat split; by eexists.
  - repeat split; by eexists.
Qed.

(** [start_new]: one request for a new container; its failure is the
    failure of the call. *)
Lemma start_new_run (keep : bool) (w : World) :
  let spec := new_container_spec w in
  let run := start_new out keep w in
  runtime run.2 = (runtime w ++ [ContainerStart spec])%list /\
  match container_start_answer out (runtime w) spec with
  | Return c =>
      run.1 = Return (Some c) /\ container run.2 = Some c /\
      env run.2 !! "DB_HOST" = Some (getHost c) /\
      env run.2 !! "DB_PORT" = Some (toString (getPort c))
  | Throw e => run.1 = Throw e /\ container run.2 = container w /\ env run.2 = env w
  end.
Proof.
  intros spec run. subst spec run. unfold start_new, new_container_spec. run.
  unfold DatabaseConfigManager.getConfig, startContainer. run.
  unfold DatabaseConfigManager.loadConfig, env_or. simpl.
  match goal with
  | |- context [container_start_answer out ?h ?s] =>
      destruct (container_start_answer out h s) as [c|e]
  end; run.
  - destruct keep; run; repeat split; by simplify_map_eq.
  - done.
Qed.


Lemma new_container_spec_env (w w' : World) :
  env w' = env w -> new_container_spec w' = new_container_spec w.
Proof.
  intros Henv. unfold new_container_spec, DatabaseConfigManager.loadConfig, env_or.
  by rewrite Henv.
Qed.

(** [start], case by case: it reuses exactly when a container was found
    and [docker inspect] says it is running; otherwise it asks for a new
    container, and ends as that request ends. *)
Lemma start_run (w : World) :
  let w0 := (console_log "Checking for existing PostgreSQL container..." w).2 in
  let run := start out w in
  exists found w1,
    findExistingContainer out w0 = (Return found, w1) /\
    let cid := interpolate (containerId found) in
    if exists_ found && port_truthy (port_ found)
       && says_running (exec_answer out (runtime w1) (docker_inspect cid))
    then
      run.1 = Return None /\ container run.2 = container w /\
      runtime run.2 = (runtime w1 ++ [Exec (docker_inspect cid)])%list /\
      env run.2 !! "DB_HOST" = Some "localhost" /\
      env run.2 !! "DB_PORT" = Some (toString (default 0 (port_ found)))
    else
      exists hist,
        runtime run.2 = (hist ++ [ContainerStart (new_container_spec w)])%list /\
        match container_start_answer out hist (new_container_spec w) with
        | Return c =>
            run.1 = Return (Some c) /\ container run.2 = Some c /\
            env run.2 !! "DB_HOST" = Some (getHost c) /\
            env run.2 !! "DB_PORT" = Some (toString (getPort c))
        | Throw e => run.1 = Throw e /\ container run.2 = container w
        end.
Proof.
  intros w0 run. subst run w0. unfold start. run.
  match goal with |- context [findExistingContainer out ?x] => set (w0 := x) end.
  destruct (findExistingContainer_never_throws w0) as [found Hfound].
  pose proof (findExistingContainer_container w0) as Hcontainer.
  pose proof (findExistingContainer_env w0) as Henv.
  unfold same in Hcontainer, Henv.
  destruct (findExistingContainer out w0) as [r w1]. simpl in *. subst r.
  exists found, w1. split; [reflexivity|].
  destruct (exists_ found && port_truthy (port_ found)); simpl.
  - destruct (getExistingContainerConfig_run (interpolate (containerId found))
                (default 0 (port_ found)) w1) as (Hrt & Hc & Hsay).
    unfold try_catch. run.
    destruct (getExistingContainerConfig out (interpolate (containerId found))
                (default 0 (port_ found)) w1) as [r2 w2].
    simpl in Hrt, Hc, Hsay.
    destruct (says_running _).
    + destruct Hsay as [-> Henv2]. run. rewrite Hc, Hcontainer, Hrt, Henv2.
      repeat split; by simplify_map_eq.
    + destruct Hsay as [[e ->] Henv2]. run.
      destruct (exec_answer out (runtime w2) (docker_rm (interpolate (containerId found))));
        run;
        match goal with
        | |- context [start_new out ?k ?w3] =>
            pose proof (start_new_run k w3) as [Hrt3 Hnew];
            assert (env w3 = env w /\ container w3 = container w) as [Henv3 Hc3];
            [split; simpl; congruence
            |rewrite (new_container_spec_env w w3 Henv3) in Hrt3, Hnew;
             destruct (start_new out k w3) as [r4 w4]; simpl in Hrt3, Hnew;
             eexists; split; [exact Hrt3|];
             destruct (container_start_answer out _ (new_container_spec w));
             [destruct Hnew as (-> & Hc4 & Hhost & Hport)
             |destruct Hnew as (-> & Hc4 & _)];
             simpl; repeat split; congruence]
        end.
  - run.
    match goal with
    | |- context [start_new out ?k ?w3] =>
        pose proof (start_new_run k w3) as [Hrt3 Hnew];
        assert (env w3 = env w /\ container w3 = container w) as [Henv3 Hc3];
        [by split|rewrite (new_container_spec_env w w3 Henv3) in Hrt3, Hnew;
          destruct (start_new out k w3) as [r4 w4]; simpl in Hrt3, Hnew;
          eexists; split; [exact Hrt3|];
          destruct (container_start_answer out _ (new_container_spec w));
          [destruct Hnew as (-> & Hc4 & Hhost & Hport)
          |destruct Hnew as (-> & Hc4 & _)];
          simpl; repeat split; congruence]
    end.
Qed.

End ContainerFacts.

(** ** Listings that [findExistingContainer] can read *)

Lemma is_digit_plain (c : ascii) :
  is_digit c = true ->
  Ascii.is_space c = false /\ c <> "-"%char /\ c <> "+"%char /\
  Ascii.eqb c "," = false /\ Ascii.eqb c newline = false.
Proof.
  destruct c as [[] [] [] [] [] [] [] []]; vm_compute; intros H;
    first [discriminate H | repeat split; discriminate].
Qed.

Lemma all_chars_app (ok : ascii -> bool) (s t : string) :
  all_chars ok (s ++ t) = all_chars ok s && all_chars ok t.
Proof.
  induction s as [|c s IH]; [reflexivity|].
  rewrite append_cons. simpl. rewrite IH. by rewrite andb_assoc.
Qed.

Lemma append_assoc (s t u : string) : (s ++ t) ++ u = s ++ t ++ u.
Proof.
  induction s as [|c s IH]; [reflexivity|]. rewrite !append_cons. by rewrite IH.
Qed.

(** Trailing white space is cut after the last character that is not
    white. *)
Lemma trimEnd_keeps (p : string) (c : ascii) (r : string) :
  Ascii.is_space c = false ->
  exists r', trimEnd (p ++ String c r) = p ++ String c r'.
Proof.
  intros Hc. induction p as [|a p [r' IH]].
  - change ("" ++ String c r) with (String c r). simpl.
    destruct (trimEnd r) as [|b t]; [rewrite Hc; by exists ""|by exists (String b t)].
  - exists r'. rewrite !append_cons. simpl. rewrite IH.
    destruct p; reflexivity.
Qed.

Lemma split_hd_app (sep : ascii) (x r : string) :
  all_chars (fun c => negb (Ascii.eqb c sep)) x = true ->
  hd "" (split sep (x ++ r)) = x ++ hd "" (split sep r).
Proof.
  induction x as [|c x IH]; [reflexivity|].
  rewrite !append_cons. simpl. intros [Hc Hx]%andb_true_iff.
  apply negb_true_iff in Hc. change (split sep (String c (x ++ r)))
    with (if Ascii.eqb c sep then "" :: split sep (x ++ r)
          else match split sep (x ++ r) with
               | piece :: rest => String c piece :: rest
               | [] => [String c ""]
               end).
  rewrite Hc. specialize (IH Hx).
  destruct (split sep (x ++ r)) as [|piece rest]; simpl in *; [|by rewrite IH].
  destruct x; [|discriminate IH]. change ("" ++ _) with (hd "" (split sep r)) in IH.
  by rewrite <- IH.
Qed.

Lemma split_cons (sep : ascii) (x r : string) :
  all_chars (fun c => negb (Ascii.eqb c sep)) x = true ->
  split sep (x ++ String sep r) = x :: split sep r.
Proof.
  induction x as [|c x IH].
  - intros _. change ("" ++ String sep r) with (String sep r).
    change (split sep (String sep r))
      with (if Ascii.eqb sep sep then "" :: split sep r
            else match split sep r with
                 | piece :: rest => String sep piece :: rest
                 | [] => [String sep ""]
                 end).
    by rewrite Ascii.eqb_refl.
  - rewrite append_cons. simpl. intros [Hc Hx]%andb_true_iff.
    apply negb_true_iff in Hc.
    change (split sep (String c (x ++ String sep r)))
      with (if Ascii.eqb c sep then "" :: split sep (x ++ String sep r)
            else match split sep (x ++ String sep r) with
                 | piece :: rest => String c piece :: rest
                 | [] => [String c ""]
                 end).
    by rewrite Hc, (IH Hx).
Qed.

Lemma split_nonempty (sep : ascii) (s : string) :
  split sep s = hd "" (split sep s) :: tl (split sep s).
Proof.
  destruct s as [|c s]; [reflexivity|].
  change (split sep (String c s))
    with (if Ascii.eqb c sep then "" :: split sep s
          else match split sep s with
               | piece :: rest => String c piece :: rest
               | [] => [String c ""]
               end).
  destruct (Ascii.eqb c sep); [reflexivity|]. by destruct (split sep s).
Qed.

Lemma span_digits_app (digits rest : string) :
  all_chars is_digit digits = true ->
  span_digits (digits ++ String "-" rest) = (digits, String "-" rest).
Proof.
  induction digits as [|c digits IH]; [reflexivity|].
  rewrite append_cons. simpl. intros [Hc Hd]%andb_true_iff. by rewrite Hc, (IH Hd).
Qed.

Lemma span_digits_all (digits : string) :
  all_chars is_digit digits = true -> span_digits digits = (digits, "").
Proof.
  induction digits as [|c digits IH]; [reflexivity|].
  simpl. intros [Hc Hd]%andb_true_iff. by rewrite Hc, (IH Hd).
Qed.

Lemma parseInt_digits (digits : string) :
  digits <> "" -> all_chars is_digit digits = true ->
  parseInt digits = Some (digits_value 0 digits).
Proof.
  intros Hne Hall. destruct digits as [|c digits]; [done|].
  pose proof Hall as [Hc _]%andb_true_iff.
  destruct (is_digit_plain c Hc) as (Hspace & Hminus & Hplus & _).
  unfold parseInt. simpl trimStart. rewrite Hspace.
  assert ((let '(sign, body) :=
             match String c digits with
             | String "-" r => (-1, r)
             | String "+" r => (1, r)
             | _ => (1, String c digits)
             end in
           match span_digits body with
           | (EmptyString, _) => None
           | (ds, _) => Some (sign * digits_value 0 ds)
           end) =
          match span_digits (String c digits) with
          | (EmptyString, _) => None
          | (ds, _) => Some (1 * digits_value 0 ds)
          end) as ->.
  { destruct c as [[] [] [] [] [] [] [] []]; try reflexivity; congruence. }
  rewrite (span_digits_all _ Hall). f_equal. lia.
Qed.

Lemma port_regex_mapping (digits rest : string) :
  digits <> "" -> all_chars is_digit digits = true ->
  port_regex ("0.0.0.0:" ++ digits ++ "->5432" ++ rest) = Some digits.
Proof.
  intros Hne Hall.
  assert (port_regex_here ("0.0.0.0:" ++ digits ++ "->5432" ++ rest) = Some digits) as H.
  { unfold port_regex_here.
    change (drop_prefix "0.0.0.0:" ("0.0.0.0:" ++ digits ++ "->5432" ++ rest))
      with (Some (digits ++ String "-" (">5432" ++ rest))).
    cbv beta iota. rewrite (span_digits_app _ _ Hall).
    assert (String.prefix "->5432" (String "-" (">5432" ++ rest)) = true) as ->.
    { apply prefix_spec. by exists rest. }
    by destruct digits. }
  revert H. generalize ("0.0.0.0:" ++ digits ++ "->5432" ++ rest). intros [|c s] H.
  - discriminate H.
  - change (port_regex (String c s))
      with (match port_regex_here (String c s) with
            | Some ds => Some ds
            | None => port_regex s
            end).
    by rewrite H.
Qed.

Lemma id_chars_plain (s : string) :
  all_chars id_char s = true ->
  all_chars (fun c => negb (Ascii.eqb c ",")) s = true /\
  all_chars (fun c => negb (Ascii.eqb c newline)) s = true.
Proof.
  induction s as [|a s IH]; [done|]. simpl. unfold id_char at 1.
  intros [[[Hcomma Hline]%andb_true_iff _]%andb_true_iff Hs]%andb_true_iff.
  destruct (IH Hs) as [IH1 IH2]. by rewrite Hcomma, Hline, IH1, IH2.
Qed.

Lemma digits_plain (s : string) :
  all_chars is_digit s = true ->
  all_chars (fun c => negb (Ascii.eqb c ",")) s = true /\
  all_chars (fun c => negb (Ascii.eqb c newline)) s = true.
Proof.
  induction s as [|a s IH]; [done|]. simpl. intros [Ha Hs]%andb_true_iff.
  destruct (is_digit_plain a Ha) as (_ & _ & _ & H1 & H2).
  destruct (IH Hs) as [IH1 IH2]. by rewrite H1, H2, IH1, IH2.
Qed.

(** A listing whose first line is an id, a comma, and the mapping of a
    non-zero host port to 5432 on all interfaces, whatever follows, is read
    as that id and that port. *)
Lemma discovered_mapping (cid digits rest : string) :
  cid <> "" -> all_chars id_char cid = true ->
  digits <> "" -> all_chars is_digit digits = true ->
  digits_value 0 digits <> 0 ->
  discovered (cid ++ ",0.0.0.0:" ++ digits ++ "->5432" ++ rest)
  = Return (Some (cid, digits_value 0 digits)).
Proof.
  intros Hcid Hplain Hdigits Hall Hport.
  destruct (id_chars_plain cid Hplain) as [Hcomma Hline].
  destruct (digits_plain digits Hall) as [Hdcomma Hdline].
  assert (trimStart (cid ++ ",0.0.0.0:" ++ digits ++ "->5432" ++ rest)
          = cid ++ ",0.0.0.0:" ++ digits ++ "->5432" ++ rest) as Hstart.
  { destruct cid as [|c cid]; [done|].
    rewrite append_cons. simpl in *. apply andb_true_iff in Hplain as [Hc _].
    unfold id_char in Hc. apply andb_true_iff in Hc as [_ Hc].
    apply negb_true_iff in Hc. by rewrite Hc. }
  unfold discovered, trim. rewrite Hstart.
  destruct (trimEnd_keeps (cid ++ ",0.0.0.0:" ++ digits ++ "->543") "2" rest eq_refl)
    as [rest' Htrim].
  assert (cid ++ ",0.0.0.0:" ++ digits ++ "->5432" ++ rest
          = (cid ++ ",0.0.0.0:" ++ digits ++ "->543") ++ String "2" rest) as ->.
  { by rewrite !append_assoc. }
  rewrite Htrim. clear Htrim.
  assert ((cid ++ ",0.0.0.0:" ++ digits ++ "->543") ++ String "2" rest'
          = (cid ++ ",0.0.0.0:" ++ digits ++ "->5432") ++ rest') as ->.
  { by rewrite !append_assoc. }
  rewrite split_hd_app.
  2:{ rewrite !all_chars_app, Hline, Hdline. reflexivity. }
  set (line_rest := hd "" (split newline rest')).
  assert ((cid ++ ",0.0.0.0:" ++ digits ++ "->5432") ++ line_rest
          = cid ++ String "," (("0.0.0.0:" ++ digits ++ "->5432") ++ line_rest)) as ->.
  { by rewrite !append_assoc. }
  rewrite (split_cons "," cid _ Hcomma).
  rewrite (split_nonempty "," (("0.0.0.0:" ++ digits ++ "->5432") ++ line_rest)).
  rewrite split_hd_app.
  2:{ rewrite !all_chars_app, Hdcomma. reflexivity. }
  simpl.
  assert (("0.0.0.0:" ++ digits ++ "->5432") ++ hd "" (split "," line_rest)
          = "0.0.0.0:" ++ digits ++ "->5432" ++ hd "" (split "," line_rest)) as ->.
  { by rewrite !append_assoc. }
  rewrite (port_regex_mapping _ _ Hdigits Hall), (parseInt_digits _ Hdigits Hall).
  apply Z.eqb_neq in Hport. by rewrite Hport.
Qed.

(** ** C5, C7 and C8: reuse, creation and stopping *)

Section ContainerLifecycle.
Import TestContainerManager.

Lemma discovered_port_nonzero (stdout cid : string) (p : Z) :
  discovered stdout = Return (Some (cid, p)) -> p <> 0.
Proof.
  unfold discovered. intros H.
  destruct (split "," (hd "" (split newline (trim stdout))) !! 1%nat); [|discriminate H].
  destruct (port_regex s); [|discriminate H].
  destruct (parseInt s0) as [q|]; [|discriminate H].
  destruct (Z.eqb_spec q 0); simpl in H; [discriminate H|]. by inversion H; subst.
Qed.

(** C5.  When the labelled listing is not blank, its first line yields a
    container and a host port (one a double holds exactly), and [docker
    inspect] says that container is running, [start] returns null, leaves
    its handle as it was, asks for no container, and publishes [localhost]
    and that port as [DB_HOST] and [DB_PORT].  [discovered_mapping] tells
    which listings yield a container and a port. *)
Theorem start_reuses_labelled (out : Outside) (w : World) (stdout cid running : string)
    (p : Z) :
  exec_answer out (runtime w) ps_by_label = Return stdout ->
  trim stdout <> "" ->
  discovered stdout = Return (Some (cid, p)) ->
  p < 2 ^ 53 ->
  exec_answer out (runtime w ++ [Exec ps_by_label])%list (docker_inspect cid)
    = Return running ->
  trim running = "true" ->
  let run := start out w in
  run.1 = Return None /\
  env run.2 !! "DB_HOST" = Some "localhost" /\
  env run.2 !! "DB_PORT" = Some (toString p) /\
  container run.2 = container w /\
  runtime run.2 = (runtime w ++ [Exec ps_by_label; Exec (docker_inspect cid)])%list.
Proof.
  intros Hps Hblank Hfound _ Hinspect Hrunning run. subst run.
  destruct (start_run out w) as (found & w1 & Hfind & Hrun).
  destruct (findExistingContainer_labelled out
              (console_log "Checking for existing PostgreSQL container..." w).2 stdout
              Hps Hblank) as (w1' & Hfind' & Hrt & _).
  rewrite Hfind' in Hfind. inversion Hfind; subst found w1'. clear Hfind.
  rewrite Hfound in Hrun. simpl in Hrun, Hrt.
  rewrite Hrt, Hinspect in Hrun. simpl in Hrun.
  apply discovered_port_nonzero in Hfound. apply Z.eqb_neq in Hfound.
  apply String.eqb_eq in Hrunning. rewrite Hfound, Hrunning in Hrun. simpl in Hrun.
  destruct Hrun as (H1 & H2 & H3 & H4 & H5).
  rewrite H3, <- app_assoc. done.
Qed.

Lemma start_reuses_labelled_witness :
  let run := start Sample.labelled (fresh ∅) in
  run.1 = Return None /\
  env run.2 !! "DB_HOST" = Some "localhost" /\
  env run.2 !! "DB_PORT" = Some "32768" /\
  container run.2 = None /\
  runtime run.2 = [Exec ps_by_label; Exec (docker_inspect "4f1d2c3b4a59")].
Proof.
  apply (start_reuses_labelled Sample.labelled (fresh ∅) Sample.a_listing
           "4f1d2c3b4a59" ("true" ++ String newline "") 32768).
  - reflexivity.
  - vm_compute. discriminate.
  - vm_compute. reflexivity.
  - lia.
  - reflexivity.
  - vm_compute. reflexivity.
Defined.


Lemma stop_run (out : Outside) (w : World) :
  let run := stop out w in
  if env_is "KEEP_CONTAINER_RUNNING" "true" w
  then run.1 = Return tt /\ runtime run.2 = runtime w /\ container run.2 = container w
  else match container w with
       | Some c =>
           runtime run.2 = (runtime w ++ [ContainerStop c])%list /\
           match container_stop_answer out (runtime w) c with
           | Return _ => run.1 = Return tt /\ container run.2 = None
           | Throw e => run.1 = Throw e /\ container run.2 = Some c
           end
       | None => run = (Return tt, w)
       end.
Proof.
  intros run. subst run. unfold stop. run.
  destruct (env_is "KEEP_CONTAINER_RUNNING" "true" w); run; [done|].
  destruct (container w) as [c|] eqn:Hc; run; [|done].
  unfold stopContainer. run.
  destruct (container_stop_answer out (runtime w) c); run; done.
Qed.

(** C7.  With [KEEP_CONTAINER_RUNNING] at ['true'], [stop] returns without
    a call to the container runtime and keeps its handle.  Otherwise it
    stops the container in its handle, and clears the handle once that
    container has stopped; with an empty handle it does nothing at all.
    The handle holds only what [start] created: a [start] that returns a
    container has just created it and holds it, and a [start] that returns
    null leaves the handle as it was, so that [stop] on a manager that only
    ever reused does nothing. *)
Theorem stop_stops_what_start_created (out : Outside) (w : World) :
  (env_is "KEEP_CONTAINER_RUNNING" "true" w = true ->
   (stop out w).1 = Return tt /\
   runtime (stop out w).2 = runtime w /\ container (stop out w).2 = container w) /\
  (forall c,
     env_is "KEEP_CONTAINER_RUNNING" "true" w = false -> container w = Some c ->
     runtime (stop out w).2 = (runtime w ++ [ContainerStop c])%list /\
     (container_stop_answer out (runtime w) c = Return tt ->
      (stop out w).1 = Return tt /\ container (stop out w).2 = None)) /\
  (env_is "KEEP_CONTAINER_RUNNING" "true" w = false -> container w = None ->
   stop out w = (Return tt, w)) /\
  (forall c,
     (start out w).1 = Return (Some c) ->
     container (start out w).2 = Some c /\
     exists hist,
       runtime (start out w).2 = (hist ++ [ContainerStart (new_container_spec w)])%list /\
       container_start_answer out hist (new_container_spec w) = Return c) /\
  ((start out w).1 = Return None ->
   container (start out w).2 = container w /\
   (container w = None ->
    env_is "KEEP_CONTAINER_RUNNING" "true" (start out w).2 = false ->
    stop out (start out w).2 = (Return tt, (start out w).2))).
Proof.
  pose proof (stop_run out w) as Hstop. simpl in Hstop.
  split; [|split; [|split; [|split]]].
  - intros Hkeep. by rewrite Hkeep in Hstop.
  - intros c Hkeep Hc. rewrite Hkeep, Hc in Hstop. destruct Hstop as [Hrt Hanswer].
    split; [exact Hrt|]. intros Hok. by rewrite Hok in Hanswer.
  - intros Hkeep Hc. by rewrite Hkeep, Hc in Hstop.
  - intros c Hreturn. destruct (start_run out w) as (found & w1 & _ & Hrun).
    simpl in Hrun. destruct (_ && _ && _).
    + destruct Hrun as (Hnull & _). congruence.
    + destruct Hrun as (hist & Hrt & Hanswer). 
      destruct (container_start_answer out hist (new_container_spec w)) as [c'|e] eqn:Hc'.
      * destruct Hanswer as (Hr & Hc & _).
        assert (c' = c) as -> by congruence. eauto.
      * destruct Hanswer as (Hr & _). congruence.
  - intros Hnull. destruct (start_run out w) as (found & w1 & _ & Hrun).
    simpl in Hrun. 
    assert (container (start out w).2 = container w) as Hsame.
    { destruct (_ && _ && _).
      - by destruct Hrun as (_ & Hc & _).
      - destruct Hrun as (hist & Hrt & Hanswer).
        destruct (container_start_answer out hist (new_container_spec w));
          destruct Hanswer as (Hr & _); congruence. }
    split; [exact Hsame|]. intros Hnone Hkeep.
    pose proof (stop_run out (start out w).2) as Hstop'. simpl in Hstop'.
    by rewrite Hkeep, Hsame, Hnone in Hstop'.
Qed.

Lemma stop_stops_what_start_created_witness :
  let kept := fresh {[ "KEEP_CONTAINER_RUNNING" := "true" ]} in
  let created := (start Sample.quiet (fresh ∅)).2 in
  let reused := (start Sample.labelled (fresh ∅)).2 in
  (stop Sample.quiet (start Sample.quiet kept).2).1 = Return tt /\
  runtime (stop Sample.quiet (start Sample.quiet kept).2).2
    = runtime (start Sample.quiet kept).2 /\
  container created = Some Sample.a_container /\
  runtime (stop Sample.quiet created).2 =
    (runtime created ++ [ContainerStop Sample.a_container])%list /\
  container (stop Sample.quiet created).2 = None /\
  stop Sample.labelled reused = (Return tt, reused).
Proof.
  intros kept created reused.
  destruct (stop_stops_what_start_created Sample.quiet (start Sample.quiet kept).2)
    as (Hkeep & _).
  destruct (Hkeep eq_refl) as (Hk1 & Hk2 & _).
  destruct (stop_stops_what_start_created Sample.quiet (fresh ∅))
    as (_ & _ & _ & Hcreate & _).
  destruct (Hcreate Sample.a_container eq_refl) as (Hc1 & _).
  destruct (stop_stops_what_start_created Sample.quiet created) as (_ & Hstop & _).
  destruct (Hstop Sample.a_container eq_refl Hc1) as (Hs1 & Hs2).
  destruct (Hs2 eq_refl) as (_ & Hs3).
  destruct (stop_stops_what_start_created Sample.labelled (fresh ∅))
    as (_ & _ & _ & _ & Hreuse).
  destruct (Hreuse eq_refl) as (_ & Hr).
  split; [exact Hk1|]. split; [exact Hk2|]. split; [exact Hc1|].
  split; [exact Hs1|]. split; [exact Hs3|]. apply Hr; reflexivity.
Defined.

(** C8, as stated, fails for the labelling step.  With an unlabelled
    container of the image running, a [docker update] that fails is
    swallowed, and [start] still returns null without asking for a new
    container. *)
Lemma labelling_failure_does_not_create :
  let run := start Sample.legacy (fresh ∅) in
  exec_answer Sample.legacy
    [Exec ps_by_label; Exec ps_by_ancestor] (docker_update "4f1d2c3b4a59")
  = Throw (JsError "Command failed: docker update: unknown flag: --label") /\
  run.1 = Return None /\
  runtime run.2 =
    [Exec ps_by_label; Exec ps_by_ancestor; Exec (docker_update "4f1d2c3b4a59");
     Exec (docker_inspect "4f1d2c3b4a59")] /\
  Forall (fun call => starts_or_stops call = false) (runtime run.2).
Proof. vm_compute. repeat split; repeat constructor. Qed.


Lemma start_creates_unless_verified (out : Outside) (w : World)
    (found : ExistingContainer) (w1 : World) :
  findExistingContainer out (console_log "Checking for existing PostgreSQL container..." w).2
    = (Return found, w1) ->
  exists_ found && port_truthy (port_ found)
    && says_running (exec_answer out (runtime w1)
                       (docker_inspect (interpolate (containerId found)))) = false ->
  creates out w.
Proof.
  intros Hfind Hcond. destruct (start_run out w) as (found' & w1' & Hfind' & Hrun).
  rewrite Hfind in Hfind'. inversion Hfind'; subst found' w1'. simpl in Hrun.
  rewrite Hcond in Hrun. destruct Hrun as (hist & Hrt & Hanswer).
  exists hist. split; [exact Hrt|].
  destruct (container_start_answer out hist (new_container_spec w)); by destruct Hanswer.
Qed.

Lemma start_creates_when_not_found (out : Outside) (w : World) :
  (findExistingContainer out
     (console_log "Checking for existing PostgreSQL container..." w).2).1
    = Return not_found ->
  creates out w.
Proof.
  intros Hnot.
  destruct (findExistingContainer out _) as [r w1] eqn:Hfind. simpl in Hnot. subst r.
  by apply (start_creates_unless_verified out w not_found w1).
Qed.

(** C8 (amended).  Only the failure of the creation reaches the caller of
    [start].  A listing that fails, a first line whose port mapping does
    not parse, and a container that [docker inspect] does not confirm as
    running are all swallowed, for the labelled listing and for the listing
    by image alike, and [start] goes on to ask for a new container; so it
    does when neither listing shows a container.  A label that cannot be
    attached is swallowed too, and does not keep [start] from reusing the
    container.  Conversely [start] returns null only when one of the two
    listings gave a container and a port and [docker inspect] has confirmed
    that container as running. *)
Theorem start_swallows_all_but_creation (out : Outside) (w : World) :
  (forall e,
     (start out w).1 = Throw e ->
     exists hist,
       runtime (start out w).2 = (hist ++ [ContainerStart (new_container_spec w)])%list /\
       container_start_answer out hist (new_container_spec w) = Throw e) /\
  (forall e, exec_answer out (runtime w) ps_by_label = Throw e -> creates out w) /\
  (forall blank e,
     exec_answer out (runtime w) ps_by_label = Return blank -> trim blank = "" ->
     exec_answer out (runtime w ++ [Exec ps_by_label])%list ps_by_ancestor = Throw e ->
     creates out w) /\
  (forall stdout,
     exec_answer out (runtime w) ps_by_label = Return stdout -> trim stdout <> "" ->
     (forall cid p, discovered stdout <> Return (Some (cid, p))) ->
     creates out w) /\
  (forall stdout cid p,
     exec_answer out (runtime w) ps_by_label = Return stdout -> trim stdout <> "" ->
     discovered stdout = Return (Some (cid, p)) ->
     says_running (exec_answer out (runtime w ++ [Exec ps_by_label])%list
                     (docker_inspect cid)) = false ->
     creates out w) /\
  (forall blank stdout cid p e,
     let labelling :=
       docker_update (hd "" (split newline (hd "" (split "," (trim stdout))))) in
     exec_answer out (runtime w) ps_by_label = Return blank -> trim blank = "" ->
     exec_answer out (runtime w ++ [Exec ps_by_label])%list ps_by_ancestor
       = Return stdout ->
     trim stdout <> "" ->
     discovered stdout = Return (Some (cid, p)) ->
     exec_answer out (runtime w ++ [Exec ps_by_label; Exec ps_by_ancestor])%list labelling
       = Throw e ->
     says_running
       (exec_answer out
          (runtime w ++ [Exec ps_by_label; Exec ps_by_ancestor; Exec labelling])%list
          (docker_inspect cid)) = true ->
     (start out w).1 = Return None /\
     runtime (start out w).2 =
       (runtime w ++ [Exec ps_by_label; Exec ps_by_ancestor; Exec labelling;
                      Exec (docker_inspect cid)])%list) /\
  (forall blank stdout,
     exec_answer out (runtime w) ps_by_label = Return blank -> trim blank = "" ->
     exec_answer out (runtime w ++ [Exec ps_by_label])%list ps_by_ancestor
       = Return stdout ->
     trim stdout <> "" ->
     (forall cid p, discovered stdout <> Return (Some (cid, p))) ->
     creates out w) /\
  (forall blank stdout cid p,
     let labelling :=
       docker_update (hd "" (split newline (hd "" (split "," (trim stdout))))) in
     exec_answer out (runtime w) ps_by_label = Return blank -> trim blank = "" ->
     exec_answer out (runtime w ++ [Exec ps_by_label])%list ps_by_ancestor
       = Return stdout ->
     trim stdout <> "" ->
     discovered stdout = Return (Some (cid, p)) ->
     says_running
       (exec_answer out
          (runtime w ++ [Exec ps_by_label; Exec ps_by_ancestor; Exec labelling])%list
          (docker_inspect cid)) = false ->
     creates out w) /\
  (forall blank blank',
     exec_answer out (runtime w) ps_by_label = Return blank -> trim blank = "" ->
     exec_answer out (runtime w ++ [Exec ps_by_label])%list ps_by_ancestor
       = Return blank' ->
     trim blank' = "" ->
     creates out w) /\
  ((start out w).1 = Return None ->
   exists stdout cid p hist,
     discovered stdout = Return (Some (cid, p)) /\
     trim stdout <> "" /\
     (exec_answer out (runtime w) ps_by_label = Return stdout /\
      hist = (runtime w ++ [Exec ps_by_label])%list
      \/
      exists blank,
        exec_answer out (runtime w) ps_by_label = Return blank /\ trim blank = "" /\
        exec_answer out (runtime w ++ [Exec ps_by_label])%list ps_by_ancestor
          = Return stdout /\
        hist =
          (runtime w ++
           [Exec ps_by_label; Exec ps_by_ancestor;
            Exec (docker_update
                    (hd "" (split newline (hd "" (split "," (trim stdout))))))])%list) /\
     says_running (exec_answer out hist (docker_inspect cid)) = true /\
     runtime (start out w).2 = (hist ++ [Exec (docker_inspect cid)])%list).
Proof.
  split; [|split; [|split; [|split; [|split; [|split; [|split; [|split; [|split]]]]]]]].
  - intros e Hthrow. destruct (start_run out w) as (found & w1 & _ & Hrun).
    simpl in Hrun. destruct (_ && _ && _).
    + destruct Hrun as (Hnull & _). congruence.
    + destruct Hrun as (hist & Hrt & Hanswer). exists hist. split; [exact Hrt|].
      destruct (container_start_answer out hist (new_container_spec w));
        destruct Hanswer as (Hr & _); congruence.
  - intros e Hps. apply start_creates_when_not_found.
    by apply (findExistingContainer_listing_fails out _ e).
  - intros blank e Hps Hblank Hps'. apply start_creates_when_not_found.
    by apply (findExistingContainer_legacy_listing_fails out _ blank e).
  - intros stdout Hps Hblank Hnone. apply start_creates_when_not_found.
    destruct (findExistingContainer_labelled out
                (console_log "Checking for existing PostgreSQL container..." w).2 stdout
                Hps Hblank) as (w1 & -> & _).
    simpl. f_equal. unfold found_of.
    destruct (discovered stdout) as [[[cid p]|]|]; [|done|done].
    by destruct (Hnone cid p).
  - intros stdout cid p Hps Hblank Hfound Hsay.
    destruct (findExistingContainer_labelled out
                (console_log "Checking for existing PostgreSQL container..." w).2 stdout
                Hps Hblank) as (w1 & Hfind & Hrt & _).
    apply (start_creates_unless_verified out w _ w1 Hfind).
    rewrite Hfound. simpl in *. rewrite Hrt, Hsay. by rewrite andb_false_r.
  - intros blank stdout cid p e labelling Hps Hblank Hps' Hstdout Hfound _ Hsay.
    destruct (findExistingContainer_legacy out
                (console_log "Checking for existing PostgreSQL container..." w).2
                blank stdout Hps Hblank Hps' Hstdout) as (w1 & Hfind & Hrt & _).
    destruct (start_run out w) as (found' & w1' & Hfind' & Hrun).
    rewrite Hfind in Hfind'. inversion Hfind'; subst found' w1'.
    rewrite Hfound in Hrun. simpl in Hrun, Hrt. fold labelling in Hrt.
    rewrite Hrt, Hsay in Hrun.
    apply discovered_port_nonzero in Hfound. apply Z.eqb_neq in Hfound.
    rewrite Hfound in Hrun. simpl in Hrun. destruct Hrun as (H1 & _ & H3 & _).
    split; [exact H1|]. rewrite H3, <- app_assoc. done.
  - intros blank stdout Hps Hblank Hps' Hstdout Hnone. apply start_creates_when_not_found.
    destruct (findExistingContainer_legacy out
                (console_log "Checking for existing PostgreSQL container..." w).2
                blank stdout Hps Hblank Hps' Hstdout) as (w1 & -> & _).
    simpl. f_equal. unfold found_of.
    destruct (discovered stdout) as [[[cid p]|]|]; [|done|done].
    by destruct (Hnone cid p).
  - intros blank stdout cid p labelling Hps Hblank Hps' Hstdout Hfound Hsay.
    destruct (findExistingContainer_legacy out
                (console_log "Checking for existing PostgreSQL container..." w).2
                blank stdout Hps Hblank Hps' Hstdout) as (w1 & Hfind & Hrt & _).
    apply (start_creates_unless_verified out w _ w1 Hfind).
    rewrite Hfound. simpl in *. fold labelling in Hrt. rewrite Hrt, Hsay.
    by rewrite andb_false_r.
  - intros blank blank' Hps Hblank Hps' Hblank'. apply start_creates_when_not_found.
    by apply (findExistingContainer_nothing_listed out _ blank blank').
  - intros Hnull. destruct (start_run out w) as (found & w1 & Hfind & Hrun).
    simpl in Hrun.
    destruct (exists_ found && port_truthy (port_ found)
              && says_running (exec_answer out (runtime w1)
                                 (docker_inspect (interpolate (containerId found)))))
      eqn:Hreuse.
    2:{ destruct Hrun as (hist & _ & Hanswer).
        destruct (container_start_answer out hist (new_container_spec w));
          destruct Hanswer as (Hr & _); congruence. }
    destruct Hrun as (_ & _ & Hrt' & _).
    apply andb_true_iff in Hreuse as [Hfound Hsay].
    apply andb_true_iff in Hfound as [Hexists _].
    assert (forall stdout w',
              findExistingContainer out
                (console_log "Checking for existing PostgreSQL container..." w).2
                = (Return (found_of (discovered stdout)), w') ->
              exists cid p,
                discovered stdout = Return (Some (cid, p)) /\
                found = found_of (Return (Some (cid, p))) /\ w1 = w') as Hread.
    { intros stdout w' Hfind'. rewrite Hfind' in Hfind. injection Hfind as <- <-.
      destruct (discovered stdout) as [[[cid p]|]|]; try discriminate Hexists.
      by exists cid, p. }
    destruct (exec_answer out (runtime w) ps_by_label) as [stdout|e] eqn:Hps.
    2:{ pose proof (findExistingContainer_listing_fails out
                      (console_log "Checking for existing PostgreSQL container..." w).2
                      e Hps) as Hnot.
        rewrite Hfind in Hnot. simpl in Hnot. injection Hnot as ->. discriminate Hexists. }
    destruct (String.eqb_spec (trim stdout) "") as [Hblank|Hblank].
    2:{ destruct (findExistingContainer_labelled out
                    (console_log "Checking for existing PostgreSQL container..." w).2
                    stdout Hps Hblank) as (w' & Hfind' & Hrt & _).
        destruct (Hread stdout w' Hfind') as (cid & p & Hdisc & -> & ->).
        simpl in Hsay, Hrt, Hrt'. rewrite Hrt in Hsay, Hrt'.
        exists stdout, cid, p, (runtime w ++ [Exec ps_by_label])%list.
        split; [exact Hdisc|]. split; [exact Hblank|]. split; [by left|].
        split; [exact Hsay|exact Hrt']. }
    destruct (exec_answer out (runtime w ++ [Exec ps_by_label])%list ps_by_ancestor)
      as [stdout'|e] eqn:Hps'.
    2:{ pose proof (findExistingContainer_legacy_listing_fails out
                      (console_log "Checking for existing PostgreSQL container..." w).2
                      stdout e Hps Hblank Hps') as Hnot.
        rewrite Hfind in Hnot. simpl in Hnot. injection Hnot as ->. discriminate Hexists. }
    destruct (String.eqb_spec (trim stdout') "") as [Hblank'|Hblank'].
    { pose proof (findExistingContainer_nothing_listed out
                    (console_log "Checking for existing PostgreSQL container..." w).2
                    stdout stdout' Hps Hblank Hps' Hblank') as Hnot.
      rewrite Hfind in Hnot. simpl in Hnot. injection Hnot as ->. discriminate Hexists. }
    destruct (findExistingContainer_legacy out
                (console_log "Checking for existing PostgreSQL container..." w).2
                stdout stdout' Hps Hblank Hps' Hblank') as (w' & Hfind' & Hrt & _).
    destruct (Hread stdout' w' Hfind') as (cid & p & Hdisc & -> & ->).
    simpl in Hsay, Hrt, Hrt'. rewrite Hrt in Hsay, Hrt'.
    eexists stdout', cid, p, _.
    split; [exact Hdisc|]. split; [exact Hblank'|].
    split; [right; exists stdout; repeat split; try done|].
    split; [exact Hsay|exact Hrt'].
Qed.

Lemma start_swallows_all_but_creation_witness :
  (exists hist,
     runtime (start Sample.no_docker (fresh ∅)).2 =
       (hist ++ [ContainerStart (new_container_spec (fresh ∅))])%list /\
     container_start_answer Sample.no_docker hist (new_container_spec (fresh ∅)) =
       Throw (JsError "Could not find a working container runtime strategy")) /\
  creates Sample.no_docker (fresh ∅) /\
  creates Sample.stale (fresh ∅) /\
  (start Sample.legacy (fresh ∅)).1 = Return None /\
  creates Sample.legacy_unmapped (fresh ∅) /\
  creates Sample.legacy_stale (fresh ∅) /\
  creates Sample.quiet (fresh ∅) /\
  (exists stdout cid p hist,
     discovered stdout = Return (Some (cid, p)) /\
     says_running (exec_answer Sample.labelled hist (docker_inspect cid)) = true /\
     runtime (start Sample.labelled (fresh ∅)).2 = (hist ++ [Exec (docker_inspect cid)])%list).
Proof.
  destruct (start_swallows_all_but_creation Sample.no_docker (fresh ∅))
    as (Hthrow & Hlist & _).
  destruct (start_swallows_all_but_creation Sample.stale (fresh ∅))
    as (_ & _ & _ & _ & Hstale & _).
  destruct (start_swallows_all_but_creation Sample.legacy (fresh ∅))
    as (_ & _ & _ & _ & _ & Hlegacy & _).
  destruct (start_swallows_all_but_creation Sample.legacy_unmapped (fresh ∅))
    as (_ & _ & _ & _ & _ & _ & Hunmapped & _).
  destruct (start_swallows_all_but_creation Sample.legacy_stale (fresh ∅))
    as (_ & _ & _ & _ & _ & _ & _ & Hlegacy_stale & _).
  destruct (start_swallows_all_but_creation Sample.quiet (fresh ∅))
    as (_ & _ & _ & _ & _ & _ & _ & _ & Hnothing & _).
  destruct (start_swallows_all_but_creation Sample.labelled (fresh ∅))
    as (_ & _ & _ & _ & _ & _ & _ & _ & _ & Hreused).
  split; [exact (Hthrow _ eq_refl)|].
  split; [exact (Hlist _ eq_refl)|].
  split; [|split; [|split; [|split; [|split]]]].
  - apply (Hstale Sample.a_listing "4f1d2c3b4a59" 32768); vm_compute;
      first [reflexivity | discriminate].
  - apply (Hlegacy "" Sample.a_listing "4f1d2c3b4a59" 32768
             (JsError "Command failed: docker update: unknown flag: --label"));
      vm_compute; first [reflexivity | discriminate].
  - apply (Hunmapped "" Sample.an_unmapped_listing); vm_compute;
      first [reflexivity | discriminate].
  - apply (Hlegacy_stale "" Sample.a_listing "4f1d2c3b4a59" 32768); vm_compute;
      first [reflexivity | discriminate].
  - apply (Hnothing "" ""); reflexivity.
  - destruct (Hreused eq_refl) as (stdout & cid & p & hist & Hdisc & _ & _ & Hsay & Hrt).
    exists stdout, cid, p, hist. split; [exact Hdisc|]. split; [exact Hsay|exact Hrt].
Defined.

End ContainerLifecycle.

(** ** Worked runs *)

(** A context found closed twice: three fetches, two waits of a second,
    and the third response returned. *)
Example makeRequest_closed_twice :
  let run := ApiClientBase.makeRequest Sample.closed_twice Sample.a_client "GET" "/users"
               Sample.no_options 0%nat (fresh ∅) in
  run.1 = Return Sample.a_response /\
  length (network run.2) = 3%nat /\
  clock run.2 = 3 + 1000 + 3 + 1000 + 12.
Proof. vm_compute. repeat split. Qed.

(** A connection refused at once, with logging on: the row of the failed
    call has no time, where the call took 0 ms. *)
Example refused_call_logged_without_time :
  let ready := (DatabaseManager.initialize Sample.refusing (fresh Sample.flagged)).2 in
  let run := ApiClientBase.makeRequest Sample.refusing Sample.a_client "GET" "/users"
               Sample.no_options 0%nat ready in
  run.1 = Throw (JsError "connect ECONNREFUSED 127.0.0.1:443") /\
  clock run.2 = clock ready /\
  stored_rows (db run.2) =
    [[SqlNull; SqlText "/users"; SqlText "GET"; SqlNull; SqlNull; SqlNull; SqlNull;
      SqlNull; SqlNull]].
Proof. vm_compute. repeat split. Qed.

(** What [docker ps] prints for one container is read as its id and host
    port. *)
Example discovered_a_listing :
  discovered Sample.a_listing = Return (Some ("4f1d2c3b4a59", 32768)).
Proof. vm_compute. reflexivity. Qed.

(** * Further properties *)

(** ** [start], call by call *)

Section StartCallByCall.
Import TestContainerManager.
Context (out : Outside).

Lemma start_new_outcome (keep : bool) (w : World) :
  let spec := new_container_spec w in
  let run := start_new out keep w in
  runtime run.2 = (runtime w ++ [ContainerStart spec])%list /\
  match container_start_answer out (runtime w) spec with
  | Return c =>
      run.1 = Return (Some c) /\ container run.2 = Some c /\
      env run.2 =
        published (getHost c) (toString (getPort c)) (getDatabase c) (getUsername c)
          (getPassword c) (env w)
  | Throw e => run.1 = Throw e /\ container run.2 = container w /\ env run.2 = env w
  end.
Proof.
  intros spec run. subst spec run. unfold start_new, new_container_spec. run.
  unfold DatabaseConfigManager.getConfig, startContainer. run.
  unfold DatabaseConfigManager.loadConfig, env_or. simpl.
  match goal with
  | |- context [container_start_answer out ?h ?s] =>
      destruct (container_start_answer out h s) as [c|e]
  end; run.
  - destruct keep; run; done.
  - done.
Qed.

(** [start], call by call. *)
Lemma start_outcome (w : World) :
  let w0 := (console_log "Checking for existing PostgreSQL container..." w).2 in
  let run := start out w in
  exists found w1,
    findExistingContainer out w0 = (Return found, w1) /\
    let cid := interpolate (containerId found) in
    let config := DatabaseConfigManager.loadConfig w in
    if exists_ found && port_truthy (port_ found)
       && says_running (exec_answer out (runtime w1) (docker_inspect cid))
    then
      run.1 = Return None /\ container run.2 = container w /\
      runtime run.2 = (runtime w1 ++ [Exec (docker_inspect cid)])%list /\
      env run.2 =
        published "localhost" (toString (default 0 (port_ found))) (database config)
          (user config) (password config) (env w)
    else
      runtime run.2 =
        (runtime w1 ++ replaces found ++ [ContainerStart (new_container_spec w)])%list /\
      match container_start_answer out (runtime w1 ++ replaces found)%list
              (new_container_spec w) with
      | Return c =>
          run.1 = Return (Some c) /\ container run.2 = Some c /\
          env run.2 =
            published (getHost c) (toString (getPort c)) (getDatabase c) (getUsername c)
              (getPassword c) (env w)
      | Throw e => run.1 = Throw e /\ container run.2 = container w /\ env run.2 = env w
      end.
Proof.
  intros w0 run. subst run w0. unfold start. run.
  match goal with |- context [findExistingContainer out ?x] => set (w0 := x) end.
  destruct (findExistingContainer_never_throws out w0) as [found Hfound].
  pose proof (findExistingContainer_container out w0) as Hcontainer.
  pose proof (findExistingContainer_env out w0) as Henv.
  unfold same in Hcontainer, Henv.
  destruct (findExistingContainer out w0) as [r w1]. simpl in *. subst r.
  exists found, w1. split; [reflexivity|].
  unfold replaces.
  destruct (exists_ found && port_truthy (port_ found)); simpl.
  - destruct (getExistingContainerConfig_run out (interpolate (containerId found))
                (default 0 (port_ found)) w1) as (Hrt & Hc & Hsay).
    unfold try_catch. run.
    destruct (getExistingContainerConfig out (interpolate (containerId found))
                (default 0 (port_ found)) w1) as [r2 w2].
    simpl in Hrt, Hc, Hsay.
    assert (forall name fallback, env_or name fallback w1 = env_or name fallback w) as Hor.
    { intros. unfold env_or. by rewrite Henv. }
    rewrite !Hor, Henv in Hsay.
    destruct (says_running _).
    + destruct Hsay as [-> Henv2]. run. rewrite Hc, Hcontainer, Hrt, Henv2. done.
    + destruct Hsay as [[e ->] Henv2]. run.
      destruct (exec_answer out (runtime w2) (docker_rm (interpolate (containerId found))));
        run;
        match goal with
        | |- context [start_new out ?k ?w3] =>
            pose proof (start_new_outcome k w3) as [Hrt3 Hnew];
            assert (env w3 = env w /\ container w3 = container w) as [Henv3 Hc3];
            [split; simpl; congruence
            |rewrite (new_container_spec_env w w3 Henv3) in Hrt3, Hnew;
             simpl in Hrt3, Hnew; rewrite Hrt in Hrt3, Hnew;
             repeat rewrite <- app_assoc in Hrt3; repeat rewrite <- app_assoc in Hnew;
             simpl in Hrt3, Hnew;
             destruct (start_new out k w3) as [r4 w4]; simpl in Hrt3, Hnew;
             split; [exact Hrt3|];
             destruct (container_start_answer out _ (new_container_spec w));
             [destruct Hnew as (-> & Hc4 & Henv4)
             |destruct Hnew as (-> & Hc4 & Henv4)];
             simpl; repeat split; congruence]
        end.
  - run.
    match goal with
    | |- context [start_new out ?k ?w3] =>
        pose proof (start_new_outcome k w3) as [Hrt3 Hnew];
        assert (env w3 = env w /\ container w3 = container w) as [Henv3 Hc3];
        [by split|rewrite (new_container_spec_env w w3 Henv3) in Hrt3, Hnew;
          simpl in Hrt3, Hnew; rewrite app_nil_r;
          destruct (start_new out k w3) as [r4 w4]; simpl in Hrt3, Hnew;
          split; [exact Hrt3|];
          destruct (container_start_answer out _ (new_container_spec w));
          [destruct Hnew as (-> & Hc4 & Henv4)
          |destruct Hnew as (-> & Hc4 & Henv4)];
          simpl; repeat split; congruence]
    end.
Qed.

End StartCallByCall.

(** ** Numbers written and read back *)

Lemma digits_value_app (acc : Z) (t u : string) :
  digits_value acc (t ++ u) = digits_value (digits_value acc t) u.
Proof.
  revert acc. induction t as [|c t IH]; intros acc; [reflexivity|].
  rewrite append_cons. simpl. apply IH.
Qed.

Lemma pretty_N_char_digit (d : N) :
  (d < 10)%N ->
  is_digit (pretty_N_char d) = true /\ digit_value (pretty_N_char d) = Z.of_N d.
Proof.
  intros Hd.
  assert (d = 0 \/ d = 1 \/ d = 2 \/ d = 3 \/ d = 4 \/ d = 5 \/ d = 6 \/ d = 7 \/ d = 8
          \/ d = 9)%N as Hcases by lia.
  repeat (destruct Hcases as [->|Hcases]; [by vm_compute|]). subst d. by vm_compute.
Qed.

Lemma pretty_N_go_digits (x : N) :
  forall s, exists t,
    pretty_N_go x s = t ++ s /\ all_chars is_digit t = true /\
    digits_value 0 t = Z.of_N x /\ ((0 < x)%N -> t <> "").
Proof.
  induction x as [x IH] using (well_founded_ind N.lt_wf_0). intros s.
  destruct (decide (x = 0%N)) as [->|Hx].
  { exists "". rewrite pretty_N_go_0. repeat split; [done..|lia]. }
  rewrite pretty_N_go_step by lia.
  destruct (IH (x `div` 10)%N) with (s := String (pretty_N_char (x `mod` 10)) s)
    as (t & Ht & Hdigits & Hvalue & _).
  { apply N.div_lt; lia. }
  destruct (pretty_N_char_digit (x `mod` 10)%N) as [Hd Hv].
  { apply N.mod_lt. lia. }
  exists (t ++ String (pretty_N_char (x `mod` 10)) "").
  split; [|split; [|split]].
  - rewrite Ht, append_assoc. reflexivity.
  - rewrite all_chars_app, Hdigits. simpl. by rewrite Hd.
  - rewrite digits_value_app, Hvalue. simpl. rewrite Hv.
    pose proof (N.div_mod x 10). lia.
  - intros _. destruct t; discriminate.
Qed.

Lemma append_empty (s : string) : s ++ "" = s.
Proof. induction s as [|c s IH]; [reflexivity|]. by rewrite append_cons, IH. Qed.

(** [n.toString()] of a positive integer is a run of digits that reads
    back as [n]. *)
Lemma toString_positive (p : positive) :
  pretty (N.pos p) <> "" /\ all_chars is_digit (pretty (N.pos p)) = true /\
  digits_value 0 (pretty (N.pos p)) = Z.pos p.
Proof.
  change (pretty (N.pos p)) with (pretty_N_go (N.pos p) "").
  destruct (pretty_N_go_digits (N.pos p) "") as (t & -> & Hd & Hv & Hne).
  rewrite append_empty. split; [apply Hne; lia|]. split; [exact Hd|]. rewrite Hv. lia.
Qed.

(** [parseInt(n.toString(), 10)] is [n]. *)
Lemma parseInt_toString (n : Z) : parseInt (toString n) = Some n.
Proof.
  destruct n as [|p|p].
  - reflexivity.
  - destruct (toString_positive p) as (Hne & Hd & Hv).
    change (toString (Z.pos p)) with (pretty (N.pos p)).
    rewrite parseInt_digits by done. by rewrite Hv.
  - destruct (toString_positive p) as (Hne & Hd & Hv).
    change (toString (Z.neg p)) with (String "-" (pretty (N.pos p))).
    unfold parseInt. simpl. rewrite span_digits_all by done.
    destruct (pretty (N.pos p)) eqn:Hp; [done|]. rewrite Hv. f_equal.
Qed.

Lemma toString_nonempty (n : Z) : toString n <> "".
Proof.
  intros H. pose proof (parseInt_toString n) as Hp. rewrite H in Hp. discriminate Hp.
Qed.

(** ** More on the container lifecycle manager *)

Section ContainerManager.
Import TestContainerManager.


Ltac read_listing :=
  repeat match goal with
         | |- context [negb (String.eqb (trim ?s) "")] =>
             destruct (String.eqb (trim s) ""); run
         | |- context [match ?l !! 1%nat with _ => _ end] => destruct (l !! 1%nat); run
         | |- context [match port_regex ?x with _ => _ end] => destruct (port_regex x); run
         | |- context [match parseInt ?x with _ => _ end] => destruct (parseInt x); run
         | |- context [negb (?p =? 0)] => destruct (Z.eqb_spec p 0); run
         end.

(** X1.  [findExistingContainer] returns whatever the docker CLI answers.  It
    asks the runtime for between one and three commands, none of which starts
    or stops a container, and leaves the environment and the handle of the
    container as they were.  What it returns is either a container with an id
    and a port that is not 0, or the result that says nothing was found: the
    test of the port in [start] never decides anything. *)
Theorem findExistingContainer_passive (out : Outside) (w : World) :
  let run := findExistingContainer out w in
  exists found added,
    run.1 = Return found /\
    runtime run.2 = (runtime w ++ added)%list /\
    Forall (fun call => starts_or_stops call = false) added /\
    (1 <= length added <= 3)%nat /\
    env run.2 = env w /\ container run.2 = container w /\
    ((exists cid p, p <> 0 /\
        found = {| exists_ := true; containerId := Some cid; port_ := Some p |})
     \/ found = not_found).
Proof.
  intros run. subst run. unfold findExistingContainer, try_catch, execPromise. run.
  destruct (exec_answer out (runtime w) ps_by_label) as [stdout|e]; run.
  2:{ exists not_found, [Exec ps_by_label]. repeat split; simpl; auto; lia. }
  destruct (String.eqb (trim stdout) ""); run.
  { destruct (exec_answer out (runtime w ++ [Exec ps_by_label]) ps_by_ancestor)
      as [stdout'|e]; run.
    2:{ exists not_found, [Exec ps_by_label; Exec ps_by_ancestor].
        rewrite <- app_assoc. repeat split; simpl; auto; lia. }
    destruct (negb (String.eqb (trim stdout') "")) eqn:Hblank; run.
    - match goal with
      | |- context [exec_answer out ?h (docker_update ?c)] =>
          destruct (exec_answer out h (docker_update c)); run; rewrite Hblank; run;
          read_listing;
          eexists _, [Exec ps_by_label; Exec ps_by_ancestor; Exec (docker_update c)];
          rewrite <- !app_assoc; repeat split; simpl; auto; try lia;
          try (left; eexists _, _; (split; [eassumption|reflexivity]))
      end.
    - rewrite Hblank. run.
      exists not_found, [Exec ps_by_label; Exec ps_by_ancestor].
      rewrite <- app_assoc. repeat split; simpl; auto; lia. }
  read_listing;
    eexists _, [Exec ps_by_label]; repeat split; simpl; auto; try lia;
    try (left; eexists _, _; (split; [eassumption|reflexivity])).
Qed.

Lemma startContainer_preserves {A} (f : World -> A) (out : Outside) (spec : ContainerSpec) :
  (forall g w, f (with_runtime g w) = f w) ->
  preserves (same f) (startContainer out spec).
Proof. intros Hf w. apply Hf. Qed.

Lemma stopContainer_preserves {A} (f : World -> A) (out : Outside)
    (c : StartedPostgreSqlContainer) :
  (forall g w, f (with_runtime g w) = f w) ->
  preserves (same f) (stopContainer out c).
Proof. intros Hf w. apply Hf. Qed.

#[global] Instance pool_container_frame : ContainerFrame pool.
Proof. by split. Qed.
#[global] Instance isInitialized_container_frame : ContainerFrame isInitialized.
Proof. by split. Qed.
#[global] Instance db_container_frame : ContainerFrame db.
Proof. by split. Qed.
#[global] Instance network_container_frame : ContainerFrame network.
Proof. by split. Qed.
#[global] Instance clock_container_frame : ContainerFrame clock.
Proof. by split. Qed.

Ltac container_frame :=
  structural;
  first [ apply execPromise_preserves; apply over_runtime
        | apply startContainer_preserves; apply over_runtime
        | apply stopContainer_preserves; apply over_runtime
        | apply preserves_modify; frame_side; intros ?; unfold same;
          first [apply over_env | apply over_console | apply over_container] ].

Lemma start_preserves {A} (f : World -> A) `{!ContainerFrame f} (out : Outside) :
  preserves (same f) (start out).
Proof.
  unfold start, findExistingContainer, getExistingContainerConfig, start_new.
  container_frame.
Qed.

Lemma stop_preserves {A} (f : World -> A) `{!ContainerFrame f} (out : Outside) :
  preserves (same f) (stop out).
Proof. unfold stop. container_frame. Qed.

Lemma env_or_lookup (name fallback : string) (w : World) (v : string) :
  env w !! name = Some v -> env_or name fallback w = or_else v fallback.
Proof. unfold env_or, or_else. by intros ->. Qed.

Lemma env_or_same (name fallback : string) (w w' : World) :
  env w' !! name = env w !! name -> env_or name fallback w' = env_or name fallback w.
Proof. unfold env_or. by intros ->. Qed.


(** The configuration read back from the variables [start] has written. *)
Lemma published_loadConfig (w : World) (h : string) (p : Z) (d u pw : string) (w' : World) :
  env w' = published h (toString p) d u pw (env w) ->
  DatabaseConfigManager.loadConfig w' =
    {| host := or_else h "localhost";
       port := Some p;
       database := or_else d "api_test_db";
       user := or_else u "testuser";
       password := or_else pw "testpass";
       schema := schema (DatabaseConfigManager.loadConfig w) |}.
Proof.
  intros Henv. unfold DatabaseConfigManager.loadConfig, published in *.
  rewrite (env_or_lookup "DB_HOST" _ w' h) by (rewrite Henv; by simplify_map_eq).
  rewrite (env_or_lookup "DB_PORT" _ w' (toString p)) by (rewrite Henv; by simplify_map_eq).
  rewrite (env_or_lookup "DB_NAME" _ w' d) by (rewrite Henv; by simplify_map_eq).
  rewrite (env_or_lookup "DB_USER" _ w' u) by (rewrite Henv; by simplify_map_eq).
  rewrite (env_or_lookup "DB_PASSWORD" _ w' pw) by (rewrite Henv; by simplify_map_eq).
  rewrite (env_or_same "DB_SCHEMA" _ w w') by (rewrite Henv; by simplify_map_eq).
  f_equal. unfold or_else.
  destruct (String.eqb_spec (toString p) "") as [Hempty|_].
  - by apply toString_nonempty in Hempty.
  - apply parseInt_toString.
Qed.

(** Once [start] has returned, the flag that lets [isReady] re-create the
    pool is set. *)
Lemma start_returned_flag (out : Outside) (w : World)
    (r : option StartedPostgreSqlContainer) :
  (start out w).1 = Return r ->
  env (start out w).2 !! "DB_INITIALIZED" = Some "true".
Proof.
  intros Hr. destruct (start_outcome out w) as (found & w1 & _ & Hrun). simpl in Hrun.
  destruct (exists_ found && port_truthy (port_ found) && says_running _).
  - destruct Hrun as (_ & _ & _ & ->). unfold published. by simplify_map_eq.
  - destruct Hrun as [_ Hnew].
    destruct (container_start_answer out _ (new_container_spec w)) as [c|e].
    + destruct Hnew as (_ & _ & ->). unfold published. by simplify_map_eq.
    + destruct Hnew as (Hthrown & _). congruence.
Qed.

(** X2.  A container that is listed but that [docker inspect] does not confirm
    as running is removed and replaced: [start] asks for the listing, the
    inspection, [docker rm -f] of that container and then a new container, in
    this order and nothing else, and ends as the creation ends, whatever
    [docker rm] answers. *)
Theorem start_replaces_stale (out : Outside) (w : World) (stdout cid : string) (p : Z) :
  exec_answer out (runtime w) ps_by_label = Return stdout ->
  trim stdout <> "" ->
  discovered stdout = Return (Some (cid, p)) ->
  says_running
    (exec_answer out (runtime w ++ [Exec ps_by_label])%list (docker_inspect cid)) = false ->
  let calls :=
    (runtime w ++ [Exec ps_by_label; Exec (docker_inspect cid); Exec (docker_rm cid)])%list in
  runtime (start out w).2 = (calls ++ [ContainerStart (new_container_spec w)])%list /\
  (start out w).1 =
    match container_start_answer out calls (new_container_spec w) with
    | Return c => Return (Some c)
    | Throw e => Throw e
    end.
Proof.
  intros Hps Hblank Hdisc Hsay calls. subst calls.
  destruct (start_outcome out w) as (found & w1 & Hfind & Hrun).
  destruct (findExistingContainer_labelled out
              (console_log "Checking for existing PostgreSQL container..." w).2 stdout)
    as (w' & Hfind' & Hrt & _); [exact Hps|exact Hblank|].
  rewrite Hfind' in Hfind. injection Hfind as <- <-.
  pose proof (discovered_port_nonzero _ _ _ Hdisc) as Hp.
  rewrite Hdisc in Hrun. simpl in Hrun, Hrt. unfold replaces in Hrun. simpl in Hrun.
  destruct (Z.eqb_spec p 0); [done|]. simpl in Hrun.
  rewrite Hrt, Hsay in Hrun. rewrite <- !app_assoc in Hrun. simpl in Hrun.
  destruct Hrun as [Hrun Hnew]. split.
  - rewrite Hrun. by rewrite <- app_assoc.
  - destruct (container_start_answer out _ (new_container_spec w)); by destruct Hnew.
Qed.

Lemma start_replaces_stale_witness :
  runtime (start Sample.stale (fresh ∅)).2 =
    [Exec ps_by_label; Exec (docker_inspect "4f1d2c3b4a59"); Exec (docker_rm "4f1d2c3b4a59");
     ContainerStart (new_container_spec (fresh ∅))] /\
  (start Sample.stale (fresh ∅)).1 = Return (Some Sample.a_container).
Proof.
  apply (start_replaces_stale Sample.stale (fresh ∅) Sample.a_listing "4f1d2c3b4a59" 32768).
  - reflexivity.
  - by vm_compute.
  - by vm_compute.
  - by vm_compute.
Defined.

(** X3.  When [start] returns, [DB_INITIALIZED] is ['true'] and the handle is
    the container it created (on reuse, the handle it had); [isReady] then
    answers true on a manager that was never initialized, unless the pool
    cannot be constructed.  When [start] throws, the environment and the
    handle are as they were. *)
Theorem start_publishes_or_leaves (out : Outside) (w : World) :
  let run := start out w in
  match run.1 with
  | Return r =>
      env run.2 !! "DB_INITIALIZED" = Some "true" /\
      container run.2 = match r with Some c => Some c | None => container w end /\
      (isInitialized w = false ->
       new_Pool_throws out
         (DatabaseManager.pool_options (DatabaseConfigManager.loadConfig run.2)) = None ->
       (DatabaseManager.isReady out run.2).1 = Return true)
  | Throw _ => env run.2 = env w /\ container run.2 = container w
  end.
Proof.
  intros run. subst run.
  destruct (start_outcome out w) as (found & w1 & Hfind & Hrun).
  pose proof (start_preserves isInitialized out w) as Hi. unfold same in Hi.
  assert (forall r, (start out w).1 = Return r ->
            env (start out w).2 !! "DB_INITIALIZED" = Some "true" ->
            isInitialized w = false ->
            new_Pool_throws out
              (DatabaseManager.pool_options
                 (DatabaseConfigManager.loadConfig (start out w).2)) = None ->
            (DatabaseManager.isReady out (start out w).2).1 = Return true) as Hready.
  { intros r _ Hflag Hw Hnew. rewrite isReady_recreates; [done|congruence| |done].
    unfold env_is. by rewrite Hflag. }
  simpl in Hrun.
  destruct (exists_ found && port_truthy (port_ found) && says_running _).
  - destruct Hrun as (Hr & Hc & _ & Henv).
    assert (env (start out w).2 !! "DB_INITIALIZED" = Some "true") as Hflag.
    { rewrite Henv. unfold published. by simplify_map_eq. }
    pose proof (Hready None Hr Hflag) as Hready'.
    rewrite Hr in *. done.
  - destruct Hrun as [_ Hnew].
    destruct (container_start_answer out _ (new_container_spec w)) as [c|e].
    + destruct Hnew as (Hr & Hc & Henv).
      assert (env (start out w).2 !! "DB_INITIALIZED" = Some "true") as Hflag.
      { rewrite Henv. unfold published. by simplify_map_eq. }
      pose proof (Hready (Some c) Hr Hflag) as Hready'.
      rewrite Hr in *. done.
    + destruct Hnew as (Hr & Hc & Henv). rewrite Hr. done.
Qed.


(** X5.  Without the keep-alive flag, [stop] is idempotent: once it has
    returned the handle is cleared, and a second [stop] changes nothing.  When
    stopping the container throws, the error is that of the container and the
    handle is kept. *)
Theorem stop_twice (out : Outside) (w : World) :
  env_is "KEEP_CONTAINER_RUNNING" "true" w = false ->
  let run := stop out w in
  (run.1 = Return tt ->
   container run.2 = None /\ stop out run.2 = (Return tt, run.2)) /\
  (forall e,
     run.1 = Throw e ->
     exists c, container w = Some c /\ container run.2 = Some c /\
               container_stop_answer out (runtime w) c = Throw e).
Proof.
  intros Hkeep run. subst run.
  pose proof (stop_run out w) as Hrun. simpl in Hrun. rewrite Hkeep in Hrun.
  assert (env (stop out w).2 = env w) as Henv.
  { unfold stop. run. rewrite Hkeep. run.
    destruct (container w) as [c|]; run; [|done].
    unfold stopContainer. run. by destruct (container_stop_answer out (runtime w) c). }
  assert (env_is "KEEP_CONTAINER_RUNNING" "true" (stop out w).2 = false) as Hkeep'.
  { unfold env_is in *. by rewrite Henv. }
  destruct (container w) as [c|] eqn:Hc.
  - destruct Hrun as [_ Hrun].
    destruct (container_stop_answer out (runtime w) c) as [[]|e] eqn:Hanswer.
    + destruct Hrun as [Hr Hnone]. split; [|intros e He; congruence].
      intros _. split; [exact Hnone|].
      pose proof (stop_run out (stop out w).2) as Hagain. simpl in Hagain.
      by rewrite Hkeep', Hnone in Hagain.
    + destruct Hrun as [Hr Hsome]. split; [congruence|].
      intros e' He'. exists c. repeat split; congruence.
  - rewrite Hrun. simpl. split; [|done]. intros _. split; [exact Hc|]. exact Hrun.
Qed.

Lemma stop_twice_witness :
  let created := (start Sample.quiet (fresh ∅)).2 in
  container (stop Sample.quiet created).2 = None /\
  stop Sample.quiet (stop Sample.quiet created).2 = (Return tt, (stop Sample.quiet created).2).
Proof.
  intros created.
  destruct (stop_twice Sample.quiet created eq_refl) as [Hstopped _].
  exact (Hstopped eq_refl).
Defined.

(** X6.  [start] and [stop] leave the connection pool manager alone: its pool,
    its flag, what has been asked of the database and of the network are as
    before.  [stop] does not write the environment either: [DB_INITIALIZED]
    stays as [start] left it. *)
Theorem container_manager_leaves_database_manager (out : Outside) (w : World) :
  (let w' := (start out w).2 in
   pool w' = pool w /\ isInitialized w' = isInitialized w /\ db w' = db w /\
   network w' = network w) /\
  (let w' := (stop out w).2 in
   pool w' = pool w /\ isInitialized w' = isInitialized w /\ db w' = db w /\
   network w' = network w /\ env w' = env w).
Proof.
  split; intros w'; subst w'.
  - repeat split.
    + apply (start_preserves pool out w).
    + apply (start_preserves isInitialized out w).
    + apply (start_preserves db out w).
    + apply (start_preserves network out w).
  - repeat split.
    + apply (stop_preserves pool out w).
    + apply (stop_preserves isInitialized out w).
    + apply (stop_preserves db out w).
    + apply (stop_preserves network out w).
    + unfold stop. run. destruct (env_is "KEEP_CONTAINER_RUNNING" "true" w); run; [done|].
      destruct (container w) as [c|]; run; [|done].
      unfold stopContainer. run. by destruct (container_stop_answer out (runtime w) c).
Qed.

End ContainerManager.

(** ** More on the connection pool manager *)

Section PoolManager.
Import DatabaseManager.

(** X7.  The guard of [query] and [getClient], on every manager a process can
    reach.  Not initialized: both throw the fixed error and ask nothing of the
    database.  Initialized: there is a pool, [query] makes one query on it and
    ends as that query ends, and [getClient] makes one connect. *)
Theorem query_guard (out : Outside) (ops : list Op) (e : gmap string string) (text : Sql)
    (params : list SqlValue) :
  let w := run_ops out ops (fresh e) in
  if isInitialized w then
    exists p, pool w = Some p /\
      query out text params w =
        (pg_answer out (db w) (PoolQuery p text params),
         with_db (fun d => (d ++ [asked out w (PoolQuery p text params)])%list) w) /\
      getClient out w =
        (match pg_answer out (db w) (PoolConnect p) with
         | Return _ => Return p
         | Throw e => Throw e
         end,
         with_db (fun d => (d ++ [asked out w (PoolConnect p)])%list) w)
  else
    query out text params w = (Throw not_initialized, w) /\
    getClient out w = (Throw not_initialized, w).
Proof.
  intros w.
  assert (consistent w) as Hc.
  { apply run_ops_consistent. intros H. discriminate H. }
  unfold consistent in Hc. unfold query, getClient, asked. run.
  destruct (isInitialized w).
  - destruct (pool w) as [p|]; [|by destruct Hc]. exists p. run.
    split; [reflexivity|]. split; [reflexivity|].
    by destruct (pg_answer out (db w) (PoolConnect p)).
  - by destruct (pool w).
Qed.

(** X8.  [initialize] is done once.  After it has returned, a second call
    returns, asks nothing of the database and keeps the pool, whatever has
    been written to the environment in between: a new host or port is not
    picked up. *)
Theorem initialize_once (out : Outside) (w w' : World) :
  consistent w -> initialize out w = (Return tt, w') ->
  forall f,
    let again := initialize out (with_env f w') in
    again.1 = Return tt /\ db again.2 = db w' /\ pool again.2 = pool w' /\
    isInitialized again.2 = true /\ pool w' <> None.
Proof.
  intros Hc Hrun f again. subst again.
  destruct (initialize_success out w w' Hc Hrun) as [Hi Hp].
  rewrite initialize_already by exact Hi. done.
Qed.

Lemma initialize_once_witness :
  let w' := (initialize Sample.quiet (fresh ∅)).2 in
  let again := initialize Sample.quiet (with_env (insert "DB_PORT" "6543") w') in
  again.1 = Return tt /\ db again.2 = db w' /\ pool again.2 = pool w' /\
  isInitialized again.2 = true /\ pool w' <> None.
Proof.
  intros w'.
  apply (initialize_once Sample.quiet (fresh ∅) w').
  - intros H. discriminate H.
  - reflexivity.
Defined.

(** X9.  [close], on every manager a process can reach.  When it returns, the
    manager holds no pool, is not initialized, and a second [close] changes
    nothing.  When ending the pool throws, the manager keeps its pool and its
    flag.  Either way the database is asked at most one thing: to end the
    pool. *)
Theorem close_twice (out : Outside) (ops : list Op) (e : gmap string string) :
  let w := run_ops out ops (fresh e) in
  let run := close out w in
  (run.1 = Return tt ->
   pool run.2 = None /\ isInitialized run.2 = false /\
   close out run.2 = (Return tt, run.2)) /\
  (forall error,
     run.1 = Throw error ->
     pool run.2 = pool w /\ isInitialized run.2 = isInitialized w /\
     exists p, pool w = Some p /\ db run.2 = (db w ++ [(PoolEnd p, Throw error)])%list) /\
  (db run.2 = db w \/
   exists p, pool w = Some p /\ db run.2 = (db w ++ [asked out w (PoolEnd p)])%list).
Proof.
  intros w run. subst run.
  assert (consistent w) as Hc.
  { apply run_ops_consistent. intros H. discriminate H. }
  unfold consistent in Hc. unfold close, asked. run.
  destruct (pool w) as [p|] eqn:Hp; run.
  2:{ rewrite Hp. split; [|split].
      - intros _. split; [reflexivity|]. split; [|reflexivity].
        destruct (isInitialized w); [by destruct Hc|reflexivity].
      - intros error Herror. discriminate Herror.
      - by left. }
  destruct (pg_answer out (db w) (PoolEnd p)) as [q|error] eqn:Hanswer; run.
  - split; [|split].
    + intros _. done.
    + intros error Herror. discriminate Herror.
    + right. exists p. by rewrite Hanswer.
  - split; [|split].
    + intros Herror. discriminate Herror.
    + intros error' [= <-]. repeat split; auto. by exists p.
    + right. exists p. by rewrite Hanswer.
Qed.

End PoolManager.

(** ** The client that creates the schema *)

Section Schema.
Import DatabaseManager.

(** The statements sent on a client, read off a trace that ends with
    them. *)
Ltac statements_of l :=
  lazymatch l with
  | (?l' ++ [(ClientQuery ?p ?t, ?a)])%list =>
      let m := statements_of l' in constr:((m ++ [(ClientQuery p t, a)])%list)
  | _ => constr:(@nil (DbCall * Completion QueryResult))
  end.

(** X10.  [createSchemaAndTables] releases the client it took.  When the
    connect is refused, nothing else is asked.  Otherwise the database sees
    the connect, then statements on that client, then the release, and nothing
    else: seven statements, all accepted, when the call returns; at least one
    and at most seven, the last of which threw what the call throws, when it
    does not. *)
Theorem createSchemaAndTables_releases (out : Outside) (w : World) (p : Pool) :
  isInitialized w = true -> pool w = Some p ->
  let run := createSchemaAndTables out w in
  match pg_answer out (db w) (PoolConnect p) with
  | Throw e => run.1 = Throw e /\ db run.2 = (db w ++ [(PoolConnect p, Throw e)])%list
  | Return q =>
      exists statements,
        db run.2 =
          (db w ++ [(PoolConnect p, Return q)] ++ statements
                ++ [(ClientRelease p, Return (mkQueryResult []))])%list /\
        Forall (fun ca => exists text, ca.1 = ClientQuery p text) statements /\
        match run.1 with
        | Return _ => length statements = 7%nat /\ refusals statements = []
        | Throw e =>
            (1 <= length statements <= 7)%nat /\
            exists text, last statements = Some (ClientQuery p text, Throw e)
        end
  end.
Proof.
  intros Hi Hp run. subst run.
  unfold createSchemaAndTables, getClient, try_finally, DatabaseConfigManager.getConfig.
  run. rewrite Hp, Hi. run.
  destruct (pg_answer out (db w) (PoolConnect p)) as [q|e]; run; [|done].
  repeat (match goal with
          | |- context [pg_answer out ?d (ClientQuery ?c ?t)] =>
              destruct (pg_answer out d (ClientQuery c t))
          end; run);
    match goal with
    | |- exists _, (?l ++ [(ClientRelease _, _)])%list = _ /\ _ =>
        let m := statements_of l in exists m
    end;
    (split; [by rewrite <- !app_assoc|]);
    (split; [simpl; repeat (constructor; [by eexists|]); constructor|]);
    simpl; first [ done | split; [lia|by eexists] ].
Qed.

Lemma createSchemaAndTables_releases_witness :
  let w := (initialize Sample.ddl_refused (fresh ∅)).2 in
  let p := pool_options (DatabaseConfigManager.loadConfig (fresh ∅)) in
  exists statements,
    db (createSchemaAndTables Sample.ddl_refused w).2 =
      (db w ++ [(PoolConnect p, Return (mkQueryResult []))] ++ statements
            ++ [(ClientRelease p, Return (mkQueryResult []))])%list /\
    exists text,
      last statements =
        Some (ClientQuery p text, Throw (JsError "permission denied for database")).
Proof.
  intros w p.
  destruct (createSchemaAndTables_releases Sample.ddl_refused w p eq_refl eq_refl)
    as (statements & Hdb & _ & _ & Hlast).
  exists statements. split; [exact Hdb|exact Hlast].
Defined.

End Schema.

(** ** What [logApiCall] stores *)

Section StoredRows.
Import DatabaseManager.

Lemma stringifyJson_run (out : Outside) (v : JsValue) (w : World) :
  (stringifyJson out v w).2 = w.
Proof.
  unfold stringifyJson. destruct (nullish v); [reflexivity|].
  unfold try_catch, lift. run.
  destruct (JSON_stringify out v); run; [reflexivity|].
  by destruct (JSON_stringify out _).
Qed.

(** What [isReady] answers is what it leaves behind. *)
Lemma isReady_answer (out : Outside) (w : World) :
  let w1 := (isReady out w).2 in
  (isReady out w).1 = Return (isInitialized w1 && bool_decide (pool w1 <> None)) /\
  db w1 = db w /\ env w1 = env w.
Proof.
  intros w1. subst w1. split; [|split].
  - unfold isReady. run.
    destruct (negb (isInitialized w) && env_is "DB_INITIALIZED" "true" w); run; [|done].
    destruct (reinitializePool_never_throws out w) as [[] Hr].
    destruct (reinitializePool out w) as [r w1]. simpl in Hr. subst r. done.
  - apply isReady_quiet.
  - apply (isReady_preserves out (same env) w).
Qed.

Lemma logApiCall_inserts (out : Outside) (data : ApiCallLogEntry) (w : World) (p : Pool) :
  let w1 := (isReady out w).2 in
  isInitialized w1 = true -> pool w1 = Some p ->
  entry_serializable out data ->
  let call := PoolQuery p (InsertApiLog (schema (DatabaseConfigManager.loadConfig w)))
                (stored_row out data) in
  db (logApiCall out data w).2 = (db w ++ [asked out w call])%list.
Proof.
  intros w1 Hi Hp (H1 & H2 & H3 & H4) call. subst call.
  destruct (isReady_answer out w) as (Hr & Hdb & Henv). fold w1 in Hr, Hdb, Henv.
  rewrite Hi, Hp in Hr. rewrite bool_decide_eq_true_2 in Hr by done. simpl in Hr.
  unfold logApiCall. run.
  destruct (isReady out w) as [r w1'] eqn:Hrun. simpl in *. subst r w1. run.
  unfold try_catch, DatabaseConfigManager.getConfig. run.
  repeat (rewrite stringifyJson_serializable by done; run).
  rewrite !json_param_claimed.
  unfold query. run. rewrite Hp, Hi. run.
  assert (env_or "DB_SCHEMA" "api_logs" w1' = env_or "DB_SCHEMA" "api_logs" w) as ->.
  { unfold env_or. by rewrite Henv. }
  unfold asked, stored_row, DatabaseConfigManager.loadConfig. simpl. rewrite Hdb.
  match goal with |- context [pg_answer out (db w) ?c] => set (call := c) end.
  destruct (pg_answer out (db w) call) as [q|e]; run;
    repeat (match goal with
            | |- context [if env_is ?a ?b ?x then _ else _] => destruct (env_is a b x)
            | |- context [match rows ?q with _ => _ end] => destruct (rows q)
            end; run);
    by rewrite Hdb.
Qed.

Lemma stored_rows_app (xs ys : list (DbCall * Completion QueryResult)) :
  stored_rows (xs ++ ys) = (stored_rows xs ++ stored_rows ys)%list.
Proof. apply omap_app. Qed.

(** X11.  What [logApiCall] stores.  On an initialized manager, an entry whose
    headers and bodies can be written as JSON leads to one insert, with the
    parameters of [stored_row]; the table gains that row when the server
    accepts the insert and nothing when it refuses it, and the call returns
    either way. *)
Theorem logApiCall_stores (out : Outside) (data : ApiCallLogEntry) (w : World) (p : Pool) :
  isInitialized w = true -> pool w = Some p ->
  entry_serializable out data ->
  let call := PoolQuery p (InsertApiLog (schema (DatabaseConfigManager.loadConfig w)))
                (stored_row out data) in
  let run := logApiCall out data w in
  run.1 = Return tt /\
  db run.2 = (db w ++ [asked out w call])%list /\
  stored_rows (db run.2) =
    (stored_rows (db w) ++
     match pg_answer out (db w) call with
     | Return _ => [stored_row out data]
     | Throw _ => []
     end)%list.
Proof.
  intros Hi Hp Hs call run. subst run.
  assert (isReady out w = (Return true, w)) as Hready.
  { rewrite isReady_initialized by done. rewrite Hp. by rewrite bool_decide_eq_true_2. }
  assert (db (logApiCall out data w).2 = (db w ++ [asked out w call])%list) as Hdb.
  { apply logApiCall_inserts; rewrite ?Hready; done. }
  split; [|split].
  - destruct (logApiCall_never_throws out data w) as [[] H]. exact H.
  - exact Hdb.
  - rewrite Hdb, stored_rows_app. f_equal. unfold asked. subst call. simpl.
    by destruct (pg_answer out (db w) _).
Qed.

Lemma logApiCall_stores_witness :
  let w := (initialize Sample.quiet (fresh ∅)).2 in
  (logApiCall Sample.quiet Sample.zero_entry w).1 = Return tt /\
  stored_rows (db (logApiCall Sample.quiet Sample.zero_entry w).2) =
    [stored_row Sample.quiet Sample.zero_entry].
Proof.
  intros w.
  destruct (logApiCall_stores Sample.quiet Sample.zero_entry w
              (pool_options (DatabaseConfigManager.loadConfig (fresh ∅))) eq_refl eq_refl)
    as (Hreturn & _ & Hrows).
  { repeat split; by left. }
  split; [exact Hreturn|exact Hrows].
Defined.

(** X12.  [close] is not final.  With [DB_INITIALIZED] still ['true'], as
    [start] leaves it and nothing clears it, a [logApiCall] that comes after
    [close] makes a new pool from the current configuration, marks the manager
    initialized again and inserts through that pool. *)
Theorem logApiCall_reopens_after_close (out : Outside) (data : ApiCallLogEntry)
    (w w' : World) :
  consistent w ->
  close out w = (Return tt, w') ->
  env_is "DB_INITIALIZED" "true" w = true ->
  let config := DatabaseConfigManager.loadConfig w in
  new_Pool_throws out (pool_options config) = None ->
  entry_serializable out data ->
  let after := (logApiCall out data w').2 in
  pool w' = None /\
  pool after = Some (pool_options config) /\ isInitialized after = true /\
  db after =
    (db w' ++ [asked out w' (PoolQuery (pool_options config) (InsertApiLog (schema config))
                               (stored_row out data))])%list.
Proof.
  intros Hc Hclose Hflag config Hnew Hs after. subst after config.
  assert (pool w' = None /\ isInitialized w' = false /\ env w' = env w) as (Hp & Hi & Henv).
  { pose proof (close_run out w) as Hrun. destruct (pool w) as [p|] eqn:Hpool.
    - destruct (pg_answer out (db w) (PoolEnd p)).
      + destruct Hrun as (w'' & Hrun & H). rewrite Hrun in Hclose. by injection Hclose as <-.
      + destruct Hrun as (w'' & Hrun & _). rewrite Hrun in Hclose. discriminate Hclose.
    - rewrite Hrun in Hclose. injection Hclose as <-.
      split; [exact Hpool|]. split; [|reflexivity].
      destruct (isInitialized w) eqn:Hinit; [|done]. by destruct Hc. }
  assert (DatabaseConfigManager.loadConfig w' = DatabaseConfigManager.loadConfig w) as Hcfg.
  { unfold DatabaseConfigManager.loadConfig, env_or. by rewrite Henv. }
  assert (isReady out w' =
            (Return true,
             set_isInitialized true
               (set_pool (Some (pool_options (DatabaseConfigManager.loadConfig w))) w')))
    as Hready.
  { rewrite <- Hcfg. apply isReady_recreates; [done| |by rewrite Hcfg].
    unfold env_is in *. by rewrite Henv. }
  destruct (logApiCall_after_isReady out data w') as [Hpool Hinit].
  rewrite Hready in Hpool, Hinit. simpl in Hpool, Hinit.
  split; [exact Hp|]. split; [exact Hpool|]. split; [exact Hinit|].
  rewrite <- Hcfg. apply logApiCall_inserts; rewrite ?Hready, ?Hcfg; done.
Qed.

Lemma logApiCall_reopens_after_close_witness :
  let w := (initialize Sample.quiet (fresh Sample.flagged)).2 in
  let w' := (close Sample.quiet w).2 in
  let after := (logApiCall Sample.quiet Sample.zero_entry w').2 in
  pool w' = None /\ pool after <> None /\ isInitialized after = true /\
  length (db after) = S (length (db w')).
Proof.
  intros w w' after.
  destruct (logApiCall_reopens_after_close Sample.quiet Sample.zero_entry w w')
    as (Hclosed & Hpool & Hinit & Hdb).
  - intros _. discriminate.
  - reflexivity.
  - reflexivity.
  - reflexivity.
  - repeat split; by left.
  - split; [exact Hclosed|]. split; [|split; [exact Hinit|]].
    + fold after in Hpool. rewrite Hpool. discriminate.
    + fold after in Hdb. rewrite Hdb, length_app. simpl. lia.
Defined.

(** [logApiCall] asks the database at most one thing: to insert one row
    about the entry. *)
Lemma logApiCall_db (out : Outside) (data : ApiCallLogEntry) (w : World) :
  let after := (logApiCall out data w).2 in
  db after = db w \/
  exists p row,
    pool after = Some p /\ length row = 9%nat /\
    row !! 1%nat = Some (SqlText (endpoint data)) /\
    row !! 2%nat = Some (SqlText (method data)) /\
    db after =
      (db w ++ [asked out w (PoolQuery p
                               (InsertApiLog (schema (DatabaseConfigManager.loadConfig w)))
                               row)])%list.
Proof.
  intros after. subst after.
  destruct (isReady_answer out w) as (Hr & Hdb & Henv).
  unfold logApiCall. run.
  destruct (isReady out w) as [r w1]. simpl in *. subst r.
  assert (env_or "DB_SCHEMA" "api_logs" w1 = env_or "DB_SCHEMA" "api_logs" w) as Hschema.
  { unfold env_or. by rewrite Henv. }
  destruct (isInitialized w1) eqn:Hi; simpl.
  2:{ run. destruct (env_is "DEBUG" "true" w1); run; by left. }
  destruct (pool w1) as [p|] eqn:Hp.
  2:{ rewrite bool_decide_eq_false_2 by (intros H; by apply H). run.
      destruct (env_is "DEBUG" "true" w1); run; by left. }
  rewrite bool_decide_eq_true_2 by done. run.
  unfold try_catch, DatabaseConfigManager.getConfig. run.
  repeat (match goal with
          | |- context [stringifyJson out ?v ?x] =>
              let H := fresh in
              pose proof (stringifyJson_run out v x) as H;
              destruct (stringifyJson out v x) as [[?|?] ?]; simpl in H; subst; run
          end);
    try (destruct (env_is "DEBUG" "true" w1); run; by left).
  unfold query. run. rewrite Hp, Hi. run. unfold DatabaseConfigManager.loadConfig. simpl.
  rewrite Hschema, Hdb. unfold asked.
  match goal with |- context [pg_answer out (db w) ?c] => set (call := c) end.
  destruct (pg_answer out (db w) call) as [q|e] eqn:Hanswer; run;
    repeat (match goal with
            | |- context [if env_is ?a ?b ?x then _ else _] => destruct (env_is a b x)
            | |- context [match rows ?q with _ => _ end] => destruct (rows q)
            end; run);
    right;
    match goal with call := PoolQuery _ _ ?row |- _ => exists p, row end;
    fold call; rewrite ?Hdb, Hanswer;
    (split; [exact Hp|]); (split; [|split; [|split]]); reflexivity.
Qed.

End StoredRows.

(** ** The request client, outcome by outcome *)

Section RequestOutcomes.
Import ApiClientBase.

Lemma logToDatabase_run (out : Outside) (method endpoint : string) (options : ApiCallOptions)
    (response : option APIResponse.t) (executionTime : Z) (w : World) :
  logToDatabase out method endpoint options response executionTime w =
  (Return tt,
   (DatabaseManager.logApiCall out
      (log_entry method endpoint options response executionTime) w).2).
Proof.
  unfold logToDatabase, log_entry, response_body, try_catch, lift. run.
  destruct response as [r|]; run.
  - destruct (APIResponse.json r); run;
      [|destruct (APIResponse.text r); run];
      match goal with
      | |- context [DatabaseManager.logApiCall out ?entry w] =>
          destruct (logApiCall_never_throws out entry w) as [[] H];
          destruct (DatabaseManager.logApiCall out entry w) as [r' w'];
          simpl in H; subst r'; reflexivity
      end.
  - match goal with
    | |- context [DatabaseManager.logApiCall out ?entry w] =>
        destruct (logApiCall_never_throws out entry w) as [[] H];
        destruct (DatabaseManager.logApiCall out entry w) as [r' w'];
        simpl in H; subst r'; reflexivity
    end.
Qed.

Lemma log_if_ready (out : Outside) (self : t) (entry : DatabaseManager.ApiCallLogEntry)
    (method endpoint : string) (options : ApiCallOptions) (response : option APIResponse.t)
    (executionTime : Z) {A} (handler : JsThrown -> M unit) (k : M A) (w : World) :
  entry = log_entry method endpoint options response executionTime ->
  (shouldLog out self ≫= fun log : bool =>
     (if log
      then try_catch (logToDatabase out method endpoint options response executionTime)
             handler
      else mret tt) ≫= fun _ => k) w
  = k (logged out self entry w).
Proof.
  intros ->. unfold shouldLog, logged. run.
  destruct (logApiCalls self); run; [|reflexivity].
  destruct (isReady_never_throws out w) as [b Hb].
  destruct (DatabaseManager.isReady out w) as [r w1]. simpl in Hb. subst r.
  destruct b; run; [|reflexivity].
  unfold try_catch. rewrite logToDatabase_run. reflexivity.
Qed.

(** The [try] block, outcome by outcome. *)
Lemma makeRequest_try_outcome (out : Outside) (self : t) (method endpoint : string)
    (options : ApiCallOptions) (startTime : Z) (w : World) :
  let call := fetch_call out self method endpoint options in
  let elapsed := (fetch_answer out (network w) call).2 in
  let w1 := fetched call elapsed w in
  makeRequest_try out self method endpoint options startTime w =
  match (fetch_answer out (network w) call).1 with
  | Return r =>
      (Return r,
       logged out self (log_entry method endpoint options (Some r) (clock w1 - startTime)) w1)
  | Throw error => (Throw error, w1)
  end.
Proof.
  intros call elapsed w1. subst call elapsed w1.
  unfold makeRequest_try. rewrite run_bind. unfold fetch at 1.
  destruct (fetch_answer out (network w) (fetch_call out self method endpoint options))
    as [[r|error] elapsed]; simpl; [|reflexivity].
  rewrite run_bind. unfold Date_now at 1, get at 1. cbv beta iota.
  erewrite log_if_ready; [|reflexivity]. reflexivity.
Qed.

(** The [catch] block when it does not retry. *)
Lemma makeRequest_rethrow_outcome (out : Outside) (self : t) (method endpoint : string)
    (options : ApiCallOptions) (startTime : Z) (error : JsThrown) (w : World) :
  makeRequest_rethrow out self method endpoint options startTime error w =
  (Throw error,
   logged out self (log_entry method endpoint options None (clock w - startTime))
     (console_error ("API call failed: " ++ method ++ " " ++ endpoint ++ " "
                     ++ message_of error) w).2).
Proof.
  unfold makeRequest_rethrow. rewrite run_bind. unfold Date_now at 1, get at 1.
  cbv beta iota. rewrite run_bind. unfold console_error at 1, modify at 1. cbv beta iota.
  erewrite log_if_ready; [|reflexivity]. reflexivity.
Qed.

End RequestOutcomes.

(** ** One call, at most one row *)

Section OneRow.
Import ApiClientBase.
Context (out : Outside) (self : t) (method endpoint : string).

Lemma effect_from (w w1 w' : World) :
  same_logging_state w w1 -> logging_effect out self method endpoint w1 w' ->
  logging_effect out self method endpoint w w'.
Proof.
  unfold logging_effect. intros (Hdb & Henv & Hp & Hi) (Hone & Henv' & Hoff).
  assert (DatabaseConfigManager.loadConfig w1 = DatabaseConfigManager.loadConfig w) as Hcfg.
  { unfold DatabaseConfigManager.loadConfig, env_or. by rewrite Henv. }
  split; [|split].
  - unfold at_most_one_insert, asked in *. by rewrite Hdb, Hcfg in Hone.
  - congruence.
  - intros Hlog. destruct (Hoff Hlog) as (? & ? & ?). repeat split; congruence.
Qed.

Lemma logged_effect (entry : DatabaseManager.ApiCallLogEntry) (w : World) :
  DatabaseManager.endpoint entry = endpoint -> DatabaseManager.method entry = method ->
  logging_effect out self method endpoint w (logged out self entry w).
Proof.
  intros Hendpoint Hmethod. unfold logged, logging_effect.
  destruct (logApiCalls self) eqn:Hlog.
  2:{ split; [by left|]. done. }
  destruct (isReady_answer out w) as (_ & Hdb & Henv).
  destruct (isReady_never_throws out w) as [b Hb].
  destruct (DatabaseManager.isReady out w) as [r w1]. simpl in *. subst r.
  destruct b.
  2:{ split; [by left|]. done. }
  split; [|split; [|done]].
  - assert (DatabaseConfigManager.loadConfig w1 = DatabaseConfigManager.loadConfig w) as Hcfg.
    { unfold DatabaseConfigManager.loadConfig, env_or. by rewrite Henv. }
    destruct (logApiCall_db out entry w1) as [Hsame|(p & row & _ & Hlen & H1 & H2 & Hrow)].
    + left. congruence.
    + right. exists p, row. unfold asked in *.
      rewrite Hdb, Hcfg, Hendpoint, Hmethod in *. done.
  - rewrite <- Henv. apply (logApiCall_preserves out (same env) entry w1).
Qed.

Lemma makeRequest_effect (options : ApiCallOptions) (left : nat) :
  forall retryCount w,
    (maxRetries - retryCount = left)%nat ->
    logging_effect out self method endpoint w
      (makeRequest out self method endpoint options retryCount w).2.
Proof.
  assert (forall retryCount w,
            (forall w', logging_effect out self method endpoint w'
                          (makeRequest out self method endpoint options (S retryCount) w').2) \/
            (maxRetries <= retryCount)%nat ->
            logging_effect out self method endpoint w
              (makeRequest out self method endpoint options retryCount w).2) as Hstep.
  { intros retryCount w Hnext.
    rewrite makeRequest_step, makeRequest_try_outcome.
    destruct (fetch_answer out (network w) (fetch_call out self method endpoint options))
      as [[r|err] elapsed]; simpl.
    - apply (effect_from w (fetched (fetch_call out self method endpoint options) elapsed w));
        [done|by apply logged_effect].
    - destruct (retryable err && (retryCount <? maxRetries)%nat) eqn:Hretry.
      + apply andb_true_iff in Hretry as [_ Hlt]. apply Nat.ltb_lt in Hlt.
        destruct Hnext as [Hnext|Hnext]; [|lia].
        eapply effect_from; [|apply Hnext]. done.
      + rewrite makeRequest_rethrow_outcome. simpl.
        eapply effect_from; [|by apply logged_effect]. done. }
  induction left as [|left IH]; intros retryCount w Hleft; apply Hstep.
  - right. lia.
  - destruct (decide (maxRetries <= retryCount)%nat); [by right|].
    left. intros w'. apply IH. lia.
Qed.

End OneRow.

Section RequestLogging.
Import ApiClientBase.

(** X13.  One call, at most one row.  Whatever the fetches answer and however
    often the call is retried, [makeRequest] asks the database at most one
    thing, the insert of one row about this method and endpoint; the attempts
    that are retried are not logged.  The environment is left as it was, and a
    client whose [logApiCalls] is false leaves the database and the manager
    alone. *)
Theorem makeRequest_logs_at_most_once (out : Outside) (self : t) (method endpoint : string)
    (options : ApiCallOptions) (retryCount : nat) (w : World) :
  let after := (makeRequest out self method endpoint options retryCount w).2 in
  at_most_one_insert out method endpoint w after /\
  env after = env w /\
  (logApiCalls self = false ->
   db after = db w /\ pool after = pool w /\ isInitialized after = isInitialized w).
Proof.
  intros after. subst after.
  exact (makeRequest_effect out self method endpoint options (maxRetries - retryCount)
           retryCount w eq_refl).
Qed.

Lemma logged_stores (out : Outside) (self : t) (entry : DatabaseManager.ApiCallLogEntry)
    (w : World) (p : Pool) :
  logApiCalls self = true -> isInitialized w = true -> pool w = Some p ->
  entry_serializable out entry ->
  db (logged out self entry w) =
    (db w ++ [asked out w (PoolQuery p
                             (InsertApiLog (schema (DatabaseConfigManager.loadConfig w)))
                             (stored_row out entry))])%list.
Proof.
  intros Hlog Hi Hp Hs.
  assert (DatabaseManager.isReady out w = (Return true, w)) as Hready.
  { rewrite isReady_initialized by done. rewrite Hp. by rewrite bool_decide_eq_true_2. }
  unfold logged. rewrite Hlog, Hready.
  apply logApiCall_inserts; rewrite ?Hready; done.
Qed.

(** A call that succeeds at once, on a client that logs and a manager that
    is initialized. *)
Lemma makeRequest_success_logged (out : Outside) (self : t) (method endpoint : string)
    (options : ApiCallOptions) (retryCount : nat) (w : World) (p : Pool)
    (r : APIResponse.t) (elapsed : Z) :
  let call := fetch_call out self method endpoint options in
  let entry := log_entry method endpoint options (Some r) elapsed in
  logApiCalls self = true -> isInitialized w = true -> pool w = Some p ->
  fetch_answer out (network w) call = (Return r, elapsed) ->
  entry_serializable out entry ->
  let run := makeRequest out self method endpoint options retryCount w in
  run.1 = Return r /\
  network run.2 = (network w ++ [call])%list /\
  db run.2 =
    (db w ++ [asked out w (PoolQuery p
                             (InsertApiLog (schema (DatabaseConfigManager.loadConfig w)))
                             (stored_row out entry))])%list.
Proof.
  intros call entry Hlog Hi Hp Hfetch Hs run. subst run call entry.
  rewrite makeRequest_step, makeRequest_try_outcome, Hfetch. simpl.
  replace (clock w + elapsed - clock w) with elapsed by lia.
  split; [reflexivity|]. split.
  - unfold logged. rewrite Hlog.
    pose proof (isReady_preserves out (same network)
                  (fetched (fetch_call out self method endpoint options) elapsed w)) as Hn.
    destruct (DatabaseManager.isReady out _) as [[[]|] w1]; simpl in Hn; try exact Hn.
    etrans; [apply (logApiCall_preserves out (same network))|exact Hn].
  - by rewrite (logged_stores out self _ _ p).
Qed.

(** A call that fails for good, on a client that logs and a manager that
    is initialized. *)
Lemma makeRequest_failure_logged (out : Outside) (self : t) (method endpoint : string)
    (options : ApiCallOptions) (retryCount : nat) (w : World) (p : Pool)
    (error : JsThrown) (elapsed : Z) :
  let call := fetch_call out self method endpoint options in
  let entry := log_entry method endpoint options None elapsed in
  logApiCalls self = true -> isInitialized w = true -> pool w = Some p ->
  fetch_answer out (network w) call = (Throw error, elapsed) ->
  retryable error && (retryCount <? maxRetries)%nat = false ->
  entry_serializable out entry ->
  let run := makeRequest out self method endpoint options retryCount w in
  run.1 = Throw error /\
  db run.2 =
    (db w ++ [asked out w (PoolQuery p
                             (InsertApiLog (schema (DatabaseConfigManager.loadConfig w)))
                             (stored_row out entry))])%list.
Proof.
  intros call entry Hlog Hi Hp Hfetch Hretry Hs run. subst run call entry.
  rewrite makeRequest_step, makeRequest_try_outcome, Hfetch. simpl.
  rewrite Hretry, makeRequest_rethrow_outcome. simpl.
  replace (clock w + elapsed - clock w) with elapsed by lia.
  split; [reflexivity|]. by rewrite (logged_stores out self _ _ p).
Qed.

(** X14.  A call that fails for good is logged without a response.  On a
    client that logs and a manager that is initialized, when the fetch throws
    an error that is not retried, [makeRequest] throws that error after one
    insert, in which status, response headers and response body are NULL and
    the time is the time the fetch took. *)
Theorem makeRequest_logs_failure (out : Outside) (self : t) (method endpoint : string)
    (options : ApiCallOptions) (retryCount : nat) (w : World) (p : Pool)
    (error : JsThrown) (elapsed : Z) :
  let requestHeaders :=
    match headers options with Some h => record_object h | None => JsUndefined end in
  logApiCalls self = true -> isInitialized w = true -> pool w = Some p ->
  fetch_answer out (network w) (fetch_call out self method endpoint options)
    = (Throw error, elapsed) ->
  retryable error = false \/ (maxRetries <= retryCount)%nat ->
  serializable out requestHeaders -> serializable out (data options) ->
  let run := makeRequest out self method endpoint options retryCount w in
  run.1 = Throw error /\
  db run.2 =
    (db w ++
     [asked out w
        (PoolQuery p (InsertApiLog (schema (DatabaseConfigManager.loadConfig w)))
           [DatabaseManager.text_or_null (testName options);
            SqlText endpoint; SqlText method;
            claimed_json out requestHeaders; claimed_json out (data options);
            SqlNull; SqlNull; SqlNull;
            DatabaseManager.number_or_null (Some elapsed)])])%list.
Proof.
  intros requestHeaders Hlog Hi Hp Hfetch Hfinal Hh Hd run. subst run requestHeaders.
  apply (makeRequest_failure_logged out self method endpoint options retryCount w p
           error elapsed); try done.
  - destruct Hfinal as [->|Hlast]; [done|].
    apply andb_false_iff. right. apply Nat.ltb_ge. exact Hlast.
  - repeat split; try done; by left.
Qed.

Lemma makeRequest_logs_failure_witness :
  let ready := (DatabaseManager.initialize Sample.refusing (fresh ∅)).2 in
  let run := makeRequest Sample.refusing Sample.a_client "GET" "/users" Sample.no_options
               0%nat ready in
  run.1 = Throw (JsError "connect ECONNREFUSED 127.0.0.1:443") /\
  stored_rows (db run.2) =
    [[SqlNull; SqlText "/users"; SqlText "GET"; SqlNull; SqlNull; SqlNull; SqlNull;
      SqlNull; SqlNull]].
Proof.
  intros ready run.
  destruct (makeRequest_logs_failure Sample.refusing Sample.a_client "GET" "/users"
              Sample.no_options 0%nat ready
              (DatabaseManager.pool_options (DatabaseConfigManager.loadConfig (fresh ∅)))
              (JsError "connect ECONNREFUSED 127.0.0.1:443") 0)
    as [Hthrown Hdb]; try reflexivity.
  - by left.
  - by left.
  - by left.
  - split; [exact Hthrown|]. subst run. rewrite Hdb. reflexivity.
Defined.

End RequestLogging.

(** ** The user and authentication clients *)

Section Clients.
Import ApiClientBase.

Lemma makeRequest_sends (out : Outside) (self : t) (method endpoint : string)
    (options : ApiCallOptions) :
  sends (fetch_call out self method endpoint options)
    (makeRequest out self method endpoint options 0%nat).
Proof.
  intros w.
  destruct (makeRequest_fetches out self method endpoint options maxRetries 0%nat w eq_refl)
    as (n & Hn & Hnet).
  exists n. split; [unfold maxRetries in Hn; lia|exact Hnet].
Qed.

(** X15.  The requests of the user client.  Each method sends one request,
    once or up to three times when the context is found closed, and nothing
    else: to the user's URL with its method, to the search URL with the
    encoded query, or to [/users/add]; no headers, a timeout of 30000, and the
    user data as body when it is truthy. *)
Theorem UserClient_requests (out : Outside) (self : t) (userId : Z) (query : string)
    (userData : JsValue) (testName : option string) :
  let user := baseURL self ++ "/users/" ++ toString userId in
  let body := if truthy userData then Some userData else None in
  sends (request user "GET" None) (UserClient.getUserById out self userId testName) /\
  sends (request (baseURL self ++ "/users/search?" ++ urlencode out "q" ++ "="
                  ++ urlencode out query) "GET" None)
    (UserClient.searchUsers out self query testName) /\
  sends (request (baseURL self ++ "/users/add") "POST" body)
    (UserClient.createUser out self userData testName) /\
  sends (request user "PUT" body) (UserClient.updateUserPut out self userId userData testName) /\
  sends (request user "PATCH" body)
    (UserClient.updateUserPatch out self userId userData testName) /\
  sends (request user "DELETE" None) (UserClient.deleteUser out self userId testName).
Proof.
  intros user body. subst user body.
  assert (forall s t u : string, (s ++ t) ++ u = s ++ t ++ u) as Hassoc
    by apply append_assoc.
  repeat split; intros w;
    match goal with
    | |- context [?m w] =>
        let m' := eval hnf in m in
        lazymatch m' with
        | makeRequest out self ?method ?endpoint ?options 0%nat =>
            destruct (makeRequest_sends out self method endpoint options w) as (n & Hn & Hnet);
            exists n; split; [exact Hn|];
            etrans; [exact Hnet|]; f_equal; f_equal;
            unfold fetch_call, request, UserClient.data_options, URLSearchParams_toString;
            simpl; rewrite ?Hassoc; reflexivity
        end
    end.
Qed.

(** X16.  [login] sends the credentials and logs them.  The request is a POST
    of the credentials to [/auth/login]; on a client that logs and a manager
    that is initialized, the row that is inserted has the JSON text of the
    credentials, as they were given, in its request body. *)
Theorem login_logs_credentials (out : Outside) (self : t) (credentials : JsValue)
    (testName : option string) (w : World) (p : Pool) (r : APIResponse.t) (elapsed : Z)
    (text : string) :
  let call := request (baseURL self ++ "/auth/login") "POST" (Some credentials) in
  truthy credentials = true ->
  logApiCalls self = true -> isInitialized w = true -> pool w = Some p ->
  fetch_answer out (network w) call = (Return r, elapsed) ->
  JSON_stringify out credentials = Return text ->
  serializable out (record_object (APIResponse.headers r)) ->
  serializable out (response_body r) ->
  let run := AuthClient.login out self credentials testName w in
  run.1 = Return r /\
  network run.2 = (network w ++ [call])%list /\
  db run.2 =
    (db w ++
     [asked out w
        (PoolQuery p (InsertApiLog (schema (DatabaseConfigManager.loadConfig w)))
           [DatabaseManager.text_or_null testName;
            SqlText "/auth/login"; SqlText "POST";
            SqlNull; SqlText text;
            DatabaseManager.number_or_null (Some (APIResponse.status r));
            claimed_json out (record_object (APIResponse.headers r));
            claimed_json out (response_body r);
            DatabaseManager.number_or_null (Some elapsed)])])%list.
Proof.
  intros call Htruthy Hlog Hi Hp Hfetch Htext Hheaders Hbody run. subst run call.
  assert (nullish credentials = false) as Hnullish by (by destruct credentials).
  assert (claimed_json out credentials = SqlText text) as Hclaimed.
  { unfold claimed_json. by rewrite Hnullish, Htext. }
  destruct (makeRequest_success_logged out self "POST" "/auth/login"
              (UserClient.data_options credentials testName) 0%nat w p r elapsed)
    as (Hr & Hnet & Hdb); try done.
  - unfold fetch_call, UserClient.data_options. simpl. by rewrite Htruthy.
  - repeat split; try done; [by left|]. right. by exists text.
  - split; [exact Hr|]. split.
    + etrans; [exact Hnet|]. unfold fetch_call, request, UserClient.data_options. simpl.
      by rewrite Htruthy.
    + etrans; [exact Hdb|]. unfold stored_row, log_entry, UserClient.data_options. simpl.
      by rewrite Hclaimed.
Qed.

(** X17.  [getCurrentUser] sends the token and logs it.  The request is a GET
    of [/auth/me] with [Authorization: Bearer token] as its only header and no
    body; on a client that logs and a manager that is initialized, the row
    that is inserted has the JSON text of that header in its request headers.
    *)
Theorem getCurrentUser_sends_and_logs_token (out : Outside) (self : t) (token : string)
    (testName : option string) (w : World) (p : Pool) (r : APIResponse.t) (elapsed : Z)
    (text : string) :
  let authorization := [("Authorization", "Bearer " ++ token)] in
  let call :=
    {| fetch_url := baseURL self ++ "/auth/me"; fetch_method := "GET";
       fetch_headers := authorization; fetch_timeout := 30000; fetch_data := None |} in
  logApiCalls self = true -> isInitialized w = true -> pool w = Some p ->
  fetch_answer out (network w) call = (Return r, elapsed) ->
  JSON_stringify out (record_object authorization) = Return text ->
  serializable out (record_object (APIResponse.headers r)) ->
  serializable out (response_body r) ->
  let run := AuthClient.getCurrentUser out self token testName w in
  run.1 = Return r /\
  network run.2 = (network w ++ [call])%list /\
  db run.2 =
    (db w ++
     [asked out w
        (PoolQuery p (InsertApiLog (schema (DatabaseConfigManager.loadConfig w)))
           [DatabaseManager.text_or_null testName;
            SqlText "/auth/me"; SqlText "GET";
            SqlText text; SqlNull;
            DatabaseManager.number_or_null (Some (APIResponse.status r));
            claimed_json out (record_object (APIResponse.headers r));
            claimed_json out (response_body r);
            DatabaseManager.number_or_null (Some elapsed)])])%list.
Proof.
  intros authorization call Hlog Hi Hp Hfetch Htext Hheaders Hbody run.
  subst run call authorization.
  assert (claimed_json out
            (record_object [("Authorization", "Bearer " ++ token)]) = SqlText text)
    as Hclaimed.
  { unfold claimed_json. simpl. simpl in Htext. by rewrite Htext. }
  destruct (makeRequest_success_logged out self "GET" "/auth/me"
              {| headers := Some [("Authorization", "Bearer " ++ token)];
                 data := JsUndefined; params := None; testName := testName |}
              0%nat w p r elapsed)
    as (Hr & Hnet & Hdb); try done.
  - repeat split; try done; [|by left]. right. by exists text.
  - split; [exact Hr|]. split; [exact Hnet|].
    etrans; [exact Hdb|]. unfold stored_row, log_entry. simpl. simpl in Hclaimed.
    by rewrite Hclaimed.
Qed.

End Clients.

Section ClientRuns.
Import ApiClientBase.

Lemma login_logs_credentials_witness :
  let credentials :=
    JsObject [("username", JsString "emilys"); ("password", JsString "emilyspass")] in
  let ready := (DatabaseManager.initialize Sample.quiet (fresh ∅)).2 in
  let run := AuthClient.login Sample.quiet Sample.a_client credentials None ready in
  run.1 = Return Sample.a_response /\
  stored_rows (db run.2) =
    [[SqlNull; SqlText "/auth/login"; SqlText "POST"; SqlNull; SqlText "{}";
      SqlInteger 200; SqlText "{}"; SqlText "{}"; SqlInteger 12]].
Proof.
  intros credentials ready run.
  destruct (login_logs_credentials Sample.quiet Sample.a_client credentials None ready
              (DatabaseManager.pool_options (DatabaseConfigManager.loadConfig (fresh ∅)))
              Sample.a_response 12 "{}")
    as (Hr & _ & Hdb); try reflexivity.
  - right. by exists "{}".
  - right. by exists "{}".
  - split; [exact Hr|]. subst run. rewrite Hdb. reflexivity.
Defined.

Lemma getCurrentUser_sends_and_logs_token_witness :
  let ready := (DatabaseManager.initialize Sample.quiet (fresh ∅)).2 in
  let run := AuthClient.getCurrentUser Sample.quiet Sample.a_client "eyJhbGciOi" None ready in
  run.1 = Return Sample.a_response /\
  fetch_headers <$> last (network run.2) = Some [("Authorization", "Bearer eyJhbGciOi")] /\
  length (stored_rows (db run.2)) = 1%nat.
Proof.
  intros ready run.
  destruct (getCurrentUser_sends_and_logs_token Sample.quiet Sample.a_client "eyJhbGciOi"
              None ready
              (DatabaseManager.pool_options (DatabaseConfigManager.loadConfig (fresh ∅)))
              Sample.a_response 12 "{}")
    as (Hr & Hnet & Hdb); try reflexivity.
  - right. by exists "{}".
  - right. by exists "{}".
  - split; [exact Hr|]. subst run. rewrite Hnet, Hdb. split; reflexivity.
Defined.

End ClientRuns.

(** ** Computations that read neither the console nor the clock *)

#[global] Instance apart_equivalence : Equivalence apart.
Proof.
  split.
  - intros w. by repeat split.
  - intros w1 w2 (? & ? & ? & ? & ? & ? & ?). by repeat split.
  - intros w1 w2 w3 (? & ? & ? & ? & ? & ? & ?) (? & ? & ? & ? & ? & ? & ?).
    repeat split; congruence.
Qed.

Lemma blind_ret {A} (a : A) : blind (mret a : M A).
Proof. intros w1 w2 H. by split. Qed.

Lemma blind_throw {A} (e : JsThrown) : blind (throw e : M A).
Proof. intros w1 w2 H. by split. Qed.

Lemma blind_lift {A} (c : Completion A) : blind (lift c).
Proof. intros w1 w2 H. by split. Qed.

Lemma blind_get {A} (f : World -> A) :
  (forall w1 w2, apart w1 w2 -> f w1 = f w2) -> blind (get f).
Proof. intros Hf w1 w2 H. split; [|exact H]. simpl. f_equal. by apply Hf. Qed.

Lemma blind_modify (f : World -> World) :
  (forall w1 w2, apart w1 w2 -> apart (f w1) (f w2)) -> blind (modify f).
Proof. intros Hf w1 w2 H. split; [reflexivity|]. by apply Hf. Qed.

Lemma blind_bind {A B} (m : M A) (k : A -> M B) :
  blind m -> (forall a, blind (k a)) -> blind (m ≫= k).
Proof.
  intros Hm Hk w1 w2 H. rewrite !run_bind. destruct (Hm w1 w2 H) as [Hr Hw].
  destruct (m w1) as [[a|e] w1'], (m w2) as [[a'|e'] w2']; simpl in *; try discriminate.
  - injection Hr as <-. by apply Hk.
  - injection Hr as <-. by split.
Qed.

Lemma blind_try_catch {A} (body : M A) (handler : JsThrown -> M A) :
  blind body -> (forall e, blind (handler e)) -> blind (try_catch body handler).
Proof.
  intros Hm Hk w1 w2 H. unfold try_catch. destruct (Hm w1 w2 H) as [Hr Hw].
  destruct (body w1) as [[a|e] w1'], (body w2) as [[a'|e'] w2']; simpl in *;
    try discriminate.
  - split; [exact Hr|exact Hw].
  - injection Hr as <-. by apply Hk.
Qed.

Lemma blind_try_finally {A} (body : M A) (cleanup : World -> World) :
  blind body -> (forall w1 w2, apart w1 w2 -> apart (cleanup w1) (cleanup w2)) ->
  blind (try_finally body cleanup).
Proof.
  intros Hm Hc w1 w2 H. unfold try_finally. destruct (Hm w1 w2 H) as [Hr Hw].
  destruct (body w1) as [r1 w1'], (body w2) as [r2 w2']; simpl in *.
  split; [exact Hr|]. by apply Hc.
Qed.

Lemma blind_execPromise (out : Outside) (command : string) :
  blind (TestContainerManager.execPromise out command).
Proof.
  intros w1 w2 (? & Hr & ? & ? & ? & ? & ?). unfold TestContainerManager.execPromise. simpl.
  rewrite Hr. unfold apart. simpl. repeat split; congruence.
Qed.

Lemma blind_startContainer (out : Outside) (spec : ContainerSpec) :
  blind (TestContainerManager.startContainer out spec).
Proof.
  intros w1 w2 (? & Hr & ? & ? & ? & ? & ?). unfold TestContainerManager.startContainer.
  simpl. rewrite Hr. unfold apart. simpl. repeat split; congruence.
Qed.

Lemma blind_stopContainer (out : Outside) (c : StartedPostgreSqlContainer) :
  blind (TestContainerManager.stopContainer out c).
Proof.
  intros w1 w2 (? & Hr & ? & ? & ? & ? & ?). unfold TestContainerManager.stopContainer.
  simpl. rewrite Hr. unfold apart. simpl. repeat split; congruence.
Qed.

Lemma blind_pg (out : Outside) (call : DbCall) : blind (DatabaseManager.pg out call).
Proof.
  intros w1 w2 (? & ? & Hd & ? & ? & ? & ?). unfold DatabaseManager.pg. simpl.
  rewrite Hd. unfold apart. simpl. repeat split; congruence.
Qed.

Lemma blind_new_Pool (out : Outside) (config : DatabaseConfig) :
  blind (DatabaseManager.new_Pool out config).
Proof.
  unfold DatabaseManager.new_Pool. destruct (new_Pool_throws out _).
  - apply blind_throw.
  - apply blind_ret.
Qed.

Ltac apart_reads :=
  let He := fresh in
  let Hr := fresh in
  let Hd := fresh in
  let Hn := fresh in
  let Hc := fresh in
  let Hp := fresh in
  let Hi := fresh in
  intros ? ? (He & Hr & Hd & Hn & Hc & Hp & Hi);
  first [ assumption
        | unfold env_is, DatabaseConfigManager.loadConfig, env_or; rewrite He; reflexivity
        | unfold apart; simpl; repeat split; congruence ].

Ltac blindly :=
  repeat first
    [ match goal with
      | |- blind (mret _) => apply blind_ret
      | |- blind (throw _) => apply blind_throw
      | |- blind (lift _) => apply blind_lift
      | |- blind (get _) => apply blind_get; apart_reads
      | |- blind (modify _) => apply blind_modify; apart_reads
      | |- blind (mbind _ _) => apply blind_bind; [|intros ?]
      | |- blind (try_catch _ _) => apply blind_try_catch; [|intros ?]
      | |- blind (try_finally _ _) => apply blind_try_finally; [|apart_reads]
      | |- blind (TestContainerManager.execPromise _ _) => apply blind_execPromise
      | |- blind (TestContainerManager.startContainer _ _) => apply blind_startContainer
      | |- blind (TestContainerManager.stopContainer _ _) => apply blind_stopContainer
      | |- blind (DatabaseManager.pg _ _) => apply blind_pg
      | |- blind (DatabaseManager.new_Pool _ _) => apply blind_new_Pool
      | |- blind (if ?b then _ else _) => destruct b
      | |- blind (match ?x with _ => _ end) => destruct x
      end
    | progress unfold console_log, console_warn, console_error, setenv, sleep,
        DatabaseConfigManager.getConfig
    | progress cbv beta zeta ].

Lemma blind_start (out : Outside) : blind (TestContainerManager.start out).
Proof.
  unfold TestContainerManager.start, TestContainerManager.findExistingContainer,
    TestContainerManager.getExistingContainerConfig, TestContainerManager.start_new.
  blindly.
Qed.

Lemma blind_stop (out : Outside) : blind (TestContainerManager.stop out).
Proof. unfold TestContainerManager.stop. blindly. Qed.

Lemma blind_initialize (out : Outside) : blind (DatabaseManager.initialize out).
Proof.
  unfold DatabaseManager.initialize, DatabaseManager.createSchemaAndTables,
    DatabaseManager.getClient.
  blindly.
Qed.

Lemma blind_isReady (out : Outside) : blind (DatabaseManager.isReady out).
Proof. unfold DatabaseManager.isReady, DatabaseManager.reinitializePool. blindly. Qed.

Lemma blind_close (out : Outside) : blind (DatabaseManager.close out).
Proof. unfold DatabaseManager.close. blindly. Qed.

(** ** Global setup *)

Section SetupSteps.
Import GlobalSetup.

Lemma initialize_preserves (out : Outside) (R : relation World) `{!LoggingFrame R} :
  preserves R (DatabaseManager.initialize out).
Proof.
  unfold DatabaseManager.initialize. structural;
    first [ apply new_Pool_preserves, _
          | apply pg_preserves, _
          | apply createSchemaAndTables_preserves, _ ].
Qed.

Lemma env_is_with_console (name value : string) (g : _) (w : World) :
  env_is name value (with_console g w) = env_is name value w.
Proof. reflexivity. Qed.

(** [globalSetup] with logging on: [start], two seconds, [initialize],
    [isReady]; whatever the first or the second throws is thrown again. *)
Lemma globalSetup_outcome (out : Outside) (w : World) :
  env_is "LOG_API_CALLS" "true" w = true ->
  let started := TestContainerManager.start out w in
  let run := globalSetup out w in
  match started.1 with
  | Throw e => run.1 = Throw e /\ apart started.2 run.2 /\ clock run.2 = clock w
  | Return _ =>
      exists w3,
        apart started.2 w3 /\ clock w3 = clock w + 2000 /\
        match DatabaseManager.initialize out w3 with
        | (Throw e, w4) => run.1 = Throw e /\ apart w4 run.2 /\ clock run.2 = clock w + 2000
        | (Return _, w4) =>
            run.1 = Return tt /\ apart (DatabaseManager.isReady out w4).2 run.2 /\
            clock run.2 = clock w + 2000
        end
  end.
Proof.
  intros Hlog started run. subst run.
  remember started as s0 eqn:Hstarted. subst started.
  unfold globalSetup. run. rewrite !env_is_with_console, Hlog. simpl.
  unfold try_catch, steps. run.
  match goal with |- context [TestContainerManager.start out ?x] => set (w1 := x) end.
  assert (apart w w1) as H1 by (by repeat split).
  destruct (blind_start out w w1 H1) as [Hr Hw]. rewrite <- Hstarted in Hr, Hw.
  pose proof (start_preserves clock out w1) as Hclock. unfold same in Hclock.
  clear Hstarted. destruct s0 as [r0 w0].
  destruct (TestContainerManager.start out w1) as [[r|e] w2]; simpl in Hr, Hw, Hclock;
    subst r0; run.
  2:{ split; [reflexivity|]. split; [etrans; [exact Hw|]; by repeat split|exact Hclock]. }
  match goal with |- context [DatabaseManager.initialize out ?x] => set (w3 := x) end.
  exists w3. split; [etrans; [exact Hw|]; by repeat split|].
  split; [subst w3; simpl; by rewrite Hclock|].
  pose proof (initialize_preserves out (same clock) w3) as Hclock3. unfold same in Hclock3.
  assert (clock w3 = clock w + 2000) as Hw3 by (subst w3; simpl; by rewrite Hclock).
  destruct (DatabaseManager.initialize out w3) as [[[]|e] w4]; simpl in Hclock3; run.
  2:{ split; [reflexivity|]. split; [by repeat split|]. simpl. congruence. }
  match goal with |- context [DatabaseManager.isReady out ?x] => set (w5 := x) end.
  assert (apart w4 w5) as H5 by (by repeat split).
  destruct (blind_isReady out w4 w5 H5) as [_ Hw5].
  pose proof (isReady_preserves out (same clock) w5) as Hclock5. unfold same in Hclock5.
  destruct (isReady_never_throws out w5) as [ready Hready].
  destruct (DatabaseManager.isReady out w5) as [r5 w6]. simpl in Hready, Hw5, Hclock5.
  subst r5. run.
  assert (clock w6 = clock w + 2000) as Hw6 by (rewrite Hclock5; subst w5; simpl; congruence).
  destruct ready, (env_is "KEEP_CONTAINER_RUNNING" "true" w); run;
    (split; [reflexivity|]); (split; [etrans; [exact Hw5|]; by repeat split|]); exact Hw6.
Qed.

Lemma apart_consistent (w1 w2 : World) : apart w1 w2 -> consistent w1 -> consistent w2.
Proof.
  intros (_ & _ & _ & _ & _ & Hp & Hi) Hc. unfold consistent in *.
  rewrite <- Hp, <- Hi. exact Hc.
Qed.

(** When [initialize] returns on a manager that was not initialized, the
    pool is the one made from the configuration it read. *)
Lemma initialize_returned_pool (out : Outside) (w : World) :
  isInitialized w = false ->
  (DatabaseManager.initialize out w).1 = Return tt ->
  pool (DatabaseManager.initialize out w).2 =
    Some (DatabaseManager.pool_options (DatabaseConfigManager.loadConfig w)).
Proof.
  intros Hi Hr.
  destruct (new_Pool_throws out
              (DatabaseManager.pool_options (DatabaseConfigManager.loadConfig w)))
    as [e|] eqn:Hnew.
  { destruct (initialize_new_Pool_throws out w e Hi Hnew) as (w1 & Hrun & _).
    rewrite Hrun in Hr. discriminate Hr. }
  destruct (pg_answer out (db w)
              (PoolQuery (DatabaseManager.pool_options (DatabaseConfigManager.loadConfig w))
                 SelectOne [])) as [q|e] eqn:Hanswer.
  2:{ destruct (initialize_connectivity_failure out w e Hi Hnew Hanswer) as (w1 & Hrun & _).
      rewrite Hrun in Hr. discriminate Hr. }
  destruct (initialize_connected out w q Hi Hnew Hanswer) as (w2 & Hrun & _ & Hp & _).
  destruct (after_connected out w2) as (_ & Hp' & _).
  rewrite Hrun. simpl in Hp'. by rewrite Hp', Hp.
Qed.

End SetupSteps.

Section Setup.
Import GlobalSetup.

(** X18.  With logging on, [globalSetup] ends as [start] and [initialize] end.
    What [start] throws is thrown again, and then the database has not been
    asked anything, the manager is as it was and no time was spent waiting.
    When [start] returns, [globalSetup] ends as [initialize] ends on the world
    that [start] left: the handler reports and rethrows. *)
Theorem globalSetup_propagates (out : Outside) (w : World) :
  env_is "LOG_API_CALLS" "true" w = true ->
  let started := TestContainerManager.start out w in
  let run := globalSetup out w in
  match started.1 with
  | Throw e =>
      run.1 = Throw e /\ db run.2 = db w /\ pool run.2 = pool w /\
      isInitialized run.2 = isInitialized w /\ clock run.2 = clock w
  | Return _ => run.1 = (DatabaseManager.initialize out started.2).1
  end.
Proof.
  intros Hlog started run. subst started run.
  pose proof (globalSetup_outcome out w Hlog) as Hrun. simpl in Hrun.
  pose proof (start_preserves db out w) as Hdb.
  pose proof (start_preserves pool out w) as Hp.
  pose proof (start_preserves isInitialized out w) as Hi.
  unfold same in *.
  destruct (TestContainerManager.start out w) as [[r|e] w2]; simpl in *.
  - destruct Hrun as (w3 & Ha & _ & Hrun).
    destruct (blind_initialize out w2 w3 Ha) as [-> _].
    destruct (DatabaseManager.initialize out w3) as [[[]|e] w4]; by destruct Hrun.
  - destruct Hrun as (Hr & (_ & _ & Hdb' & _ & _ & Hp' & Hi') & Hc).
    repeat split; congruence.
Qed.

Lemma globalSetup_propagates_witness :
  let w := fresh {[ "LOG_API_CALLS" := "true" ]} in
  (globalSetup Sample.no_docker w).1 =
    Throw (JsError "Could not find a working container runtime strategy") /\
  db (globalSetup Sample.no_docker w).2 = [] /\
  (globalSetup Sample.db_down w).1 = Throw (JsError "connect ECONNREFUSED").
Proof.
  intros w.
  pose proof (globalSetup_propagates Sample.no_docker w eq_refl) as Hdocker.
  pose proof (globalSetup_propagates Sample.db_down w eq_refl) as Hdb.
  destruct Hdocker as (Hthrown & Hnone & _).
  split; [exact Hthrown|]. split; [exact Hnone|exact Hdb].
Defined.

(** X19.  With logging on, when [globalSetup] returns the manager is ready: it
    is initialized and holds a pool, [DB_INITIALIZED] is ['true'], the two
    seconds of the wait are all the time that was spent, and [isReady] answers
    true and changes nothing. *)
Theorem globalSetup_leaves_ready (out : Outside) (w : World) :
  env_is "LOG_API_CALLS" "true" w = true ->
  consistent w ->
  (globalSetup out w).1 = Return tt ->
  let w' := (globalSetup out w).2 in
  isInitialized w' = true /\ pool w' <> None /\
  env w' !! "DB_INITIALIZED" = Some "true" /\
  clock w' = clock w + 2000 /\
  DatabaseManager.isReady out w' = (Return true, w').
Proof.
  intros Hlog Hc Hreturned w'. subst w'.
  pose proof (globalSetup_outcome out w Hlog) as Hrun. simpl in Hrun.
  pose proof (start_preserves pool out w) as Hp.
  pose proof (start_preserves isInitialized out w) as Hi.
  unfold same in *.
  destruct (TestContainerManager.start out w) as [[r|e] w2] eqn:Hstart; simpl in *.
  2:{ destruct Hrun as (Hr & _). congruence. }
  assert (env w2 !! "DB_INITIALIZED" = Some "true") as Hflag.
  { pose proof (start_returned_flag out w r) as H. rewrite Hstart in H. by apply H. }
  destruct Hrun as (w3 & Ha & _ & Hrun).
  assert (consistent w3) as Hc3.
  { apply (apart_consistent w2); [exact Ha|]. unfold consistent in *.
    rewrite Hp, Hi. exact Hc. }
  pose proof (initialize_preserves out (same env) w3) as Henv. unfold same in Henv.
  destruct (DatabaseManager.initialize out w3) as [[[]|e] w4] eqn:Hinit; simpl in *.
  2:{ destruct Hrun as (Hr & _). congruence. }
  destruct (initialize_success out w3 w4 Hc3 Hinit) as [Hi4 Hp4].
  destruct Hrun as (_ & Ha4 & Hclock).
  rewrite isReady_initialized in Ha4 by exact Hi4. simpl in Ha4.
  destruct Ha as (He3 & _). destruct Ha4 as (He4 & _ & _ & _ & _ & Hp' & Hi').
  assert (isInitialized (globalSetup out w).2 = true) as Hi'' by congruence.
  assert (pool (globalSetup out w).2 <> None) as Hp'' by congruence.
  split; [exact Hi''|]. split; [exact Hp''|]. split; [congruence|]. split; [exact Hclock|].
  rewrite isReady_initialized by exact Hi''. by rewrite bool_decide_eq_true_2.
Qed.

Lemma globalSetup_leaves_ready_witness :
  let w := fresh {[ "LOG_API_CALLS" := "true" ]} in
  let w' := (globalSetup Sample.quiet w).2 in
  isInitialized w' = true /\ pool w' <> None /\
  env w' !! "DB_INITIALIZED" = Some "true" /\
  clock w' = 2000 /\
  DatabaseManager.isReady Sample.quiet w' = (Return true, w').
Proof.
  intros w.
  apply (globalSetup_leaves_ready Sample.quiet w).
  - reflexivity.
  - intros H. discriminate H.
  - reflexivity.
Defined.

(** X20.  [globalSetup] connects to the container it created.  When [start]
    returns a new container and [globalSetup] returns, the pool of the manager
    is the one made for the host, the mapped port, the database, the user and
    the password of that container. *)
Theorem globalSetup_connects_to_created_container (out : Outside) (w : World)
    (c : StartedPostgreSqlContainer) :
  env_is "LOG_API_CALLS" "true" w = true ->
  isInitialized w = false ->
  (TestContainerManager.start out w).1 = Return (Some c) ->
  (globalSetup out w).1 = Return tt ->
  pool (globalSetup out w).2 =
    Some {| pool_host := or_else (getHost c) "localhost";
            pool_port := Some (getPort c);
            pool_database := or_else (getDatabase c) "api_test_db";
            pool_user := or_else (getUsername c) "testuser";
            pool_password := or_else (getPassword c) "testpass";
            max := 10; idleTimeoutMillis := 30000; connectionTimeoutMillis := 5000 |}.
Proof.
  intros Hlog Hi Hcreated Hreturned.
  pose proof (globalSetup_outcome out w Hlog) as Hrun. simpl in Hrun.
  pose proof (start_preserves isInitialized out w) as Hi2. unfold same in Hi2.
  destruct (start_outcome out w) as (found & w1 & _ & Hstart). simpl in Hstart.
  assert (env (TestContainerManager.start out w).2 =
            published (getHost c) (toString (getPort c)) (getDatabase c) (getUsername c)
              (getPassword c) (env w)) as Henv.
  { destruct (_ && _ && says_running _).
    - destruct Hstart as (Hr & _). congruence.
    - destruct Hstart as [_ Hnew].
      destruct (container_start_answer out _ (new_container_spec w)) as [c'|e].
      + destruct Hnew as (Hr & _ & Henv). rewrite Hcreated in Hr. by injection Hr as ->.
      + destruct Hnew as (Hr & _). congruence. }
  rewrite Hcreated in Hrun. destruct Hrun as (w3 & Ha & _ & Hrun).
  assert (isInitialized w3 = false) as Hi3.
  { destruct Ha as (_ & _ & _ & _ & _ & _ & <-). congruence. }
  assert (DatabaseConfigManager.loadConfig w3 =
            DatabaseConfigManager.loadConfig (TestContainerManager.start out w).2) as Hcfg.
  { destruct Ha as (He & _). unfold DatabaseConfigManager.loadConfig, env_or. by rewrite He. }
  pose proof (initialize_returned_pool out w3 Hi3) as Hpool.
  destruct (DatabaseManager.initialize out w3) as [[[]|e] w4] eqn:Hinit; simpl in *.
  2:{ destruct Hrun as (Hr & _). congruence. }
  destruct Hrun as (_ & Ha4 & _).
  assert (pool (DatabaseManager.isReady out w4).2 = pool w4) as Hsame.
  { assert (consistent w3) as Hc3 by (intros H; congruence).
    destruct (initialize_success out w3 w4 Hc3 Hinit) as [Hi4 _].
    by rewrite isReady_initialized. }
  destruct Ha4 as (_ & _ & _ & _ & _ & <- & _).
  rewrite Hsame, (Hpool eq_refl), Hcfg, (published_loadConfig w _ _ _ _ _ _ Henv).
  reflexivity.
Qed.

Lemma globalSetup_connects_to_created_container_witness :
  let w := fresh {[ "LOG_API_CALLS" := "true" ]} in
  pool (globalSetup Sample.quiet w).2 =
    Some {| pool_host := "localhost"; pool_port := Some 32768;
            pool_database := "api_test_db"; pool_user := "testuser";
            pool_password := "testpass";
            max := 10; idleTimeoutMillis := 30000; connectionTimeoutMillis := 5000 |}.
Proof.
  intros w.
  apply (globalSetup_connects_to_created_container Sample.quiet w Sample.a_container);
    reflexivity.
Defined.

End Setup.

(** ** Global teardown *)

Section TeardownSteps.
Import GlobalTeardown.

(** [globalTeardown] with logging on is its [try] block under a handler
    that returns. *)
Lemma globalTeardown_enabled (out : Outside) (w : World) :
  env_is "LOG_API_CALLS" "true" w = true ->
  exists w0,
    apart w w0 /\ clock w0 = clock w /\
    globalTeardown out w =
      try_catch (steps out (env_is "KEEP_CONTAINER_RUNNING" "true" w)) (report) w0.
Proof.
  intros Hlog. unfold globalTeardown. run. rewrite !env_is_with_console, Hlog. simpl.
  eexists. split; [|split; [|reflexivity]]; by repeat split.
Qed.

Lemma globalTeardown_never_throws (out : Outside) : never_throws (globalTeardown out).
Proof. unfold globalTeardown, report. structural. Qed.

Lemma close_preserves (out : Outside) (R : relation World) `{!LoggingFrame R} :
  preserves R (DatabaseManager.close out).
Proof. unfold DatabaseManager.close. structural. apply pg_preserves, _. Qed.

Lemma globalTeardown_preserves {A} (f : World -> A) `{!ContainerFrame f}
    `{!LoggingFrame (same f)} (out : Outside) :
  preserves (same f) (globalTeardown out).
Proof.
  unfold globalTeardown, steps, report. structural;
    first [ apply close_preserves, _ | apply (stop_preserves f out) ].
Qed.

Lemma stop_env (out : Outside) : preserves (same env) (TestContainerManager.stop out).
Proof.
  unfold TestContainerManager.stop. structural. intros w. reflexivity.
Qed.

Lemma globalTeardown_env (out : Outside) : preserves (same env) (globalTeardown out).
Proof.
  unfold globalTeardown, steps, report. structural;
    first [ apply close_preserves, _ | apply stop_env ].
Qed.

(** [globalTeardown] with logging on: [close], then [stop] unless the
    container is kept; when [close] throws, [stop] is not reached. *)
Lemma globalTeardown_outcome (out : Outside) (w : World) :
  env_is "LOG_API_CALLS" "true" w = true ->
  let closed := DatabaseManager.close out w in
  let run := globalTeardown out w in
  match closed.1 with
  | Throw _ => apart closed.2 run.2
  | Return _ =>
      if env_is "KEEP_CONTAINER_RUNNING" "true" w then apart closed.2 run.2
      else apart (TestContainerManager.stop out closed.2).2 run.2
  end.
Proof.
  intros Hlog closed run. subst run.
  remember closed as closed0 eqn:Hclosed. subst closed.
  destruct (globalTeardown_enabled out w Hlog) as (w0 & Ha & _ & ->).
  unfold try_catch, steps, report. run.
  match goal with |- context [DatabaseManager.close out ?x] => set (w1 := x) end.
  assert (apart w w1) as H1 by (etrans; [exact Ha|]; by repeat split).
  destruct (blind_close out w w1 H1) as [Hr Hw]. rewrite <- Hclosed in Hr, Hw.
  clear Hclosed. destruct closed0 as [r0 w0'].
  destruct (DatabaseManager.close out w1) as [[[]|e] w2]; simpl in Hr, Hw; subst r0; run.
  2:{ etrans; [exact Hw|]. by repeat split. }
  destruct (env_is "KEEP_CONTAINER_RUNNING" "true" w); run.
  { etrans; [exact Hw|]. by repeat split. }
  match goal with
  | |- context [TestContainerManager.stop out (with_console ?g ?x)] =>
      set (w3 := with_console g x)
  end.
  assert (apart w0' w3) as H3 by (etrans; [exact Hw|]; by repeat split).
  destruct (blind_stop out w0' w3 H3) as [_ Hw3].
  destruct (TestContainerManager.stop out w3) as [[[]|e] w4]; simpl in Hw3; run;
    (etrans; [exact Hw3|]); by repeat split.
Qed.

End TeardownSteps.

Section Teardown.
Import GlobalTeardown.

(** X22.  [globalTeardown] returns, whatever [close] and [stop] do.  It leaves
    the environment, the network and the clock as they were; with logging off
    it only prints; with the keep-alive flag it asks nothing of the runtime
    and keeps the handle of the container. *)
Theorem globalTeardown_contained (out : Outside) (w : World) :
  let run := globalTeardown out w in
  run.1 = Return tt /\
  env run.2 = env w /\ network run.2 = network w /\ clock run.2 = clock w /\
  (env_is "LOG_API_CALLS" "true" w = false -> apart w run.2) /\
  (env_is "KEEP_CONTAINER_RUNNING" "true" w = true ->
   runtime run.2 = runtime w /\ container run.2 = container w).
Proof.
  intros run. subst run.
  split; [|split; [|split; [|split; [|split]]]].
  - destruct (globalTeardown_never_throws out w) as [[] H]. exact H.
  - apply (globalTeardown_env out w).
  - apply (globalTeardown_preserves network out w).
  - apply (globalTeardown_preserves clock out w).
  - intros Hlog. unfold globalTeardown. run. rewrite !env_is_with_console, Hlog. simpl.
    run. by repeat split.
  - intros Hkeep. destruct (env_is "LOG_API_CALLS" "true" w) eqn:Hlog.
    + pose proof (globalTeardown_outcome out w Hlog) as Hrun. simpl in Hrun.
      rewrite Hkeep in Hrun.
      pose proof (close_preserves out (same runtime) w) as Hrt.
      pose proof (close_preserves out (same container) w) as Hc. unfold same in *.
      assert (apart (DatabaseManager.close out w).2 (globalTeardown out w).2) as Ha
        by (by destruct ((DatabaseManager.close out w).1)).
      destruct Ha as (_ & Hrt' & _ & _ & Hc' & _). split; congruence.
    + unfold globalTeardown. run. rewrite !env_is_with_console, Hlog. simpl. run. done.
Qed.

(** X23.  When [close] throws, [stop] is not reached.  With logging on, a pool
    that cannot be ended makes [globalTeardown] return at once: the runtime is
    asked nothing, so a container this process created is left running with or
    without the keep-alive flag, and the manager keeps its pool. *)
Theorem globalTeardown_close_failure (out : Outside) (w : World) (p : Pool) (e : JsThrown) :
  env_is "LOG_API_CALLS" "true" w = true ->
  pool w = Some p ->
  pg_answer out (db w) (PoolEnd p) = Throw e ->
  let run := globalTeardown out w in
  run.1 = Return tt /\
  runtime run.2 = runtime w /\ container run.2 = container w /\
  pool run.2 = Some p /\ isInitialized run.2 = isInitialized w /\
  db run.2 = (db w ++ [(PoolEnd p, Throw e)])%list.
Proof.
  intros Hlog Hp Hend run. subst run.
  pose proof (globalTeardown_outcome out w Hlog) as Hrun. simpl in Hrun.
  assert (DatabaseManager.close out w =
            (Throw e, with_db (fun d => (d ++ [(PoolEnd p, Throw e)])%list) w)) as Hclose.
  { unfold DatabaseManager.close. run. rewrite Hp. run. by rewrite Hend. }
  rewrite Hclose in Hrun. simpl in Hrun.
  destruct Hrun as (_ & Hrt & Hdb & _ & Hc & Hp' & Hi). simpl in *.
  split.
  { destruct (globalTeardown_never_throws out w) as [[] H]. exact H. }
  repeat split; congruence.
Qed.

Lemma globalTeardown_close_failure_witness :
  let w :=
    set_container (Some Sample.a_container)
      (DatabaseManager.initialize Sample.db_down
         (fresh {[ "LOG_API_CALLS" := "true" ]})).2 in
  let run := globalTeardown Sample.db_down w in
  run.1 = Return tt /\
  container run.2 = Some Sample.a_container /\
  runtime run.2 = [].
Proof.
  intros w run.
  destruct (globalTeardown_close_failure Sample.db_down w
              (DatabaseManager.pool_options (DatabaseConfigManager.loadConfig (fresh ∅)))
              (JsError "connect ECONNREFUSED"))
    as (Hr & Hrt & Hc & _).
  - vm_compute. reflexivity.
  - vm_compute. reflexivity.
  - vm_compute. reflexivity.
  - split; [exact Hr|]. split; [exact Hc|exact Hrt].
Defined.

(** X24.  The normal teardown.  With logging on and without the keep-alive
    flag, on a manager a process can reach and with a container it created:
    the pool is ended and forgotten, the runtime is asked to stop that
    container and nothing else, and the handle is cleared unless the stop
    threw, which is swallowed.  [DB_INITIALIZED] is still set, so [isReady]
    answers true again afterwards, unless the pool cannot be constructed. *)
Theorem globalTeardown_closes_and_stops (out : Outside) (ops : list Op)
    (e : gmap string string) (c : StartedPostgreSqlContainer) :
  let w := set_container (Some c) (run_ops out ops (fresh e)) in
  env_is "LOG_API_CALLS" "true" w = true ->
  env_is "KEEP_CONTAINER_RUNNING" "true" w = false ->
  (forall p, pool w = Some p -> exists q, pg_answer out (db w) (PoolEnd p) = Return q) ->
  let run := globalTeardown out w in
  pool run.2 = None /\ isInitialized run.2 = false /\
  runtime run.2 = (runtime w ++ [ContainerStop c])%list /\
  container run.2 =
    match container_stop_answer out (runtime w) c with
    | Return _ => None
    | Throw _ => Some c
    end /\
  (env_is "DB_INITIALIZED" "true" w = true ->
   new_Pool_throws out
     (DatabaseManager.pool_options (DatabaseConfigManager.loadConfig w)) = None ->
   (DatabaseManager.isReady out run.2).1 = Return true).
Proof.
  intros w Hlog Hkeep Hend run. subst run.
  assert (consistent w) as Hcons.
  { pose proof (run_ops_consistent out ops (fresh e)) as H. unfold consistent in *.
    simpl. apply H. intros H'. discriminate H'. }
  pose proof (globalTeardown_outcome out w Hlog) as Hrun. simpl in Hrun.
  rewrite Hkeep in Hrun.
  pose proof (close_run out w) as Hclose.
  pose proof (close_preserves out (same runtime) w) as Hrt.
  pose proof (close_preserves out (same container) w) as Hc.
  pose proof (close_preserves out (same env) w) as Henv. unfold same in *.
  assert (exists w1, DatabaseManager.close out w = (Return tt, w1) /\
                     pool w1 = None /\ isInitialized w1 = false) as (w1 & Hw1 & Hp1 & Hi1).
  { destruct (pool w) as [p|] eqn:Hp.
    - destruct (Hend p eq_refl) as [q Hq]. rewrite Hq in Hclose.
      destruct Hclose as (w1 & Hw1 & ? & ? & _). by exists w1.
    - exists w. split; [exact Hclose|]. split; [exact Hp|].
      destruct (isInitialized w) eqn:Hi; [|done]. by destruct Hcons. }
  rewrite Hw1 in Hrun, Hrt, Hc, Henv. simpl in Hrun, Hrt, Hc, Henv.
  assert (env_is "KEEP_CONTAINER_RUNNING" "true" w1 = false) as Hkeep1.
  { unfold env_is in *. by rewrite Henv. }
  pose proof (stop_run out w1) as Hstop. simpl in Hstop.
  rewrite Hkeep1, Hc in Hstop. simpl in Hstop. destruct Hstop as [Hrt2 Hstop].
  pose proof (stop_preserves pool out w1) as Hp2.
  pose proof (stop_preserves isInitialized out w1) as Hi2.
  pose proof (stop_env out w1) as Henv2. unfold same in *.
  destruct Hrun as (He' & Hrt' & _ & _ & Hc' & Hp' & Hi').
  assert (pool (globalTeardown out w).2 = None) as Hpool by congruence.
  assert (isInitialized (globalTeardown out w).2 = false) as Hinit by congruence.
  split; [exact Hpool|]. split; [exact Hinit|].
  change (runtime w) with (runtime (run_ops out ops (fresh e))).
  split; [by rewrite <- Hrt', Hrt2, Hrt|]. split.
  - rewrite <- Hc'. rewrite Hrt in Hstop.
    destruct (container_stop_answer out (runtime (run_ops out ops (fresh e))) c);
      by destruct Hstop.
  - intros Hflag Hnew.
    change (env w) with (env (run_ops out ops (fresh e))) in *.
    assert (env (globalTeardown out w).2 = env (run_ops out ops (fresh e))) as Hsame
      by congruence.
    rewrite isReady_recreates; [done|exact Hinit| |].
    + unfold env_is in *. by rewrite Hsame.
    + unfold DatabaseConfigManager.loadConfig, env_or in *. by rewrite Hsame.
Qed.

Lemma globalTeardown_closes_and_stops_witness :
  let e : gmap string string :=
    <["LOG_API_CALLS" := "true"]> {[ "DB_INITIALIZED" := "true" ]} in
  let w := set_container (Some Sample.a_container)
             (run_ops Sample.quiet [OpInitialize] (fresh e)) in
  let run := globalTeardown Sample.quiet w in
  pool run.2 = None /\ isInitialized run.2 = false /\
  runtime run.2 = [ContainerStop Sample.a_container] /\
  container run.2 = None /\
  (DatabaseManager.isReady Sample.quiet run.2).1 = Return true.
Proof.
  intros e w run.
  destruct (globalTeardown_closes_and_stops Sample.quiet [OpInitialize] e Sample.a_container)
    as (Hp & Hi & Hrt & Hc & Hready).
  - vm_compute. reflexivity.
  - vm_compute. reflexivity.
  - intros p _. by eexists.
  - split; [exact Hp|]. split; [exact Hi|]. split; [exact Hrt|]. split; [exact Hc|].
    apply Hready; vm_compute; reflexivity.
Defined.

End Teardown.

(** ** Configuration, and setup with logging off *)

Section Configuration.

Lemma env_or_empty (name fallback key : string) (w : World) :
  env_or name fallback (with_env (insert key "") w) =
  env_or name fallback (with_env (delete key) w).
Proof.
  unfold env_or. simpl. destruct (decide (name = key)) as [->|Hne].
  - by rewrite lookup_insert_eq, lookup_delete_eq.
  - by rewrite lookup_insert_ne, lookup_delete_ne.
Qed.

(** X25.  An empty variable is an unset one: [loadConfig] reads the same
    configuration whether a variable is set to the empty string or deleted. *)
Theorem loadConfig_empty_is_unset (key : string) (w : World) :
  DatabaseConfigManager.loadConfig (with_env (insert key "") w) =
  DatabaseConfigManager.loadConfig (with_env (delete key) w).
Proof.
  unfold DatabaseConfigManager.loadConfig. by rewrite !env_or_empty.
Qed.

(** X21.  With logging off, [globalSetup] only prints: it returns, and nothing
    but the console has changed. *)
Theorem globalSetup_disabled (out : Outside) (w : World) :
  env_is "LOG_API_CALLS" "true" w = false ->
  let run := GlobalSetup.globalSetup out w in
  run.1 = Return tt /\ apart w run.2 /\ clock run.2 = clock w.
Proof.
  intros Hlog run. subst run. unfold GlobalSetup.globalSetup. run.
  rewrite !env_is_with_console, Hlog. simpl. run. by repeat split.
Qed.

Lemma globalSetup_disabled_witness :
  let run := GlobalSetup.globalSetup Sample.no_docker (fresh {[ "LOG_API_CALLS" := "false" ]}) in
  run.1 = Return tt /\ runtime run.2 = [] /\ db run.2 = [] /\ pool run.2 = None.
Proof.
  intros run.
  destruct (globalSetup_disabled Sample.no_docker (fresh {[ "LOG_API_CALLS" := "false" ]}))
    as (Hr & (_ & Hrt & Hdb & _ & _ & Hp & _) & _).
  - vm_compute. reflexivity.
  - split; [exact Hr|]. split; [symmetry; exact Hrt|]. split; [symmetry; exact Hdb|].
    symmetry. exact Hp.
Defined.

End Configuration.
